(** * libdicom, [src/dicom-file.c]: the Part 10 file reader

    A shallow embedding of the reader of DICOM Part 10 files
    (element headers and values, File Meta Information, the main Data Set,
    the Basic Offset Table and frames), and the properties of it that the
    specification talks about.  The last part, More of the reader, holds
    further properties of the reader and of the arguments of the tool
    [tools/dcm-dump.c].

    Conventions of the embedding.
    - A byte is a [Z]; only its value modulo 256 is ever looked at.
    - [uint16_t], [uint32_t], [uint64_t] and [size_t] values are [Z]s with the
      wrap-around written out ([size_t] is 64 bits wide, [long] as well).
    - A [FILE *] is the content of the file, a position and the end-of-file
      indicator.  Functions that take the stream (and a running byte counter
      [size_t *n]) return the new stream (and counter) next to their result.
    - A C string is a [string]; it never holds a NUL character.
    - Pointer results are an [outcome]: [Done] for a valid pointer, [Failed] for
      [NULL] (with the first message that [dcm_log_error] printed, as an
      [error]), [Aborted] for a failed [assert], [Undefined] where the source
      goes on with an object whose content the C standard leaves
      indeterminate or reads outside an allocation.  Allocation itself is
      taken to succeed. *)

From Stdlib Require Import ZArith List String Ascii Bool Lia.
Import ListNotations.

Local Open Scope string_scope.
Local Open Scope list_scope.
Local Open Scope Z_scope.

(** ** Outcomes *)

Inductive error : Type :=
| InvalidTag                  (* eheader_create: "Encountered invalid Tag" *)
| InvalidVR                   (* eheader_create: "invalid Value Representation" *)
| ReservedNonZero             (* "Unexpected value for reserved bytes" *)
| InvalidItemTag              (* iheader_create: "invalid Item Tag" *)
| ExpectedItem                (* "Expected tag ... for Item" / "Unexpected Tag found for ... Item" *)
| UnknownVR                   (* "has unexpected Value Representation" *)
| UnexpectedVM                (* "unexpected Value Multiplicity" *)
| DuplicateTag                (* dcm_dataset_insert returned false *)
| ElementConstructionFailed   (* a dcm_element_create_* returned NULL *)
| MissingMagic                (* "Prefix 'DICM' not found." *)
| UnexpectedFileMetaGroup     (* "Encountered File Meta Information group." *)
| MissingNumberOfFrames       (* get_num_frames: "Could not find Data Element" *)
| BadFrameCount               (* "'Number of Frames' is malformed." *)
| NotEncapsulated             (* "shall not contain a Basic Offset Table" *)
| MissingPixelDataOffset      (* "Read metadata first." *)
| NotAtPixelData              (* "File pointer not positioned at Pixel Data Element." *)
| MalformedBOT                (* "Encountered unexpected Item Tag in Basic Offset Table." *)
| MalformedExtendedOffsetTable (* "Failed to parse value of Extended Offset Table" *)
| NoBOT                       (* the silent [return NULL] of dcm_file_read_bot *)
| FrameCountMismatch          (* "Found incorrect number of Frame Items." *)
| BadFrameIndex               (* "Frame Number must be positive." *)
| MissingPixelDescription.    (* "Could not get image pixel description." *)

Inductive outcome (A : Type) : Type :=
| Done (a : A)
| Failed (e : error)
| Aborted
| Undefined
| OutOfFuel.

Arguments Done {A} a.
Arguments Failed {A} e.
Arguments Aborted {A}.
Arguments Undefined {A}.
Arguments OutOfFuel {A}.

Definition bind {A B : Type} (m : outcome A) (k : A -> outcome B) : outcome B :=
  match m with
  | Done a => k a
  | Failed e => Failed e
  | Aborted => Aborted
  | Undefined => Undefined
  | OutOfFuel => OutOfFuel
  end.

Notation "x <- m ;; k" := (bind m (fun x => k))
  (at level 61, m at next level, right associativity).
Notation "' pat <- m ;; k" := (bind m (fun x => match x with pat => k end))
  (at level 61, pat pattern, m at next level, right associativity).

(** ** Machine integers *)

Definition uint16 (z : Z) : Z := z mod 2 ^ 16.
Definition uint32 (z : Z) : Z := z mod 2 ^ 32.
Definition uint64 (z : Z) : Z := z mod 2 ^ 64.
Definition size_t (z : Z) : Z := z mod 2 ^ 64.

(** Conversion of an unsigned value of [bits] bits to the signed type of the
    same width (two's complement). *)
Definition to_signed (bits : Z) (z : Z) : Z :=
  if z mod 2 ^ bits <? 2 ^ (bits - 1) then z mod 2 ^ bits
  else z mod 2 ^ bits - 2 ^ bits.

Definition INT_MAX : Z := 2 ^ 31 - 1.
Definition LONG_MAX : Z := 2 ^ 63 - 1.
Definition LONG_MIN : Z := - 2 ^ 63.
Definition ULLONG_MAX : Z := 2 ^ 64 - 1.

(** The value of an object whose bytes, in memory order, are [bs]
    (the host is little-endian). *)
Definition le_decode (bs : list Z) : Z :=
  fold_right (fun b acc => b mod 256 + 256 * acc) 0 bs.

(** ** The stream *)

Record FILE : Type := mkFILE {
  contents : list Z;
  position : N;
  eof_indicator : bool
}.

Definition remaining (fp : FILE) : list Z :=
  skipn (N.to_nat (position fp)) (contents fp).

(** [fread(ptr, 1, count, fp)]: the bytes stored at [ptr]; their number is
    the value [fread] returns. *)
Definition fread (count : Z) (fp : FILE) : list Z * FILE :=
  let got := firstn (Z.to_nat count) (remaining fp) in
  (got,
   mkFILE (contents fp)
          (position fp + N.of_nat (List.length got))
          (eof_indicator fp || (Z.of_nat (List.length got) <? count))).

Inductive whence : Type := SEEK_SET | SEEK_CUR.

(** A seek to a negative offset fails and leaves the stream as it is. *)
Definition fseek (fp : FILE) (offset : Z) (w : whence) : FILE :=
  let target := match w with
                | SEEK_SET => offset
                | SEEK_CUR => Z.of_N (position fp) + offset
                end in
  if target <? 0 then fp else mkFILE (contents fp) (Z.to_N target) false.

Definition ftell (fp : FILE) : Z := Z.of_N (position fp).
Definition feof (fp : FILE) : bool := eof_indicator fp.

(** An [fread] whose count the source does not look at, into an object that
    was not initialised: when the stream is short, the rest of the object is
    indeterminate. *)
Definition fread_object (count : Z) (fp : FILE) : outcome (list Z * FILE) :=
  let '(got, fp') := fread count fp in
  if Z.of_nat (List.length got) =? count then Done (got, fp') else Undefined.

(** ** C strings *)

Definition char_of_byte (b : Z) : ascii := ascii_of_nat (Z.to_nat (b mod 256)).
Definition byte_of_char (c : ascii) : Z := Z.of_nat (nat_of_ascii c).

(** The string that starts at the first byte of [bs] and ends before its
    first NUL byte. *)
Fixpoint cstring (bs : list Z) : string :=
  match bs with
  | [] => EmptyString
  | b :: bs' => if b mod 256 =? 0 then EmptyString
                else String (char_of_byte b) (cstring bs')
  end.

Fixpoint bytes_of_string (s : string) : list Z :=
  match s with
  | EmptyString => []
  | String c s' => byte_of_char c :: bytes_of_string s'
  end.

(** [isspace] in the "C" locale. *)
Definition isspace (b : Z) : bool :=
  (b mod 256 =? 32) || ((9 <=? b mod 256) && (b mod 256 <=? 13)).

(** [strncpy(dst, src, 2); dst[2] = '\0'] *)
Definition strncpy2 (src : string) : string :=
  match src with
  | String a (String b _) => String a (String b EmptyString)
  | _ => src
  end.

(** ** Elements, data sets and the interface of [dicom.h]

    The element and data set containers live in files of the library that
    are not part of [dicom-file.c]; the reader only calls them. *)

(** Modelled from the spec: the value of an element (3, Data Model: "a
    sequence of decoded strings (with cardinality called Value
    Multiplicity), a typed numeric array, an opaque byte blob, or a nested
    Sequence"), with the arguments that the reader hands to the
    constructors [dcm_element_create_*].  A numeric array keeps the value
    of each object read from the stream (FD and FL: its bit pattern). *)
Inductive Element : Type :=
| mkElement (tag : Z) (vr : string) (value : Value)
with Value : Type :=
| Strings (strings : list string) (vm : Z)   (* the _multi string constructors *)
| Text (str : string)                        (* ST, LT, UR, UT *)
| Numbers (values : list Z) (vm : Z)         (* FD FL SS SL SV UL US UV *)
| Blob (value : list Z) (length : Z)         (* OB OD OF OL OV OW UC UN *)
| Sequence (items : list (list Element)).    (* SQ *)

Definition DcmDataSet : Type := list Element.

Definition element_tag (e : Element) : Z :=
  match e with mkElement tag _ _ => tag end.
Definition element_vr (e : Element) : string :=
  match e with mkElement _ vr _ => vr end.
Definition element_value (e : Element) : Value :=
  match e with mkElement _ _ value => value end.

(** The functions of [dicom.h] whose behaviour the reader depends on and
    whose code is elsewhere. *)
Class Collaborators : Type := {
  dcm_dict_lookup_vr : Z -> string;
  dcm_is_valid_tag : Z -> bool;
  dcm_is_valid_vr : string -> bool;
  dcm_is_encapsulated_transfer_syntax : option string -> bool;
  (** whether the constructor called for this tag, VR and value returns
      the element rather than [NULL] *)
  dcm_element_accepts : Element -> bool
}.

(** Modelled from the spec: the constructor surface of 6.3, "each
    constructor receives (tag, value, [vm]) and returns an owned Element,
    or fails". *)
Definition dcm_element_create {C : Collaborators}
    (tag : Z) (vr : string) (value : Value) : outcome Element :=
  if dcm_element_accepts (mkElement tag vr value)
  then Done (mkElement tag vr value)
  else Failed ElementConstructionFailed.

(** Modelled from the spec: [dcm_dataset_get] and [dcm_dataset_insert] of
    the data set, "an ordered insertion-preserving mapping from Tag to
    Element, unique per tag at that level". *)
Fixpoint dcm_dataset_get (dataset : DcmDataSet) (tag : Z) : option Element :=
  match dataset with
  | [] => None
  | e :: rest => if element_tag e =? tag then Some e
                 else dcm_dataset_get rest tag
  end.

Definition dcm_dataset_insert (dataset : DcmDataSet) (element : Element)
  : option DcmDataSet :=
  match dcm_dataset_get dataset (element_tag element) with
  | Some _ => None
  | None => Some (dataset ++ [element])
  end.

(** Modelled from the spec: the typed accessors [dcm_element_get_value_*]
    of the element container; each asserts the VR of the element and that
    the index is below its VM. *)
Definition dcm_element_get_value_string (vr : string) (element : Element)
    (index : nat) : outcome string :=
  match element with
  | mkElement _ vr' (Strings strings _) =>
      if String.eqb vr' vr then
        match nth_error strings index with
        | Some s => Done s
        | None => Aborted
        end
      else Aborted
  | _ => Aborted
  end.

Definition dcm_element_get_value_number (vr : string) (element : Element)
    (index : nat) : outcome Z :=
  match element with
  | mkElement _ vr' (Numbers values _) =>
      if String.eqb vr' vr then
        match nth_error values index with
        | Some v => Done v
        | None => Aborted
        end
      else Aborted
  | _ => Aborted
  end.

Definition dcm_element_get_value_OV (element : Element) : outcome (list Z) :=
  match element with
  | mkElement _ vr' (Blob value _) =>
      if String.eqb vr' "OV" then Done value else Aborted
  | _ => Aborted
  end.

(** ** Special tags *)

Definition TAG_ITEM : Z := 0xFFFEE000.
Definition TAG_ITEM_DELIM : Z := 0xFFFEE00D.
Definition TAG_SQ_DELIM : Z := 0xFFFEE0DD.
Definition TAG_TRAILING_PADDING : Z := 0xFFFCFFFC.
Definition TAG_EXTENDED_OFFSET_TABLE : Z := 0x7FE00001.
Definition TAG_PIXEL_DATA : Z := 0x7FE00010.
Definition TAG_FLOAT_PIXEL_DATA : Z := 0x7FE00008.
Definition TAG_DOUBLE_PIXEL_DATA : Z := 0x7FE00009.

(** ** Headers *)

Record IHeader : Type := mkIHeader {
  iheader_get_tag : Z;
  iheader_get_length : Z
}.

Record EHeader : Type := mkEHeader {
  eheader_get_tag : Z;
  eheader_vr : string;
  eheader_get_length : Z
}.

Definition iheader_create (tag : Z) (length : Z) : outcome IHeader :=
  if negb ((tag =? TAG_ITEM) || (tag =? TAG_ITEM_DELIM) || (tag =? TAG_SQ_DELIM))
  then Failed InvalidItemTag
  else Done (mkIHeader tag length).

Definition eheader_create {C : Collaborators} (tag : Z) (vr : string) (length : Z)
  : outcome EHeader :=
  if negb (dcm_is_valid_tag tag) then Failed InvalidTag
  else if negb (dcm_is_valid_vr vr) then Failed InvalidVR
  else Done (mkEHeader tag (strncpy2 vr) length).

Definition eheader_get_group_number (header : EHeader) : Z :=
  uint16 (Z.shiftr (eheader_get_tag header) 16).

Definition eheader_check_vr (header : EHeader) (vr : string) : bool :=
  String.eqb (eheader_vr header) vr.

Definition is_pixel_data_tag (tag : Z) : bool :=
  (tag =? TAG_PIXEL_DATA) || (tag =? TAG_FLOAT_PIXEL_DATA) ||
  (tag =? TAG_DOUBLE_PIXEL_DATA).

(** ** Reading tags and headers *)

Definition read_tag (fp : FILE) (n : Z) : outcome (Z * FILE * Z) :=
  '(group_num, fp) <- fread_object 2 fp ;;
  let n := size_t (n + 2) in
  '(elem_num, fp) <- fread_object 2 fp ;;
  let n := size_t (n + 2) in
  Done (uint32 (Z.shiftl (le_decode group_num) 16 + le_decode elem_num), fp, n).

Definition read_item_header (fp : FILE) (n : Z)
  : outcome (IHeader * FILE * Z) :=
  '(tag, fp, n) <- read_tag fp n ;;
  '(length, fp) <- fread_object 4 fp ;;
  let n := size_t (n + 4) in
  header <- iheader_create tag (le_decode length) ;;
  Done (header, fp, n).

(** The VRs whose explicit length field has two bytes. *)
Definition short_length_vrs : list string :=
  ["AE"; "AS"; "AT"; "CS"; "DA"; "DS"; "DT"; "FL"; "FD"; "IS"; "LO";
   "LT"; "PN"; "SH"; "SL"; "SS"; "ST"; "TM"; "UI"; "UL"; "US"].

Definition vr_in (vr : string) (l : list string) : bool :=
  existsb (String.eqb vr) l.

Definition read_element_header {C : Collaborators}
    (fp : FILE) (n : Z) (implicit : bool) : outcome (EHeader * FILE * Z) :=
  '(tag, fp, n) <- read_tag fp n ;;
  if implicit then
    let vr := strncpy2 (dcm_dict_lookup_vr tag) in
    '(length, fp) <- fread_object 4 fp ;;
    let n := size_t (n + 4) in
    header <- eheader_create tag vr (le_decode length) ;;
    Done (header, fp, n)
  else
    '(vr_bytes, fp) <- fread_object 2 fp ;;
    let n := size_t (n + 2) in
    let vr := cstring vr_bytes in
    if vr_in vr short_length_vrs then
      '(short_length, fp) <- fread_object 2 fp ;;
      let n := size_t (n + 2) in
      header <- eheader_create tag vr (le_decode short_length) ;;
      Done (header, fp, n)
    else
      '(reserved, fp) <- fread_object 2 fp ;;
      let n := size_t (n + 2) in
      if negb (le_decode reserved =? 0) then Failed ReservedNonZero
      else
        '(length, fp) <- fread_object 4 fp ;;
        let n := size_t (n + 4) in
        header <- eheader_create tag vr (le_decode length) ;;
        Done (header, fp, n).

(** ** Character strings *)

Definition is_backslash (c : ascii) : bool := Ascii.eqb c "\"%char.

(** [strtok(s, "\\")], on the text that is left: leading separators are
    skipped; there is no token when nothing else is left; the token ends at
    the next separator, and the scan resumes after it. *)
Fixpoint skip_separators (s : string) : string :=
  match s with
  | String c s' => if is_backslash c then skip_separators s' else s
  | EmptyString => EmptyString
  end.

Fixpoint scan_token (s : string) : string * string :=
  match s with
  | EmptyString => (EmptyString, EmptyString)
  | String c s' =>
      if is_backslash c then (EmptyString, s')
      else let '(token, rest) := scan_token s' in (String c token, rest)
  end.

Definition strtok (s : string) : option (string * string) :=
  match skip_separators s with
  | EmptyString => None
  | s' => Some (scan_token s')
  end.

(** [while (token) { utarray_push_back(array, &token); token = strtok(NULL, "\\"); }]
    A token takes at least one character, so [fuel] = the length of the
    string is enough. *)
Fixpoint push_tokens (fuel : nat) (s : string) : list string :=
  match fuel with
  | O => []
  | S fuel' =>
      match strtok s with
      | None => []
      | Some (token, rest) => token :: push_tokens fuel' rest
      end
  end.

(** The parts and [*vm]. *)
Definition parse_character_string (str : string) : list string * Z :=
  let array :=
    if (String.length str =? 0)%nat then [EmptyString]
    else push_tokens (String.length str) str in
  (array, uint32 (Z.of_nat (List.length array))).

Definition character_string_vrs : list string :=
  ["AE"; "AS"; "AT"; "CS"; "DA"; "DS"; "DT"; "IS"; "LO"; "LT"; "PN";
   "SH"; "ST"; "TM"; "UI"; "UR"; "UT"].

(** The character string VRs whose constructor takes one string. *)
Definition single_string_vrs : list string := ["ST"; "LT"; "UR"; "UT"].

(** The buffer [value] of [length + 1] bytes after
    [if (length > 0) if (!UI) if (isspace(value[length - 1])) value[length - 1] = '\0';]
    and [value[length] = '\0']. *)
Definition terminate_value (header : EHeader) (length : Z) (value : list Z)
  : list Z :=
  let value :=
    if (0 <? length) && negb (eheader_check_vr header "UI") &&
       isspace (nth (Z.to_nat (length - 1)) value 0)
    then firstn (Z.to_nat (length - 1)) value ++ [0]
    else value in
  value ++ [0].

(** ** Fixed-width numbers *)

(** [sizeof] of the element type of a numeric VR and the conversion of the
    unsigned value of its bytes to that type, in the order of the chain of
    comparisons in [read_element]. *)
Definition numeric_vr (header : EHeader) : option (Z * (Z -> Z)) :=
  if eheader_check_vr header "FD" then Some (8, fun v => v)
  else if eheader_check_vr header "FL" then Some (4, fun v => v)
  else if eheader_check_vr header "SS" then Some (2, to_signed 16)
  else if eheader_check_vr header "SL" then Some (4, to_signed 32)
  else if eheader_check_vr header "SV" then Some (8, to_signed 64)
  else if eheader_check_vr header "UL" then Some (4, fun v => v)
  else if eheader_check_vr header "US" then Some (2, fun v => v)
  else if eheader_check_vr header "UV" then Some (8, fun v => v)
  else None.

(** [for (i = 0; i < vm; i++) { T val; *n += fread(&val, 1, sizeof(T), fp); values[i] = val; }] *)
Fixpoint read_values (size : Z) (convert : Z -> Z) (vm : nat) (fp : FILE) (n : Z)
  : outcome (list Z * FILE * Z) :=
  match vm with
  | O => Done ([], fp, n)
  | S vm' =>
      '(val, fp) <- fread_object size fp ;;
      let n := size_t (n + size) in
      '(values, fp, n) <- read_values size convert vm' fp n ;;
      Done (convert (le_decode val) :: values, fp, n)
  end.

Definition opaque_vrs : list string :=
  ["OB"; "OD"; "OF"; "OL"; "OV"; "OW"; "UC"; "UN"].

(** ** [read_element]

    The value of the element whose header was just read.  One unit of
    [fuel] pays for a call or for one turn of a loop of the SQ branch. *)
Fixpoint read_element {C : Collaborators} (fuel : nat) (fp : FILE)
    (header : EHeader) (n : Z) (implicit : bool) {struct fuel}
  : outcome (Element * FILE * Z) :=
  match fuel with
  | O => OutOfFuel
  | S fuel =>
    let tag := eheader_get_tag header in
    let vr := eheader_vr header in
    let length := uint32 (eheader_get_length header) in
    if vr_in vr character_string_vrs then
      (* malloc(length + 1), the sum taken in uint32_t *)
      if uint32 (length + 1) =? 0 then Undefined
      else
        '(value, fp) <- fread_object length fp ;;
        let n := size_t (n + length) in
        let '(strings, vm) :=
          parse_character_string (cstring (terminate_value header length value)) in
        if vr_in vr single_string_vrs then
          if 1 <? vm then Failed UnexpectedVM
          else match strings with
               | str :: _ =>
                   element <- dcm_element_create tag vr (Text str) ;;
                   Done (element, fp, n)
               | [] => Undefined          (* strings[0] of an empty array *)
               end
        else
          element <- dcm_element_create tag vr (Strings strings vm) ;;
          Done (element, fp, n)
    else if eheader_check_vr header "SQ" then
      if length =? 0 then
        element <- dcm_element_create tag vr (Sequence []) ;;
        Done (element, fp, n)
      else
        '(value, fp, n_seq) <- read_items fuel fp tag length implicit 0 [] ;;
        let n := size_t (n + n_seq) in
        element <- dcm_element_create tag vr (Sequence value) ;;
        Done (element, fp, n)
    else
      match numeric_vr header with
      | Some (size, convert) =>
          let vm := uint32 (length / size) in
          '(values, fp, n) <- read_values size convert (Z.to_nat vm) fp n ;;
          element <- dcm_element_create tag vr (Numbers values vm) ;;
          Done (element, fp, n)
      | None =>
          (* [*n += fread(value, 1, length, fp)] comes before the VR is
             looked at; the buffer goes to the constructor of an opaque VR
             and is not looked at for any other VR *)
          if vr_in vr opaque_vrs then
            '(value, fp) <- fread_object length fp ;;
            let n := size_t (n + length) in
            element <- dcm_element_create tag vr (Blob value length) ;;
            Done (element, fp, n)
          else
            let '(_, _) := fread length fp in
            Failed UnknownVR
      end
  end

(** [while (n_seq < length)]: the Items of a Sequence *)
with read_items {C : Collaborators} (fuel : nat) (fp : FILE) (tag : Z)
    (length : Z) (implicit : bool) (n_seq : Z) (value : list DcmDataSet)
    {struct fuel} : outcome (list DcmDataSet * FILE * Z) :=
  match fuel with
  | O => OutOfFuel
  | S fuel =>
    if n_seq <? length then
      '(item_iheader, fp, n_seq) <- read_item_header fp n_seq ;;
      let item_tag := iheader_get_tag item_iheader in
      let item_length := uint32 (iheader_get_length item_iheader) in
      if item_tag =? TAG_SQ_DELIM then Done (value, fp, n_seq)
      else if negb (item_tag =? TAG_ITEM) then Failed ExpectedItem
      else
        '(item_dataset, fp, n_item) <-
           read_item_elements fuel fp tag item_length implicit 0 [] ;;
        let n_seq := size_t (n_seq + n_item) in
        read_items fuel fp tag length implicit n_seq (value ++ [item_dataset])
    else Done (value, fp, n_seq)
  end

(** [while (n_item < item_length)]: the elements of an Item *)
with read_item_elements {C : Collaborators} (fuel : nat) (fp : FILE) (tag : Z)
    (item_length : Z) (implicit : bool) (n_item : Z)
    (item_dataset : DcmDataSet) {struct fuel}
  : outcome (DcmDataSet * FILE * Z) :=
  match fuel with
  | O => OutOfFuel
  | S fuel =>
    if n_item <? item_length then
      '(probe, fp, n_item) <- read_tag fp n_item ;;
      if probe =? TAG_ITEM_DELIM then
        let fp := fseek fp 4 SEEK_CUR in
        let n_item := size_t (n_item + 4) in
        Done (item_dataset, fp, n_item)
      else
        let fp := fseek fp (-4) SEEK_CUR in
        let n_item := size_t (n_item - 4) in
        '(item_eheader, fp, n_item) <- read_element_header fp n_item implicit ;;
        '(item_element, fp, n_item) <-
           read_element fuel fp item_eheader n_item implicit ;;
        match dcm_dataset_insert item_dataset item_element with
        | None => Failed DuplicateTag
        | Some item_dataset =>
            read_item_elements fuel fp tag item_length implicit n_item item_dataset
        end
    else Done (item_dataset, fp, n_item)
  end.

(** ** The file handle *)

Record DcmFile : Type := mkDcmFile {
  f_fp : FILE;
  f_meta : option DcmDataSet;
  f_offset : Z;
  f_transfer_syntax_uid : option string;
  f_pixel_data_offset : Z;
  f_extended_offset_table : option (list Z)
}.

(** The handle that [dcm_file_create] returns for a file with these bytes. *)
Definition dcm_file_create (bytes : list Z) : DcmFile :=
  mkDcmFile (mkFILE bytes 0 false) None 0 None 0 None.

(** ** [dcm_file_read_file_meta] *)

(** [strcmp(buffer, s) == 0] for a buffer that holds the bytes [got] that
    were read, then bytes that were never written, and a NUL after as
    many bytes as [s] has characters: the first byte that differs decides,
    when it was read. *)
Fixpoint strcmp_read (got : list Z) (s : string) {struct s} : outcome bool :=
  match s with
  | EmptyString => Done true
  | String c s' =>
      match got with
      | [] => Undefined
      | b :: got' =>
          if b mod 256 =? byte_of_char c then strcmp_read got' s'
          else Done false
      end
  end.

(** A [NULL] on which the source calls [dcm_element_destroy] for an element
    that was destroyed before or that the data set owns, which is destroyed
    next: a second [free]. *)
Definition freed_twice {A : Type} (m : outcome A) : outcome A :=
  match m with
  | Failed _ => Undefined
  | _ => m
  end.

(** The [while (true)] loop over the elements of group 0x0002. *)
Fixpoint read_file_meta_elements {C : Collaborators} (fuel : nat) (loop : nat)
    (fp : FILE) (size : Z) (group_length : Z) (file_meta : DcmDataSet)
  : outcome (DcmDataSet * FILE * Z) :=
  match loop with
  | O => OutOfFuel
  | S loop =>
    '(header, fp, size) <- freed_twice (read_element_header fp size false) ;;
    if negb (eheader_get_group_number header =? 0x0002)
    then Done (file_meta, fp, size)
    else
      '(element, fp, size) <- read_element fuel fp header size false ;;
      match dcm_dataset_insert file_meta element with
      | None => Failed DuplicateTag
      | Some file_meta =>
          if group_length <=? size then Done (file_meta, fp, size)
          else read_file_meta_elements fuel loop fp size group_length file_meta
      end
  end.

Definition dcm_file_read_file_meta {C : Collaborators} (fuel : nat) (file : DcmFile)
  : outcome (DcmDataSet * DcmFile) :=
  let implicit := false in
  let fp := f_fp file in
  (* File Preamble *)
  let '(preamble, fp) := fread 128 fp in
  (* DICOM Prefix *)
  let '(prefix, fp) := fread 4 fp in
  found <- strcmp_read prefix "DICM" ;;
  if negb found then Failed MissingMagic
  else
    let size := 0 in
    (* File Meta Information Group Length *)
    '(header, fp, size) <- read_element_header fp size implicit ;;
    '(element, fp, size) <- read_element fuel fp header size implicit ;;
    group_length <- dcm_element_get_value_number "UL" element 0 ;;
    (* File Meta Information Version *)
    '(header, fp, size) <- read_element_header fp size implicit ;;
    '(element, fp, size) <- read_element fuel fp header size implicit ;;
    '(file_meta, fp, size) <-
       read_file_meta_elements fuel fuel fp size group_length [] ;;
    let offset := ftell fp in
    match dcm_dataset_get file_meta 0x00020010 with
    | None => Aborted             (* assert in dcm_element_get_value_UI *)
    | Some element =>
        transfer_syntax_uid <- dcm_element_get_value_string "UI" element 0 ;;
        Done (file_meta,
              mkDcmFile fp (f_meta file) offset (Some transfer_syntax_uid)
                        (f_pixel_data_offset file)
                        (f_extended_offset_table file))
    end.

(** ** [dcm_file_read_metadata] *)

(** How the loop over the Data Set ended.  For the Pixel Data Element, the
    positions of the stream before and after its header was read (they are
    not stored by the source). *)
Inductive stop : Type :=
| AtEndOfFile
| AtTrailingPadding
| AtPixelData (header_start header_end : Z).

(** The [while (!feof(file->fp))] loop.  The stream that it returns stands
    where [ftell] is taken for [pixel_data_offset]. *)
Fixpoint read_dataset_elements {C : Collaborators} (fuel : nat) (loop : nat)
    (fp : FILE) (n : Z) (implicit : bool) (dataset : DcmDataSet)
  : outcome (DcmDataSet * FILE * stop) :=
  match loop with
  | O => OutOfFuel
  | S loop =>
    if feof fp then Done (dataset, fp, AtEndOfFile)
    else
      let '(tmp, fp) := fread 1 fp in
      if (List.length tmp =? 0)%nat then Done (dataset, fp, AtEndOfFile)
      else
        let fp := fseek fp (-1) SEEK_CUR in
        let header_start := ftell fp in
        '(header, fp, n) <- read_element_header fp n implicit ;;
        let tag := eheader_get_tag header in
        let group_number := eheader_get_group_number header in
        if tag =? TAG_TRAILING_PADDING then Done (dataset, fp, AtTrailingPadding)
        else if is_pixel_data_tag tag then
          let header_end := ftell fp in
          let fp := if implicit then fseek fp (-8) SEEK_CUR
                    else fseek fp (-12) SEEK_CUR in
          Done (dataset, fp, AtPixelData header_start header_end)
        else if group_number =? 0x0002 then Failed UnexpectedFileMetaGroup
        else
          '(element, fp, n) <- read_element fuel fp header n implicit ;;
          match dcm_dataset_insert dataset element with
          | None => Failed DuplicateTag
          | Some dataset =>
              read_dataset_elements fuel loop fp n implicit dataset
          end
  end.

(** [implicit], as [dcm_file_read_metadata] computes it from the cached
    Transfer Syntax UID. *)
Definition implicit_mode (transfer_syntax_uid : option string) : bool :=
  match transfer_syntax_uid with
  | Some uid => String.eqb uid "1.2.840.10008.1.2"
  | None => false
  end.

(** [if (file->offset == 0) { file_meta = dcm_file_read_file_meta(file); ... }] *)
Definition ensure_file_meta {C : Collaborators} (fuel : nat) (file : DcmFile)
  : outcome DcmFile :=
  if f_offset file =? 0
  then '(_, file) <- dcm_file_read_file_meta fuel file ;; Done file
  else Done file.

(** The data set, the handle afterwards and how the loop ended. *)
Definition read_metadata_trace {C : Collaborators} (fuel : nat) (file : DcmFile)
  : outcome (DcmDataSet * DcmFile * stop) :=
  file <- ensure_file_meta fuel file ;;
  let fp := fseek (f_fp file) (f_offset file) SEEK_SET in
  let implicit := implicit_mode (f_transfer_syntax_uid file) in
  '(dataset, fp, stopped) <- read_dataset_elements fuel fuel fp 0 implicit [] ;;
  let pixel_data_offset :=
    match stopped with
    | AtPixelData _ _ => ftell fp
    | _ => f_pixel_data_offset file
    end in
  Done (dataset,
        mkDcmFile fp (f_meta file) (f_offset file)
                  (f_transfer_syntax_uid file) pixel_data_offset
                  (f_extended_offset_table file),
        stopped).

Definition dcm_file_read_metadata {C : Collaborators} (fuel : nat) (file : DcmFile)
  : outcome (DcmDataSet * DcmFile) :=
  '(dataset, file, _) <- read_metadata_trace fuel file ;;
  Done (dataset, file).

(** ** Number of Frames *)

Fixpoint skip_spaces (s : string) : string :=
  match s with
  | String c s' => if isspace (byte_of_char c) then skip_spaces s' else s
  | EmptyString => EmptyString
  end.

Definition decimal_digit (c : ascii) : option Z :=
  let b := byte_of_char c in
  if (48 <=? b) && (b <=? 57) then Some (b - 48) else None.

Fixpoint decimal_digits (s : string) (acc : Z) : Z :=
  match s with
  | String c s' =>
      match decimal_digit c with
      | Some d => decimal_digits s' (10 * acc + d)
      | None => acc
      end
  | EmptyString => acc
  end.

(** [strtol(nptr, NULL, 10)] of the C library: white space, an optional
    sign, the longest run of decimal digits (0 when there is none), clamped
    to the range of [long]. *)
Definition strtol_10 (nptr : string) : Z :=
  let s := skip_spaces nptr in
  let '(negative, s) :=
    match s with
    | String "-"%char s' => (true, s')
    | String "+"%char s' => (false, s')
    | _ => (false, s)
    end in
  let magnitude := decimal_digits s 0 in
  let v := if negative then - magnitude else magnitude in
  Z.max LONG_MIN (Z.min LONG_MAX v).

(** [strtoull(nptr, &end_ptr, 64)] of the C library: 64 is not a base that
    [strtoull] converts in (those are 0 and 2 to 36); nothing is converted
    and 0 is returned, whatever [nptr] holds. *)
Definition strtoull_64 (nptr : list Z) : Z := 0.

Definition get_num_frames (metadata : DcmDataSet) : outcome Z :=
  let tag := 0x00280008 in
  match dcm_dataset_get metadata tag with
  | None => Failed MissingNumberOfFrames
  | Some element =>
      value <- dcm_element_get_value_string "IS" element 0 ;;
      Done (uint32 (strtol_10 value))
  end.

(** ** The Basic Offset Table *)

(** Modelled from the spec: the table that [dcm_bot_create] returns, "BOT
    { num_frames: u32, offsets: [u64; num_frames] }", and its accessor
    [dcm_bot_get_frame_offset] of a frame number that starts at 1. *)
Record DcmBOT : Type := mkDcmBOT {
  dcm_bot_offsets : list Z;
  dcm_bot_get_num_frames : Z
}.

Definition dcm_bot_create (offsets : list Z) (num_frames : Z) : DcmBOT :=
  mkDcmBOT offsets num_frames.

Definition dcm_bot_get_frame_offset (bot : DcmBOT) (number : Z) : outcome Z :=
  if (1 <=? number) && (number <=? dcm_bot_get_num_frames bot) then
    match nth_error (dcm_bot_offsets bot) (Z.to_nat (number - 1)) with
    | Some offset => Done offset
    | None => Undefined
    end
  else Aborted.

(** A pointer that the source uses without looking at it: [NULL] fails the
    [assert] of the getter it is passed to. *)
Definition asserted {A : Type} (m : outcome A) : outcome A :=
  match m with
  | Failed _ => Aborted
  | _ => m
  end.

(** The bytes of an object of [size] bytes after [fread] has stored the
    bytes [got] at its start: behind them are the bytes that the object
    held before; they are indeterminate when it was never written. *)
Definition fread_into (size : Z) (object : option (list Z)) (got : list Z)
  : outcome (list Z) :=
  if Z.of_nat (List.length got) =? size then Done got
  else match object with
       | Some old => Done (got ++ skipn (List.length got) old)
       | None => Undefined
       end.

(** [for (i = 0; i < num_frames; i++)] over the value of the BOT Item.
    [tmp_value] is a local of the function: it holds the bytes of the
    entry read before, and nothing at first. *)
Fixpoint read_bot_values (count : nat) (fp : FILE) (tmp_value : option (list Z))
  : outcome (list Z * FILE) :=
  match count with
  | O => Done ([], fp)
  | S count =>
      let '(got, fp) := fread 4 fp in
      tmp_value <- fread_into 4 tmp_value got ;;
      let value := uint64 (le_decode tmp_value) in
      if value =? TAG_ITEM then Failed MalformedBOT
      else
        '(offsets, fp) <- read_bot_values count fp (Some tmp_value) ;;
        Done (to_signed 64 value :: offsets, fp)
  end.

(** [for (i = 0; i < num_frames; i++)] over the Extended Offset Table *)
Fixpoint read_extended_offsets (blob : list Z) (i : Z) (count : nat)
  : outcome (list Z) :=
  match count with
  | O => Done []
  | S count =>
      let value := uint64 (strtoull_64 blob) in
      if (value =? 0) && (0 <? i)
      then Undefined     (* iheader_destroy(iheader) a second time *)
      else
        offsets <- read_extended_offsets blob (i + 1) count ;;
        Done (to_signed 64 value :: offsets)
  end.

Definition dcm_file_read_bot {C : Collaborators} (file : DcmFile)
    (metadata : DcmDataSet) : outcome DcmBOT :=
  if negb (dcm_is_encapsulated_transfer_syntax (f_transfer_syntax_uid file))
  then Failed NotEncapsulated
  else
    num_frames <- get_num_frames metadata ;;
    if num_frames =? 0 then Failed BadFrameCount
    else if f_pixel_data_offset file =? 0 then Failed MissingPixelDataOffset
    else
      let fp := fseek (f_fp file) (f_pixel_data_offset file) SEEK_SET in
      (* tmp_offset is only ever added to; it starts at 0 here *)
      '(eheader, fp, tmp_offset) <- asserted (read_element_header fp 0 false) ;;
      if negb (is_pixel_data_tag (eheader_get_tag eheader))
      then Failed NotAtPixelData
      else
        (* The header of the BOT Item *)
        '(iheader, fp, tmp_offset) <- read_item_header fp tmp_offset ;;
        if negb (iheader_get_tag iheader =? TAG_ITEM) then Failed ExpectedItem
        else
          let item_length := uint32 (iheader_get_length iheader) in
          if 0 <? item_length then
            '(offsets, fp) <- read_bot_values (Z.to_nat num_frames) fp None ;;
            Done (dcm_bot_create offsets num_frames)
          else
            match dcm_dataset_get metadata 0x7FE00001 with
            | Some eot_element =>
                blob <- dcm_element_get_value_OV eot_element ;;
                offsets <- read_extended_offsets blob 0 (Z.to_nat num_frames) ;;
                Failed NoBOT
            | None => Failed NoBOT
            end.

(** ** The pixel description *)

Record PixelDescription : Type := mkPixelDescription {
  rows : Z;
  columns : Z;
  samples_per_pixel : Z;
  bits_allocated : Z;
  bits_stored : Z;
  high_bit : option Z;            (* never assigned *)
  pixel_representation : Z;
  planar_configuration : Z;
  photometric_interpretation : string
}.

(** [element = dcm_dataset_get(metadata, tag)] and
    [desc->field = dcm_element_get_value_US(element, 0)], a [uint16_t]. *)
Definition get_US (metadata : DcmDataSet) (tag : Z) : outcome Z :=
  match dcm_dataset_get metadata tag with
  | None => Failed MissingPixelDescription
  | Some element =>
      v <- dcm_element_get_value_number "US" element 0 ;;
      Done (uint16 v)
  end.

Definition create_pixel_description (metadata : DcmDataSet)
  : outcome PixelDescription :=
  rows <- get_US metadata 0x00280010 ;;
  columns <- get_US metadata 0x00280011 ;;
  samples_per_pixel <- get_US metadata 0x00280002 ;;
  bits_allocated <- get_US metadata 0x00280100 ;;
  bits_stored <- get_US metadata 0x00280101 ;;
  pixel_representation <- get_US metadata 0x00280103 ;;
  planar_configuration <- get_US metadata 0x00280006 ;;
  match dcm_dataset_get metadata 0x00280004 with
  | None => Failed MissingPixelDescription
  | Some element =>
      photometric_interpretation <- dcm_element_get_value_string "CS" element 0 ;;
      Done (mkPixelDescription rows columns samples_per_pixel bits_allocated
              bits_stored None pixel_representation planar_configuration
              photometric_interpretation)
  end.

(** ** [dcm_file_build_bot] *)

(** The [while (true)] loop over the Frame Items.  [current_offset] is the
    local of that name, the counter that [read_item_header] adds to. *)
Fixpoint scan_frame_items (loop : nat) (fp : FILE) (current_offset : Z)
    (num_frames : Z) (i : Z) (offsets : list Z) : outcome (list Z * Z) :=
  match loop with
  | O => OutOfFuel
  | S loop =>
    '(iheader, fp, current_offset) <-
       asserted (read_item_header fp current_offset) ;;
    let iheader_tag := iheader_get_tag iheader in
    if iheader_tag =? TAG_SQ_DELIM then Done (offsets, i)
    else if negb (iheader_tag =? TAG_ITEM) then Failed ExpectedItem
    else if feof fp then Done (offsets, i)
    else if num_frames <=? i then Undefined   (* offsets[i] is outside the array *)
    else
      let offsets := offsets ++ [to_signed 64 current_offset] in
      let item_length := uint32 (iheader_get_length iheader) in
      let fp := fseek fp item_length SEEK_CUR in
      scan_frame_items loop fp current_offset num_frames (uint64 (i + 1)) offsets
  end.

(** [for (i = 0; i < num_frames; i++) offsets[i] = i * desc->rows * desc->columns * desc->samples_per_pixel;]
    with [i] a [uint64_t]. *)
Fixpoint native_offsets (desc : PixelDescription) (i : Z) (count : nat)
  : list Z :=
  match count with
  | O => []
  | S count =>
      to_signed 64
        (uint64 (uint64 (uint64 (i * rows desc) * columns desc)
                 * samples_per_pixel desc))
      :: native_offsets desc (i + 1) count
  end.

(** [current_offset] is the content of the local [size_t current_offset]
    when the function starts; the source does not initialise it.  The loop
    over the Frame Items gets one turn more than the file has bytes: a turn
    that goes on has read the 8 bytes of a header further on in the file. *)
Definition dcm_file_build_bot {C : Collaborators} (current_offset : Z)
    (file : DcmFile) (metadata : DcmDataSet) : outcome DcmBOT :=
  num_frames <- get_num_frames metadata ;;
  if num_frames =? 0 then Failed BadFrameCount
  else if f_pixel_data_offset file =? 0 then Failed MissingPixelDataOffset
  else
    let fp := fseek (f_fp file) (f_pixel_data_offset file) SEEK_SET in
    '(eheader, fp, tmp_offset) <- asserted (read_element_header fp 0 false) ;;
    if negb (is_pixel_data_tag (eheader_get_tag eheader))
    then Failed NotAtPixelData
    else if dcm_is_encapsulated_transfer_syntax (f_transfer_syntax_uid file) then
      (* The header of the BOT Item *)
      '(iheader, fp, tmp_offset) <- read_item_header fp tmp_offset ;;
      if negb (iheader_get_tag iheader =? TAG_ITEM) then Failed ExpectedItem
      else
        let item_length := uint32 (iheader_get_length iheader) in
        (* Move filepointer to first byte of first Frame item *)
        let fp := fseek fp item_length SEEK_SET in
        '(offsets, i) <-
           scan_frame_items (S (List.length (contents fp))) fp current_offset
                            num_frames 0 [] ;;
        if negb (i =? num_frames) then Failed FrameCountMismatch
        else Done (dcm_bot_create offsets num_frames)
    else
      match create_pixel_description metadata with
      | Done desc =>
          Done (dcm_bot_create (native_offsets desc 0 (Z.to_nat num_frames))
                               num_frames)
      | Failed _ => Undefined      (* desc->rows with desc == NULL *)
      | Aborted => Aborted
      | Undefined => Undefined
      | OutOfFuel => OutOfFuel
      end.

(** ** [dcm_file_read_frame] *)

(** Modelled from the spec: the frame that [dcm_frame_create] returns,
    "Frame { number, value, length, rows, columns, samples_per_pixel,
    bits_allocated, bits_stored, pixel_representation,
    planar_configuration, photometric_interpretation,
    transfer_syntax_uid }". *)
Record DcmFrame : Type := mkDcmFrame {
  frame_number : Z;
  frame_value : list Z;
  frame_length : Z;
  frame_rows : Z;
  frame_columns : Z;
  frame_samples_per_pixel : Z;
  frame_bits_allocated : Z;
  frame_bits_stored : Z;
  frame_pixel_representation : Z;
  frame_planar_configuration : Z;
  frame_photometric_interpretation : string;
  frame_transfer_syntax_uid : string
}.

(** [desc->rows * desc->columns * desc->samples_per_pixel], a product of
    [int]s after promotion. *)
Definition int_mul (a b : Z) : outcome Z :=
  if INT_MAX <? a * b then Undefined else Done (a * b).

Definition dcm_file_read_frame {C : Collaborators} (file : DcmFile)
    (metadata : DcmDataSet) (bot : DcmBOT) (number : Z) : outcome DcmFrame :=
  if number =? 0 then Failed BadFrameIndex
  else
    frame_offset <- dcm_bot_get_frame_offset bot number ;;
    let num_frames := dcm_bot_get_num_frames bot in
    let encapsulated :=
      dcm_is_encapsulated_transfer_syntax (f_transfer_syntax_uid file) in
    let first_frame_offset :=
      if encapsulated
      then uint32 (12 + 8 + 4 * num_frames)   (* Pixel Data header and BOT *)
      else 10 in                              (* Header of Pixel Data Element *)
    let total_frame_offset :=
      to_signed 64
        (uint64 (f_pixel_data_offset file + first_frame_offset + frame_offset)) in
    let fp := fseek (f_fp file) total_frame_offset SEEK_SET in
    desc <- create_pixel_description metadata ;;
    '(length, fp) <-
       (if encapsulated then
          '(iheader, fp, n) <- read_item_header fp 0 ;;
          if negb (iheader_get_tag iheader =? TAG_ITEM) then Failed ExpectedItem
          else Done (uint32 (iheader_get_length iheader), fp)
        else
          rc <- int_mul (rows desc) (columns desc) ;;
          rcs <- int_mul rc (samples_per_pixel desc) ;;
          Done (uint32 rcs, fp)) ;;
    '(value, fp) <- fread_object length fp ;;
    match f_transfer_syntax_uid file with
    | None => Undefined                       (* strdup(NULL) *)
    | Some transfer_syntax_uid =>
        Done (mkDcmFrame number value length (rows desc) (columns desc)
                (samples_per_pixel desc) (bits_allocated desc)
                (bits_stored desc) (pixel_representation desc)
                (planar_configuration desc) (photometric_interpretation desc)
                transfer_syntax_uid)
    end.

(** * What the specification says, in its words *)

(** "Split on '\\' into parts; the empty buffer yields a single empty
    string": the text between the separators, empty stretches included. *)
Fixpoint split_on_backslash (s : string) : list string :=
  match s with
  | EmptyString => [EmptyString]
  | String c s' =>
      if is_backslash c then EmptyString :: split_on_backslash s'
      else match split_on_backslash s' with
           | part :: parts => String c part :: parts
           | [] => [String c EmptyString]
           end
  end.

(** "strip a single trailing whitespace byte"; not for UI. *)
Definition strip_trailing_space (is_ui : bool) (value : list Z) : list Z :=
  if negb is_ui && isspace (last value 0) then removelast value else value.

(** "offsets ... i * rows * columns * samples_per_pixel * (bits_allocated / 8)" *)
Definition spec_frame_offset (desc : PixelDescription) (i : Z) : Z :=
  i * rows desc * columns desc * samples_per_pixel desc *
  (bits_allocated desc / 8).

(** "Read rows * columns * samples_per_pixel * (bits_allocated/8) bytes." *)
Definition spec_frame_length (desc : PixelDescription) : Z :=
  rows desc * columns desc * samples_per_pixel desc * (bits_allocated desc / 8).

(** * Vocabulary of the properties *)

Definition nonempty (s : string) : bool :=
  match s with
  | EmptyString => false
  | String _ _ => true
  end.

(** The stream [count] bytes further on, after reads that were complete. *)
Definition advance (fp : FILE) (count : Z) : FILE :=
  mkFILE (contents fp) (position fp + Z.to_N count) (eof_indicator fp).

(** The values of [vm] consecutive objects of [size] bytes. *)
Fixpoint decode_values (size : Z) (convert : Z -> Z) (vm : nat) (bytes : list Z)
  : list Z :=
  match vm with
  | O => []
  | S vm' =>
      convert (le_decode (firstn (Z.to_nat size) bytes))
      :: decode_values size convert vm' (skipn (Z.to_nat size) bytes)
  end.

(** The errors that a computation can fail with. *)
Definition fails_within {A : Type} (errors : list error) (m : outcome A) : Prop :=
  forall e : error, m = Failed e -> In e errors.

(** The errors of [dcm_file_read_bot] and [dcm_file_build_bot] once the
    Number of Frames has been accepted. *)
Definition errors_after_frame_count : list error :=
  [MissingPixelDataOffset; NotAtPixelData; InvalidItemTag; ExpectedItem;
   MalformedBOT; MalformedExtendedOffsetTable; NoBOT; FrameCountMismatch].

(** The same file, not further back. *)
Definition stream_moves_on (fp fp' : FILE) : Prop :=
  contents fp' = contents fp /\ (position fp <= position fp')%N.

(** * Example files

    Byte-level builders for the streams that the examples below are run on,
    and one instance of the collaborators. *)

Definition u16le (v : Z) : list Z := [v mod 256; (v / 256) mod 256].
Definition u32le (v : Z) : list Z := u16le (v mod 65536) ++ u16le (v / 65536).
Definition u64le (v : Z) : list Z := u32le (v mod 2 ^ 32) ++ u32le (v / 2 ^ 32).

Definition tag_bytes (tag : Z) : list Z :=
  u16le (tag / 65536) ++ u16le (tag mod 65536).

(** An explicit VR element with a 2-byte length. *)
Definition explicit_short (tag : Z) (vr : string) (value : list Z) : list Z :=
  tag_bytes tag ++ bytes_of_string vr ++
  u16le (Z.of_nat (List.length value)) ++ value.

(** An explicit VR element with 2 reserved bytes and a 4-byte length. *)
Definition explicit_long (tag : Z) (vr : string) (length : Z) (value : list Z)
  : list Z :=
  tag_bytes tag ++ bytes_of_string vr ++ [0; 0] ++ u32le length ++ value.

Definition implicit_element (tag : Z) (value : list Z) : list Z :=
  tag_bytes tag ++ u32le (Z.of_nat (List.length value)) ++ value.

Definition item_bytes (tag : Z) (length : Z) (value : list Z) : list Z :=
  tag_bytes tag ++ u32le length ++ value.

(** A UID, padded with a NUL byte to an even length. *)
Definition uid_bytes (uid : string) : list Z :=
  let bs := bytes_of_string uid in
  if Nat.even (List.length bs) then bs else bs ++ [0].

(** A text value, padded with a space to an even length. *)
Definition text_bytes (s : string) : list Z :=
  let bs := bytes_of_string s in
  if Nat.even (List.length bs) then bs else bs ++ [32].

(** Preamble, prefix and a File Meta group of Group Length, Version and
    Transfer Syntax UID. *)
Definition file_meta_bytes (transfer_syntax_uid : string) : list Z :=
  let version := explicit_long 0x00020001 "OB" 2 [0; 1] in
  let uid := explicit_short 0x00020010 "UI" (uid_bytes transfer_syntax_uid) in
  explicit_short 0x00020000 "UL"
    (u32le (Z.of_nat (List.length (version ++ uid)))) ++ version ++ uid.

Definition part10_bytes (transfer_syntax_uid : string) (dataset : list Z)
  : list Z :=
  repeat 0 128 ++ bytes_of_string "DICM" ++
  file_meta_bytes transfer_syntax_uid ++ dataset.

Definition standard_vrs : list string :=
  ["AE"; "AS"; "AT"; "CS"; "DA"; "DS"; "DT"; "FD"; "FL"; "IS"; "LO"; "LT";
   "OB"; "OD"; "OF"; "OL"; "OV"; "OW"; "PN"; "SH"; "SL"; "SQ"; "SS"; "ST";
   "SV"; "TM"; "UC"; "UI"; "UL"; "UN"; "UR"; "US"; "UT"; "UV"].

Definition native_transfer_syntaxes : list string :=
  ["1.2.840.10008.1.2"; "1.2.840.10008.1.2.1"; "1.2.840.10008.1.2.1.99";
   "1.2.840.10008.1.2.2"].

Definition example_dict (tag : Z) : string :=
  if tag =? 0x00100010 then "PN"
  else if tag =? 0x00280008 then "IS"
  else if tag =? 0x00280010 then "US"
  else if tag =? 0x00400555 then "SQ"
  else if tag =? 0x7FE00010 then "OW"
  else "UN".

(** Collaborators for the examples: every constructor accepts its
    arguments. *)
Definition example_collaborators : Collaborators := {|
  dcm_dict_lookup_vr := example_dict;
  dcm_is_valid_tag := fun tag => negb (tag =? 0);
  dcm_is_valid_vr := fun vr => vr_in vr standard_vrs;
  dcm_is_encapsulated_transfer_syntax := fun uid =>
    match uid with
    | Some uid => negb (vr_in uid native_transfer_syntaxes)
    | None => false
    end;
  dcm_element_accepts := fun _ => true
|}.

(** The Image Pixel attributes of a [rows] x [columns] image of [frames]
    frames, in explicit VR. *)
Definition pixel_module_bytes (frames : string) (rows columns samples bits : Z)
  : list Z :=
  explicit_short 0x00280002 "US" (u16le samples) ++
  explicit_short 0x00280004 "CS" (text_bytes "MONOCHROME2") ++
  explicit_short 0x00280006 "US" (u16le 0) ++
  explicit_short 0x00280008 "IS" (text_bytes frames) ++
  explicit_short 0x00280010 "US" (u16le rows) ++
  explicit_short 0x00280011 "US" (u16le columns) ++
  explicit_short 0x00280100 "US" (u16le bits) ++
  explicit_short 0x00280101 "US" (u16le bits) ++
  explicit_short 0x00280103 "US" (u16le 0).

(** Explicit VR Little Endian, two frames of 2 x 2 samples of 16 bits:
    8 bytes a frame. *)
Definition native_16bit_file : list Z :=
  part10_bytes "1.2.840.10008.1.2.1"
    (pixel_module_bytes "2" 2 2 1 16 ++
     explicit_long 0x7FE00010 "OW" 16
       [1; 0; 2; 0; 3; 0; 4; 0; 5; 0; 6; 0; 7; 0; 8; 0]).

(** JPEG Baseline, an empty BOT Item and three Frame Items of 100, 200 and
    300 bytes. *)
Definition encapsulated_frames : list Z :=
  item_bytes TAG_ITEM 100 (repeat 1 100) ++
  item_bytes TAG_ITEM 200 (repeat 2 200) ++
  item_bytes TAG_ITEM 300 (repeat 3 300) ++
  item_bytes TAG_SQ_DELIM 0 [].

Definition encapsulated_file : list Z :=
  part10_bytes "1.2.840.10008.1.2.4.50"
    (pixel_module_bytes "3" 10 10 1 8 ++
     explicit_long 0x7FE00010 "OB" 0xFFFFFFFF
       (item_bytes TAG_ITEM 0 [] ++ encapsulated_frames)).

(** The same with one frame and an Extended Offset Table of one entry. *)
Definition extended_offset_table_file : list Z :=
  part10_bytes "1.2.840.10008.1.2.4.50"
    (pixel_module_bytes "1" 10 10 1 8 ++
     explicit_long 0x7FE00001 "OV" 8 (u64le 0) ++
     explicit_long 0x7FE00010 "OB" 0xFFFFFFFF
       (item_bytes TAG_ITEM 0 [] ++
        item_bytes TAG_ITEM 100 (repeat 1 100) ++
        item_bytes TAG_SQ_DELIM 0 [])).

(** Explicit VR Little Endian; the Pixel Data Element is written with the
    VR US, which has a 2-byte length: its header takes 8 bytes. *)
Definition short_vr_pixel_file : list Z :=
  part10_bytes "1.2.840.10008.1.2.1"
    (explicit_short 0x00280010 "US" (u16le 2) ++
     explicit_short 0x7FE00010 "US" [1; 0]).

(** Implicit VR Little Endian with a Patient Name and Pixel Data. *)
Definition implicit_file : list Z :=
  part10_bytes "1.2.840.10008.1.2"
    (implicit_element 0x00100010 (text_bytes "DOE^J") ++
     implicit_element 0x7FE00010 [1; 2; 3; 4]).

(** A stream that holds a second preamble, prefix and File Meta group,
    with another Transfer Syntax UID, right after the first. *)
Definition two_headers_file : list Z :=
  part10_bytes "1.2.840.10008.1.2.1" (part10_bytes "1.2.840.10008.1.2" []).

(** ** The examples, once their metadata has been read *)

Definition pixel_module (frames : string) (rows columns bits : Z) : DcmDataSet :=
  [mkElement 0x00280002 "US" (Numbers [1] 1);
   mkElement 0x00280004 "CS" (Strings ["MONOCHROME2"] 1);
   mkElement 0x00280006 "US" (Numbers [0] 1);
   mkElement 0x00280008 "IS" (Strings [frames] 1);
   mkElement 0x00280010 "US" (Numbers [rows] 1);
   mkElement 0x00280011 "US" (Numbers [columns] 1);
   mkElement 0x00280100 "US" (Numbers [bits] 1);
   mkElement 0x00280101 "US" (Numbers [bits] 1);
   mkElement 0x00280103 "US" (Numbers [0] 1)].

(** [native_16bit_file]: the File Meta group ends at byte 186 and the Pixel
    Data Element starts at byte 286. *)
Definition native_16bit_metadata : DcmDataSet := pixel_module "2" 2 2 16.

Definition native_16bit_handle : DcmFile :=
  mkDcmFile (mkFILE native_16bit_file 286 false) None 186
            (Some "1.2.840.10008.1.2.1") 286 None.

Definition native_16bit_description : PixelDescription :=
  mkPixelDescription 2 2 1 16 16 None 0 0 "MONOCHROME2".

(** [encapsulated_file]: the Pixel Data Element starts at byte 288, the
    header of the BOT Item at byte 300 and the first Frame Item at byte
    308. *)
Definition encapsulated_metadata : DcmDataSet := pixel_module "3" 10 10 8.

Definition encapsulated_read_handle : DcmFile :=
  mkDcmFile (mkFILE encapsulated_file 288 false) None 188
            (Some "1.2.840.10008.1.2.4.50") 288 None.

(** [extended_offset_table_file]: the Pixel Data Element starts at byte 308. *)
Definition extended_offset_table_metadata : DcmDataSet :=
  pixel_module "1" 10 10 8 ++
  [mkElement 0x7FE00001 "OV" (Blob [0; 0; 0; 0; 0; 0; 0; 0] 8)].

Definition extended_offset_table_handle : DcmFile :=
  mkDcmFile (mkFILE extended_offset_table_file 308 false) None 188
            (Some "1.2.840.10008.1.2.4.50") 308 None.

(** [implicit_file] after its File Meta group, which ends at byte 184, has
    been read. *)
Definition implicit_meta_handle : DcmFile :=
  mkDcmFile (mkFILE implicit_file 184 false) None 184
            (Some "1.2.840.10008.1.2") 0 None.

(** [implicit_file] after its metadata has been read: the Pixel Data
    Element starts at byte 198. *)
Definition implicit_metadata : DcmDataSet :=
  [mkElement 0x00100010 "PN" (Strings ["DOE^J"] 1)].

Definition implicit_read_handle : DcmFile :=
  mkDcmFile (mkFILE implicit_file 198 false) None 184
            (Some "1.2.840.10008.1.2") 198 None.

(** [short_vr_pixel_file] after its metadata has been read: the Pixel Data
    Element starts at byte 196. *)
Definition short_vr_pixel_handle : DcmFile :=
  mkDcmFile (mkFILE short_vr_pixel_file 192 false) None 186
            (Some "1.2.840.10008.1.2.1") 192 None.

(** [two_headers_file] after one and after two calls of
    [dcm_file_read_file_meta]. *)
Definition two_headers_handle_1 : DcmFile :=
  mkDcmFile (mkFILE two_headers_file 186 false) None 186
            (Some "1.2.840.10008.1.2.1") 0 None.

Definition two_headers_handle_2 : DcmFile :=
  mkDcmFile (mkFILE two_headers_file 370 false) None 370
            (Some "1.2.840.10008.1.2") 0 None.

(** ** Data sets, streams and headers of the smaller examples *)

(** Number of Frames "-1" and "0"; a handle on [encapsulated_file] whose
    metadata has not been read. *)
Definition negative_frames_metadata : DcmDataSet :=
  [mkElement 0x00280008 "IS" (Strings ["-1"] 1)].

(** Number of Frames "0". *)
Definition zero_frames_metadata : DcmDataSet :=
  [mkElement 0x00280008 "IS" (Strings ["0"] 1)].

Definition encapsulated_handle : DcmFile :=
  mkDcmFile (mkFILE encapsulated_file 0 false) None 188
            (Some "1.2.840.10008.1.2.4.50") 0 None.

(** A stream of 8 bytes and the header of a US element of length 7. *)
Definition eight_bytes : FILE := mkFILE [1; 2; 3; 4; 5; 6; 7; 8] 0 false.
Definition us_length_7 : EHeader := mkEHeader 0x00280010 "US" 7.

(** The bytes [a\\b] (two adjacent separators) and [a\b\c ] (a trailing
    space) as the value of an LO element. *)
Definition adjacent_separators : FILE :=
  mkFILE (bytes_of_string "a\\b") 0 false.
Definition lo_length_4 : EHeader := mkEHeader 0x00100020 "LO" 4.
Definition three_parts : FILE :=
  mkFILE (bytes_of_string "a\b\c ") 0 false.
Definition lo_length_6 : EHeader := mkEHeader 0x00100020 "LO" 6.

Definition sq_length_0 : EHeader := mkEHeader 0x00400555 "SQ" 0.

(** An SQ element of undefined length with one Item of undefined length
    that holds one SH element, in explicit VR; a stream that starts after
    the header of the SQ element. *)
Definition undefined_length_items : FILE :=
  mkFILE (item_bytes TAG_ITEM 0xFFFFFFFF
            (explicit_short 0x00080100 "SH" (text_bytes "X") ++
             item_bytes TAG_ITEM_DELIM 0 []) ++
          item_bytes TAG_SQ_DELIM 0 []) 0 false.

Definition sq_undefined_length : EHeader :=
  mkEHeader 0x00400555 "SQ" 0xFFFFFFFF.

(** JPEG Baseline, three frames and a BOT Item with the offsets 0, 1024 and
    2048; the Pixel Data Element starts at byte 288. *)
Definition filled_bot_file : list Z :=
  part10_bytes "1.2.840.10008.1.2.4.50"
    (pixel_module_bytes "3" 10 10 1 8 ++
     explicit_long 0x7FE00010 "OB" 0xFFFFFFFF
       (item_bytes TAG_ITEM 12 (u32le 0 ++ u32le 1024 ++ u32le 2048))).

Definition filled_bot_handle : DcmFile :=
  mkDcmFile (mkFILE filled_bot_file 288 false) None 188
            (Some "1.2.840.10008.1.2.4.50") 288 None.

(** * [tools/dcm-dump.c]: the arguments of the tool *)

Inductive exit_status : Type := EXIT_SUCCESS | EXIT_FAILURE.

(** [s[i]] of a C string, for [i] up to its length: the characters, then
    the NUL that ends it. *)
Definition char_at (s : string) (i : nat) : ascii :=
  match String.get i s with
  | Some c => c
  | None => zero
  end.

(** What [main] has settled once it has looked at its arguments: it
    returns, or it goes on to read the file at [file_path], with
    [dcm_log_level] at [DCM_LOG_INFO] or not. *)
Inductive arguments : Type :=
| Exits (status : exit_status)
| Reads (file_path : string) (log_info : bool).

(** [for (i = 1; i < argc && argv[i][0] == '-'; i++) switch (argv[i][1])]
    and [if ((i + 1) != argc)], on [argv[i], ..., argv[argc - 1]]. *)
Fixpoint main_arguments (args : list string) (log_info : bool) : arguments :=
  match args with
  | arg :: rest =>
      if Ascii.eqb (char_at arg 0) "-" then
        if Ascii.eqb (char_at arg 1) "h" then Exits EXIT_SUCCESS
        else if Ascii.eqb (char_at arg 1) "V" then Exits EXIT_SUCCESS
        else if Ascii.eqb (char_at arg 1) "v" then main_arguments rest true
        else Exits EXIT_FAILURE
      else
        match rest with
        | [] => Reads arg log_info
        | _ :: _ => Exits EXIT_FAILURE
        end
  | [] => Exits EXIT_FAILURE
  end.

(** * Vocabulary of the further properties *)

(** ** Numbers and counts *)

(** A value of [size_t], and one of [uint16_t]. *)
Definition is_size_t (n : Z) : Prop := 0 <= n < 2 ^ 64.
Definition is_uint16 (v : Z) : Prop := 0 <= v < 2 ^ 16.

(** The byte count went up, modulo 2^64, by as much as the stream moved. *)
Definition counted (fp : FILE) (n : Z) (fp' : FILE) (n' : Z) : Prop :=
  size_t n' = size_t (n + (ftell fp' - ftell fp)).

(** The bytes left in the stream. *)
Definition bytes_left (fp : FILE) : Z := Z.of_nat (List.length (remaining fp)).

(** Sums of byte counts in the positions of the stream are computed. *)
Ltac sum_counts :=
  repeat match goal with
         | |- context [advance _ (?a + ?b)] =>
             let v := eval compute in (a + b) in change (a + b) with v
         | H : context [advance _ (?a + ?b)] |- _ =>
             let v := eval compute in (a + b) in change (a + b) with v in H
         | |- context [size_t (_ + (?a + ?b))] =>
             let v := eval compute in (a + b) in change (a + b) with v
         end.

(** ** Strings *)

(** No NUL character in a string. *)
Fixpoint no_nul (s : string) : bool :=
  match s with
  | EmptyString => true
  | String c s' => negb (byte_of_char c =? 0) && no_nul s'
  end.

Fixpoint no_backslash (s : string) : bool :=
  match s with
  | EmptyString => true
  | String c s' => negb (is_backslash c) && no_backslash s'
  end.

(** A string that can be one value of an element: no backslash, which
    would separate two values, and no NUL, which would end the text. *)
Definition one_value (s : string) : bool := no_backslash s && no_nul s.

(** The bytes as [unsigned char]. *)
Definition unsigned_chars (bs : list Z) : list Z :=
  map (fun b => b mod 256) bs.

(** The four bytes after the 128 bytes of the preamble. *)
Definition prefix_bytes (fp : FILE) : list Z :=
  firstn 4 (skipn 128 (remaining fp)).

(** ** Messages *)

(** The messages that [read_element] can fail with, and those of
    [dcm_file_read_file_meta] and [dcm_file_read_metadata]. *)
Definition read_element_errors : list error :=
  [InvalidTag; InvalidVR; ReservedNonZero; InvalidItemTag; ExpectedItem;
   UnknownVR; UnexpectedVM; DuplicateTag; ElementConstructionFailed].

Definition read_file_meta_errors : list error :=
  MissingMagic :: read_element_errors.

Definition read_metadata_errors : list error :=
  UnexpectedFileMetaGroup :: read_file_meta_errors.

(** A call that has returned: a result, or [NULL] after a message. *)
Definition returned {A : Type} (m : outcome A) : Prop :=
  match m with
  | Done _ | Failed _ => True
  | _ => False
  end.

(** A computation that fails, if at all, with one of [errors], and that
    does not stop in an [assert]. *)
Definition fails_only {A : Type} (errors : list error) (m : outcome A) : Prop :=
  fails_within errors m /\ m <> Aborted.

(** ** Data sets with one element for a tag *)

(** No value twice. *)
Fixpoint distinct (tags : list Z) : bool :=
  match tags with
  | [] => true
  | t :: rest => negb (existsb (Z.eqb t) rest) && distinct rest
  end.

(** No tag twice in an Item of the element, at any depth. *)
Fixpoint items_distinct (e : Element) : bool :=
  match e with
  | mkElement _ _ (Sequence items) =>
      forallb (fun item =>
                 distinct (map element_tag item) && forallb items_distinct item)
              items
  | mkElement _ _ _ => true
  end.

(** No tag twice in the data set, nor in an Item of one of its elements. *)
Definition dataset_distinct (dataset : DcmDataSet) : bool :=
  distinct (map element_tag dataset) && forallb items_distinct dataset.

(** The group number of the tag of an element. *)
Definition element_group_number (e : Element) : Z :=
  uint16 (Z.shiftr (element_tag e) 16).

(** An element that the loop over the Data Set keeps: not of group 0x0002,
    not Pixel Data, not the trailing padding. *)
Definition dataset_element (e : Element) : bool :=
  negb (element_group_number e =? 0x0002) &&
  negb (is_pixel_data_tag (element_tag e)) &&
  negb (element_tag e =? TAG_TRAILING_PADDING).

(** An element of the File Meta Information. *)
Definition file_meta_element (e : Element) : bool :=
  element_group_number e =? 0x0002.

(** ** Offsets and the pixel description *)

(** An entry of the Basic Offset Table as it is stored in the file: a
    32-bit value that is not the tag of an Item. *)
Definition bot_entry (offset : Z) : bool :=
  (0 <=? offset) && (offset <? 2 ^ 32) && negb (offset =? TAG_ITEM).

(** The offsets that the loop over the Frame Items of
    [dcm_file_build_bot] records for [count] Items when its counter
    starts at [current_offset]. *)
Definition counted_offsets (current_offset : Z) (count : nat) : list Z :=
  map (fun k => to_signed 64 (size_t (current_offset + 8 * (Z.of_nat k + 1))))
      (seq 0 count).

(** The tags of the Image Pixel attributes that
    [create_pixel_description] looks up: Rows, Columns, Samples per Pixel,
    Bits Allocated, Bits Stored, Pixel Representation, Planar
    Configuration and Photometric Interpretation. *)
Definition pixel_description_tags : list Z :=
  [0x00280010; 0x00280011; 0x00280002; 0x00280100; 0x00280101; 0x00280103;
   0x00280006; 0x00280004].

(** ** Arguments of the tool *)

(** An argument that starts with a dash, and one whose second character
    is [c] as well. *)
Definition dashed (arg : string) : bool := Ascii.eqb (char_at arg 0) "-".

Definition is_flag (c : ascii) (arg : string) : bool :=
  dashed arg && Ascii.eqb (char_at arg 1) c.

(** At least one flag. *)
Definition some (flags : list string) : bool :=
  match flags with
  | [] => false
  | _ :: _ => true
  end.

(** * Further examples *)

(** The header of an OB element whose reserved bytes hold 1. *)
Definition reserved_not_zero : FILE :=
  mkFILE (tag_bytes 0x7FE00010 ++ bytes_of_string "OB" ++ u16le 1 ++ u32le 4)
         0 false.

(** [native_16bit_file] and [implicit_file] at the first element of their
    Data Sets. *)
Definition native_16bit_at_dataset : FILE := mkFILE native_16bit_file 186 false.
Definition implicit_at_dataset : FILE := mkFILE implicit_file 184 false.

Definition ob_length_4 : EHeader := mkEHeader 0x7FE00010 "OB" 4.

(** A header with a VR that [read_element] does not know, and a stream
    that is shorter than the value it declares. *)
Definition zz_length_4 : EHeader := mkEHeader 0x00091001 "ZZ" 4.
Definition two_bytes : FILE := mkFILE [1; 2] 0 false.

(** [filled_bot_file] without its last four bytes, the third entry of
    the table. *)
Definition cut_bot_handle : DcmFile :=
  mkDcmFile (mkFILE (firstn 316 filled_bot_file) 288 false) None 188
            (Some "1.2.840.10008.1.2.4.50") 288 None.

(** A Sequence Delimitation Item whose length field holds 7. *)
Definition delimiter_only : FILE :=
  mkFILE (item_bytes TAG_SQ_DELIM 7 []) 0 false.

(** JPEG Baseline, one frame, an empty BOT Item; the preamble holds the
    header of an Item of length 0 and a Sequence Delimitation Item. *)
Definition items_in_preamble_file : list Z :=
  item_bytes TAG_ITEM 0 [] ++ item_bytes TAG_SQ_DELIM 0 [] ++ repeat 0 112 ++
  bytes_of_string "DICM" ++ file_meta_bytes "1.2.840.10008.1.2.4.50" ++
  pixel_module_bytes "1" 10 10 1 8 ++
  explicit_long 0x7FE00010 "OB" 0xFFFFFFFF
    (item_bytes TAG_ITEM 0 [] ++
     item_bytes TAG_ITEM 100 (repeat 1 100) ++
     item_bytes TAG_SQ_DELIM 0 []).

Definition one_frame_metadata : DcmDataSet := pixel_module "1" 10 10 8.

Definition items_in_preamble_handle : DcmFile :=
  mkDcmFile (mkFILE items_in_preamble_file 288 false) None 188
            (Some "1.2.840.10008.1.2.4.50") 288 None.

(** * Properties *)

(** ** Outcomes and the stream *)

Lemma bind_done {A B : Type} (m : outcome A) (k : A -> outcome B) (b : B) :
  bind m k = Done b -> exists a, m = Done a /\ k a = Done b.
Proof.
  destruct m; simpl; intros E; try discriminate.
  exists a. split; [reflexivity | exact E].
Qed.

Lemma freed_twice_done {A : Type} (m : outcome A) (a : A) :
  freed_twice m = Done a -> m = Done a.
Proof. destruct m; simpl; intros E; try discriminate; exact E. Qed.

Lemma advance_0 (fp : FILE) : advance fp 0 = fp.
Proof.
  destruct fp as [c p e]. unfold advance. simpl.
  now rewrite N.add_0_r.
Qed.

Lemma advance_advance (fp : FILE) (a b : Z) :
  0 <= a -> 0 <= b -> advance (advance fp a) b = advance fp (a + b).
Proof.
  intros Ha Hb. unfold advance. simpl.
  rewrite Z2N.inj_add by assumption.
  now rewrite N.add_assoc.
Qed.

Lemma remaining_advance (fp : FILE) (k : Z) :
  0 <= k -> remaining (advance fp k) = skipn (Z.to_nat k) (remaining fp).
Proof.
  intros Hk. unfold remaining, advance. simpl.
  rewrite skipn_skipn. f_equal. lia.
Qed.

Lemma fread_object_enough (count : Z) (fp : FILE) :
  0 <= count -> count <= Z.of_nat (List.length (remaining fp)) ->
  fread_object count fp =
  Done (firstn (Z.to_nat count) (remaining fp), advance fp count).
Proof.
  intros H0 Hle. unfold fread_object, fread.
  assert (L : List.length (firstn (Z.to_nat count) (remaining fp)) = Z.to_nat count).
  { apply firstn_length_le. lia. }
  rewrite L.
  replace (Z.of_nat (Z.to_nat count) =? count) with true
    by (symmetry; apply Z.eqb_eq; lia).
  replace (Z.of_nat (Z.to_nat count) <? count) with false
    by (symmetry; apply Z.ltb_ge; lia).
  rewrite orb_false_r. unfold advance.
  do 3 f_equal. lia.
Qed.

Lemma fread_object_done (count : Z) (fp fp' : FILE) (bs : list Z) :
  fread_object count fp = Done (bs, fp') ->
  0 <= count /\ count <= Z.of_nat (List.length (remaining fp)) /\
  bs = firstn (Z.to_nat count) (remaining fp) /\ fp' = advance fp count.
Proof.
  unfold fread_object, fread.
  destruct (Z.of_nat (List.length (firstn (Z.to_nat count) (remaining fp))) =? count)
    eqn:E; [| discriminate].
  apply Z.eqb_eq in E. intros D. inversion D; subst bs fp'; clear D.
  rewrite length_firstn in E.
  repeat split; try lia.
  unfold advance. rewrite length_firstn.
  replace (Z.of_nat (Nat.min (Z.to_nat count) (List.length (remaining fp))) <? count)
    with false by (symmetry; apply Z.ltb_ge; lia).
  rewrite orb_false_r. do 2 f_equal. lia.
Qed.

Lemma size_t_small (n : Z) : 0 <= n < 2 ^ 64 -> size_t n = n.
Proof. intros Hn. unfold size_t. now apply Z.mod_small. Qed.

Lemma size_t_add (n a b : Z) : size_t (size_t (n + a) + b) = size_t (n + (a + b)).
Proof.
  unfold size_t. rewrite Z.add_mod_idemp_l by lia. f_equal. lia.
Qed.

Lemma uint32_range (z : Z) : 0 <= uint32 z < 2 ^ 32.
Proof. unfold uint32. apply Z.mod_pos_bound. lia. Qed.

(** ** Fixed-width numeric values *)

Lemma read_values_enough (size : Z) (convert : Z -> Z) (vm : nat) :
  0 < size ->
  forall (fp : FILE) (n : Z),
    0 <= n < 2 ^ 64 ->
    size * Z.of_nat vm <= Z.of_nat (List.length (remaining fp)) ->
    read_values size convert vm fp n =
    Done (decode_values size convert vm (remaining fp),
          advance fp (size * Z.of_nat vm),
          size_t (n + size * Z.of_nat vm)).
Proof.
  intros Hs. induction vm as [| vm IH]; intros fp n Hn Hle.
  - simpl. rewrite Z.mul_0_r, Z.add_0_r, advance_0, size_t_small by assumption.
    reflexivity.
  - cbn [read_values decode_values].
    rewrite fread_object_enough by lia. cbn [bind].
    rewrite IH.
    + cbn [bind]. rewrite remaining_advance, advance_advance, size_t_add by lia.
      do 3 f_equal; try lia. f_equal. lia.
    + unfold size_t. apply Z.mod_pos_bound. lia.
    + rewrite remaining_advance, length_skipn by lia. lia.
Qed.

Lemma decode_values_length (size : Z) (convert : Z -> Z) (vm : nat) (bytes : list Z) :
  List.length (decode_values size convert vm bytes) = vm.
Proof.
  revert bytes. induction vm as [| vm IH]; intros bytes; simpl.
  - reflexivity.
  - now rewrite IH.
Qed.

Section Reader.
Context {C : Collaborators}.

Lemma numeric_vr_inv (header : EHeader) (size : Z) (convert : Z -> Z) :
  numeric_vr header = Some (size, convert) ->
  vr_in (eheader_vr header) character_string_vrs = false /\
  eheader_check_vr header "SQ" = false /\
  (size = 2 \/ size = 4 \/ size = 8).
Proof.
  destruct header as [tag vr len].
  unfold numeric_vr, eheader_check_vr. cbn [eheader_vr].
  repeat match goal with
         | |- context [String.eqb vr ?s] =>
             let E := fresh "E" in
             destruct (String.eqb vr s) eqn:E;
             [ apply String.eqb_eq in E; subst vr; intros S;
               injection S as <- <-; repeat split; auto
             | ]
         end.
  discriminate.
Qed.

(** C4, as amended.  For an element of a fixed-width numeric VR (FD, FL,
    SS, SL, SV, UL, US, UV) of declared length [length], read from a stream
    that holds the bytes, [read_element] returns [length / size] values
    (the quotient rounded down), each the little-endian value of [size]
    consecutive bytes, and moves the stream and the byte count on by
    [size * (length / size)] bytes.  It does so whether or not [length] is
    a multiple of [size]; when it is, these are all [length] bytes. *)
Theorem fixed_width_values_round_down
    (fuel : nat) (fp : FILE) (header : EHeader) (n : Z) (implicit : bool)
    (size : Z) (convert : Z -> Z) :
  numeric_vr header = Some (size, convert) ->
  0 <= n < 2 ^ 64 ->
  let length := uint32 (eheader_get_length header) in
  let vm := length / size in
  let values := decode_values size convert (Z.to_nat vm) (remaining fp) in
  let element :=
    mkElement (eheader_get_tag header) (eheader_vr header) (Numbers values vm) in
  size * vm <= Z.of_nat (List.length (remaining fp)) ->
  dcm_element_accepts element = true ->
  read_element (S fuel) fp header n implicit =
    Done (element, advance fp (size * vm), size_t (n + size * vm)) /\
  Z.of_nat (List.length values) = vm /\
  (length mod size = 0 -> size * vm = length).
Proof.
  intros Hvr Hn length vm values element Hbytes Hacc.
  destruct (numeric_vr_inv _ _ _ Hvr) as (Hstr & Hsq & Hsize).
  assert (Hpos : 0 < size) by lia.
  pose proof (uint32_range (eheader_get_length header)) as Hlen.
  fold length in Hlen.
  assert (Hvm : 0 <= vm < 2 ^ 32).
  { unfold vm. split.
    - apply Z.div_pos; lia.
    - apply Z.div_lt_upper_bound; nia. }
  assert (Hu : uint32 (length / size) = vm).
  { unfold uint32. apply Z.mod_small. exact Hvm. }
  split; [| split].
  - cbn [read_element]. rewrite Hstr, Hsq, Hvr.
    fold length. rewrite Hu.
    rewrite read_values_enough by (try assumption; rewrite Z2Nat.id; lia).
    cbn [bind]. rewrite Z2Nat.id by lia.
    fold values. unfold dcm_element_create. fold element. rewrite Hacc.
    reflexivity.
  - unfold values. rewrite decode_values_length. lia.
  - intros Hmod. unfold vm.
    pose proof (Z.div_mod length size ltac:(lia)). lia.
Qed.

(** C10.  For the header of an SQ element of declared length 0, in
    explicit and in implicit mode alike, [read_element] returns the element
    of an empty Sequence (given that the SQ constructor returns it); the
    stream is where it was and the byte count of the caller is unchanged. *)
Theorem empty_sequence_reads_nothing
    (fuel : nat) (fp : FILE) (header : EHeader) (n : Z) (implicit : bool) :
  eheader_check_vr header "SQ" = true ->
  eheader_get_length header = 0 ->
  dcm_element_accepts
    (mkElement (eheader_get_tag header) "SQ" (Sequence [])) = true ->
  read_element (S fuel) fp header n implicit =
    Done (mkElement (eheader_get_tag header) "SQ" (Sequence []), fp, n).
Proof.
  intros Hsq Hlen Hacc.
  assert (Hvr : eheader_vr header = "SQ") by (now apply String.eqb_eq).
  cbn [read_element]. rewrite Hsq, Hvr, Hlen. cbn.
  unfold dcm_element_create. rewrite Hacc. reflexivity.
Qed.

End Reader.

Lemma fixed_width_values_round_down_witness :
  read_element (C := example_collaborators) 1 eight_bytes us_length_7 0 false =
    Done (mkElement 0x00280010 "US" (Numbers [513; 1027; 1541] 3),
          advance eight_bytes 6, 6) /\
  Z.of_nat (List.length [513; 1027; 1541]) = 3 /\
  (7 mod 2 = 0 -> 2 * 3 = 7).
Proof.
  apply (fixed_width_values_round_down (C := example_collaborators)
           0 eight_bytes us_length_7 0 false 2 (fun v => v)).
  - reflexivity.
  - lia.
  - vm_compute. discriminate.
  - reflexivity.
Defined.

(** C4, the claim as stated fails: a US element of length 7, which is not
    a multiple of 2, is not rejected; three values are returned and the
    seventh byte is left in the stream. *)
Lemma us_of_length_7_is_not_rejected :
  7 mod 2 <> 0 /\
  read_element (C := example_collaborators) 1 eight_bytes us_length_7 0 false =
    Done (mkElement 0x00280010 "US" (Numbers [513; 1027; 1541] 3),
          mkFILE [1; 2; 3; 4; 5; 6; 7; 8] 6 false, 6).
Proof.
  split.
  - vm_compute. discriminate.
  - vm_compute. reflexivity.
Qed.

Lemma empty_sequence_reads_nothing_witness :
  read_element (C := example_collaborators) 1 three_parts sq_length_0 0 true =
    Done (mkElement 0x00400555 "SQ" (Sequence []), three_parts, 0).
Proof.
  apply (empty_sequence_reads_nothing (C := example_collaborators)
           0 three_parts sq_length_0 0 true); reflexivity.
Defined.

(** ** Character strings: [strtok] against the split *)

Lemma split_on_backslash_cons (s : string) :
  exists part parts, split_on_backslash s = part :: parts.
Proof.
  destruct s as [| c s]; simpl.
  - now exists EmptyString, [].
  - destruct (is_backslash c).
    + now exists EmptyString, (split_on_backslash s).
    + destruct (split_on_backslash s) as [| part parts].
      * now exists (String c EmptyString), [].
      * now exists (String c part), parts.
Qed.

Lemma scan_token_split (s : string) :
  exists parts,
    split_on_backslash s = fst (scan_token s) :: parts /\
    filter nonempty parts =
    filter nonempty (split_on_backslash (snd (scan_token s))).
Proof.
  induction s as [| c s IH]; simpl.
  - exists []. split; reflexivity.
  - destruct (is_backslash c).
    + exists (split_on_backslash s). split; reflexivity.
    + destruct IH as (parts & E & F).
      destruct (scan_token s) as [token rest]. simpl in *.
      rewrite E. exists parts. split; [reflexivity | exact F].
Qed.

Lemma scan_token_rest_length (s : string) :
  (String.length (snd (scan_token s)) <= String.length s)%nat.
Proof.
  induction s as [| c s IH]; simpl.
  - lia.
  - destruct (is_backslash c); simpl.
    + lia.
    + destruct (scan_token s) as [token rest]. simpl in *. lia.
Qed.

Lemma skip_separators_split (s : string) :
  filter nonempty (split_on_backslash (skip_separators s)) =
  filter nonempty (split_on_backslash s).
Proof.
  induction s as [| c s IH]; simpl.
  - reflexivity.
  - destruct (is_backslash c) eqn:E; simpl.
    + exact IH.
    + rewrite E. reflexivity.
Qed.

Lemma skip_separators_length (s : string) :
  (String.length (skip_separators s) <= String.length s)%nat.
Proof.
  induction s as [| c s IH]; simpl.
  - lia.
  - destruct (is_backslash c); simpl; lia.
Qed.

Lemma skip_separators_head (s : string) (c : ascii) (r : string) :
  skip_separators s = String c r -> is_backslash c = false.
Proof.
  induction s as [| d s IH]; simpl.
  - discriminate.
  - destruct (is_backslash d) eqn:E.
    + exact IH.
    + intros S. injection S as <- _. exact E.
Qed.

(** The tokens that the [strtok] loop pushes are the non-empty parts of
    the split, in their order. *)
Lemma push_tokens_split (fuel : nat) :
  forall s : string,
    (String.length s <= fuel)%nat ->
    push_tokens fuel s = filter nonempty (split_on_backslash s).
Proof.
  induction fuel as [| fuel IH]; intros s Hlen.
  - destruct s; [reflexivity | simpl in Hlen; lia].
  - cbn [push_tokens]. unfold strtok.
    rewrite <- (skip_separators_split s).
    pose proof (skip_separators_length s) as Hskip.
    destruct (skip_separators s) as [| c r] eqn:E.
    + reflexivity.
    + pose proof (skip_separators_head _ _ _ E) as Hc.
      destruct (scan_token_split (String c r)) as (parts & Es & Ef).
      pose proof (scan_token_rest_length (String c r)) as Hrest.
      rewrite Es.
      destruct (scan_token (String c r)) as [token rest] eqn:Et.
      cbn [fst snd] in *.
      assert (Hne : nonempty token = true).
      { simpl in Et. rewrite Hc in Et.
        destruct (scan_token r). injection Et as <- _. reflexivity. }
      assert (Hshort : (String.length rest <= fuel)%nat).
      { simpl in Et. rewrite Hc in Et.
        pose proof (scan_token_rest_length r) as Hr.
        destruct (scan_token r) as [t' r']. injection Et as _ <-.
        simpl in Hr, Hskip. lia. }
      cbn [filter]. rewrite Hne, Ef. f_equal. now apply IH.
Qed.

Lemma filter_nonempty_split_length (s : string) :
  (List.length (filter nonempty (split_on_backslash s)) <= String.length s)%nat.
Proof.
  induction s as [| c s IH]; simpl.
  - lia.
  - destruct (is_backslash c); simpl.
    + lia.
    + destruct (split_on_backslash s) as [| part parts]; simpl in *.
      * lia.
      * destruct (nonempty part); simpl in *; lia.
Qed.

Lemma filter_all (A : Type) (f : A -> bool) (l : list A) :
  Forall (fun x => f x = true) l -> filter f l = l.
Proof.
  induction 1 as [| x l Hx _ IH]; simpl.
  - reflexivity.
  - now rewrite Hx, IH.
Qed.

(** ** Character strings: the buffer *)

Lemma cstring_length (bs : list Z) :
  (String.length (cstring bs) <= List.length bs)%nat.
Proof.
  induction bs as [| b bs IH]; simpl.
  - lia.
  - destruct (b mod 256 =? 0); simpl; lia.
Qed.

Lemma cstring_app_nul (bs rest : list Z) :
  cstring (bs ++ 0 :: rest) = cstring bs.
Proof.
  induction bs as [| b bs IH]; simpl.
  - reflexivity.
  - destruct (b mod 256 =? 0); [reflexivity | now rewrite IH].
Qed.

Lemma nth_last (A : Type) (l : list A) (d : A) :
  nth (List.length l - 1) l d = last l d.
Proof.
  destruct l as [| x l] using rev_ind; [reflexivity |].
  rewrite last_last, length_app, app_nth2 by (simpl; lia).
  simpl. replace (_ - _)%nat with 0%nat by lia. reflexivity.
Qed.

Lemma firstn_removelast (A : Type) (l : list A) :
  firstn (List.length l - 1) l = removelast l.
Proof.
  destruct l as [| x l] using rev_ind; [reflexivity |].
  rewrite removelast_last, length_app, firstn_app. simpl.
  replace (_ - List.length l)%nat with 0%nat by lia.
  rewrite firstn_all2 by lia. simpl. now rewrite app_nil_r.
Qed.

(** The text in the buffer after [read_element] has terminated it is the
    text of the value with its trailing white space byte taken off. *)
Lemma terminate_value_strip (header : EHeader) (length : Z) (value : list Z) :
  Z.of_nat (List.length value) = length ->
  cstring (terminate_value header length value) =
  cstring (strip_trailing_space (eheader_check_vr header "UI") value).
Proof.
  intros Hlen. unfold terminate_value, strip_trailing_space.
  replace (Z.to_nat (length - 1)) with (List.length value - 1)%nat by lia.
  rewrite nth_last, firstn_removelast.
  destruct (0 <? length) eqn:Hpos.
  - cbn [andb].
    destruct (negb (eheader_check_vr header "UI") && isspace (last value 0)).
    + rewrite <- app_assoc. cbn [app]. now rewrite cstring_app_nul.
    + now rewrite cstring_app_nul.
  - apply Z.ltb_ge in Hpos.
    assert (value = []) by (destruct value; [reflexivity | simpl in Hlen; lia]).
    subst value. cbn [andb].
    destruct (negb (eheader_check_vr header "UI") && isspace (last [] 0));
      reflexivity.
Qed.

Lemma parse_character_string_split (text : string) :
  Z.of_nat (String.length text) < 2 ^ 32 ->
  let parts := if nonempty text
               then filter nonempty (split_on_backslash text)
               else [EmptyString] in
  parse_character_string text = (parts, Z.of_nat (List.length parts)).
Proof.
  intros Hlen parts. unfold parse_character_string.
  assert (E : (if (String.length text =? 0)%nat then [EmptyString]
               else push_tokens (String.length text) text) = parts).
  { unfold parts. destruct text as [| c text]; [reflexivity |].
    cbn [String.length Nat.eqb nonempty].
    apply push_tokens_split. simpl. lia. }
  rewrite E. f_equal. unfold uint32. apply Z.mod_small.
  split; [lia |].
  unfold parts. destruct (nonempty text).
  - pose proof (filter_nonempty_split_length text). lia.
  - simpl. lia.
Qed.

Lemma strip_trailing_space_length (is_ui : bool) (value : list Z) :
  (List.length (strip_trailing_space is_ui value) <= List.length value)%nat.
Proof.
  unfold strip_trailing_space.
  destruct (negb is_ui && isspace (last value 0)); [| lia].
  destruct value as [| x value] using rev_ind; [simpl; lia |].
  rewrite removelast_last, length_app. lia.
Qed.

Section CharacterStrings.
Context {C : Collaborators}.

(** C5, as amended.  For an element of a character string VR whose
    [length] bytes are in the stream: the bytes are read; unless the VR is
    UI, one trailing byte is taken off when [isspace] holds of it; the text
    is what is left up to its first NUL byte.  The parts are the non-empty
    stretches between the backslashes of the text, in their order (an
    empty stretch, between two adjacent backslashes or at either end, is
    not a part), and the one empty string when the text is empty; the VM
    is their number.  So the parts are those of the split whenever no part
    of the split is empty.  The VRs with many values get all the parts;
    ST, LT, UR and UT get the one part, and fail when there are more. *)
Theorem character_string_parts_are_tokens
    (fuel : nat) (fp : FILE) (header : EHeader) (n : Z) (implicit : bool) :
  vr_in (eheader_vr header) character_string_vrs = true ->
  0 <= n < 2 ^ 64 ->
  let tag := eheader_get_tag header in
  let vr := eheader_vr header in
  let length := uint32 (eheader_get_length header) in
  length < 2 ^ 32 - 1 ->
  length <= Z.of_nat (List.length (remaining fp)) ->
  let value := firstn (Z.to_nat length) (remaining fp) in
  let text :=
    cstring (strip_trailing_space (eheader_check_vr header "UI") value) in
  let parts := if nonempty text
               then filter nonempty (split_on_backslash text)
               else [EmptyString] in
  let vm := Z.of_nat (List.length parts) in
  (vr_in vr single_string_vrs = false ->
   dcm_element_accepts (mkElement tag vr (Strings parts vm)) = true ->
   read_element (S fuel) fp header n implicit =
     Done (mkElement tag vr (Strings parts vm),
           advance fp length, size_t (n + length))) /\
  (vr_in vr single_string_vrs = true ->
   forall str : string,
     parts = [str] ->
     dcm_element_accepts (mkElement tag vr (Text str)) = true ->
     read_element (S fuel) fp header n implicit =
       Done (mkElement tag vr (Text str),
             advance fp length, size_t (n + length))) /\
  (vr_in vr single_string_vrs = true ->
   1 < vm ->
   read_element (S fuel) fp header n implicit = Failed UnexpectedVM) /\
  (Forall (fun part => nonempty part = true) (split_on_backslash text) ->
   parts = split_on_backslash text).
Proof.
  intros Hvr Hn tag vr length Hmax Hbytes value text parts vm.
  pose proof (uint32_range (eheader_get_length header)) as Hlen.
  fold length in Hlen.
  assert (Hvalue : Z.of_nat (List.length value) = length).
  { unfold value. rewrite firstn_length_le; lia. }
  assert (Htext : Z.of_nat (String.length text) < 2 ^ 32).
  { unfold text.
    pose proof (cstring_length
                  (strip_trailing_space (eheader_check_vr header "UI") value)).
    pose proof (strip_trailing_space_length
                  (eheader_check_vr header "UI") value).
    lia. }
  assert (Hread :
    read_element (S fuel) fp header n implicit =
    if vr_in vr single_string_vrs then
      if 1 <? vm then Failed UnexpectedVM
      else match parts with
           | str :: _ =>
               element <- dcm_element_create tag vr (Text str) ;;
               Done (element, advance fp length, size_t (n + length))
           | [] => Undefined
           end
    else
      element <- dcm_element_create tag vr (Strings parts vm) ;;
      Done (element, advance fp length, size_t (n + length))).
  { cbn [read_element]. rewrite Hvr. fold length.
    replace (uint32 (length + 1) =? 0) with false.
    2:{ symmetry. apply Z.eqb_neq. unfold uint32.
        rewrite Z.mod_small; lia. }
    rewrite fread_object_enough by lia. cbn [bind]. fold value.
    rewrite (terminate_value_strip header length value Hvalue). fold text.
    rewrite (parse_character_string_split text Htext).
    reflexivity. }
  repeat split.
  - intros Hmulti Hacc. rewrite Hread. fold vr. rewrite Hmulti.
    unfold dcm_element_create. rewrite Hacc. reflexivity.
  - intros Hsingle str Hparts Hacc. rewrite Hread. fold vr. rewrite Hsingle.
    unfold vm. rewrite Hparts. cbn.
    unfold dcm_element_create. rewrite Hacc. reflexivity.
  - intros Hsingle Hmany. rewrite Hread. fold vr. rewrite Hsingle.
    replace (1 <? vm) with true by (symmetry; apply Z.ltb_lt; lia).
    reflexivity.
  - intros Hall. unfold parts.
    destruct (nonempty text) eqn:Hne.
    + now apply filter_all.
    + destruct text; [| discriminate]. simpl in Hall.
      inversion Hall as [| ? ? Hhd _]. discriminate.
Qed.

End CharacterStrings.

Lemma character_string_parts_are_tokens_witness :
  read_element (C := example_collaborators) 1 three_parts lo_length_6 0 false =
    Done (mkElement 0x00100020 "LO" (Strings ["a"; "b"; "c"] 3),
          advance three_parts 6, 6).
Proof.
  apply (character_string_parts_are_tokens (C := example_collaborators)
           0 three_parts lo_length_6 0 false).
  - reflexivity.
  - lia.
  - vm_compute. reflexivity.
  - vm_compute. discriminate.
  - reflexivity.
  - reflexivity.
Defined.

(** C5, the claim as stated fails: the value [a\\b], with two adjacent
    backslashes, splits on backslash into the three parts "a", "" and "b";
    the decoder returns the two parts "a" and "b" with a VM of 2. *)
Lemma adjacent_backslashes_lose_a_part :
  split_on_backslash "a\\b" = ["a"; ""; "b"] /\
  read_element (C := example_collaborators) 1 adjacent_separators lo_length_4
               0 false =
    Done (mkElement 0x00100020 "LO" (Strings ["a"; "b"] 2),
          mkFILE (bytes_of_string "a\\b") 4 false, 4).
Proof.
  split; vm_compute; reflexivity.
Qed.

(** ** The offsets of native pixel data *)

Lemma native_offsets_ignore_bits_allocated
    (r c s b1 b2 bs : Z) (hb : option Z) (pr pc : Z) (pi : string) (count : nat) :
  forall i : Z,
    native_offsets (mkPixelDescription r c s b1 bs hb pr pc pi) i count =
    native_offsets (mkPixelDescription r c s b2 bs hb pr pc pi) i count.
Proof.
  induction count as [| count IH]; intros i; simpl.
  - reflexivity.
  - now rewrite IH.
Qed.

(** Every offset of native pixel data is the frame index times rows,
    columns and samples per pixel, reduced to 64 bits; the bits allocated
    do not come into it. *)
Lemma native_offsets_nth (desc : PixelDescription) (count : nat) :
  forall (i : Z) (k : nat),
    (k < count)%nat ->
    nth k (native_offsets desc i count) 0 =
    to_signed 64
      (uint64 ((i + Z.of_nat k) * rows desc * columns desc *
               samples_per_pixel desc)).
Proof.
  induction count as [| count IH]; intros i k Hk; [lia |].
  destruct k as [| k]; cbn [native_offsets nth].
  - replace (i + Z.of_nat 0) with i by lia. unfold uint64.
    rewrite (Z.mul_mod_idemp_l (i * rows desc) (columns desc)) by lia.
    now rewrite Z.mul_mod_idemp_l by lia.
  - rewrite IH by lia.
    now replace (i + 1 + Z.of_nat k) with (i + Z.of_nat (S k)) by lia.
Qed.

(** C1, the code at the failing input.  An Explicit VR Little Endian file
    with two frames of 2 x 2 samples, one sample a pixel, 16 bits
    allocated: a frame takes 8 bytes.  [dcm_file_build_bot] returns the
    offsets 0 and 4, where the formula with the factor [bits_allocated / 8]
    gives 0 and 8; [dcm_file_read_frame] returns a frame of 4 bytes, where
    the formula gives 8. *)
Theorem native_offsets_leave_out_bits_allocated :
  dcm_file_read_metadata (C := example_collaborators) 50
    (dcm_file_create native_16bit_file) =
    Done (native_16bit_metadata, native_16bit_handle) /\
  create_pixel_description native_16bit_metadata =
    Done native_16bit_description /\
  dcm_file_build_bot (C := example_collaborators) 0
    native_16bit_handle native_16bit_metadata =
    Done (dcm_bot_create [0; 4] 2) /\
  map (spec_frame_offset native_16bit_description) [0; 1] = [0; 8] /\
  dcm_file_read_frame (C := example_collaborators)
    native_16bit_handle native_16bit_metadata (dcm_bot_create [0; 4] 2) 2 =
    Done (mkDcmFrame 2 [2; 0; 3; 0] 4 2 2 1 16 16 0 0 "MONOCHROME2"
            "1.2.840.10008.1.2.1") /\
  spec_frame_length native_16bit_description = 8.
Proof.
  repeat split; vm_compute; reflexivity.
Qed.

(** ** The Extended Offset Table *)

Section ReadBot.
Context {C : Collaborators}.

(** [dcm_file_read_bot] returns a table only from a BOT Item that has a
    value. *)
Lemma read_bot_needs_a_filled_item
    (file : DcmFile) (metadata : DcmDataSet) (bot : DcmBOT) :
  dcm_file_read_bot file metadata = Done bot ->
  exists eheader fp1 n1 iheader fp2 n2,
    read_element_header
      (fseek (f_fp file) (f_pixel_data_offset file) SEEK_SET) 0 false =
      Done (eheader, fp1, n1) /\
    read_item_header fp1 n1 = Done (iheader, fp2, n2) /\
    0 < uint32 (iheader_get_length iheader).
Proof.
  unfold dcm_file_read_bot.
  destruct (negb _); [discriminate |].
  intros E. apply bind_done in E. destruct E as (num_frames & _ & E).
  destruct (num_frames =? 0); [discriminate |].
  destruct (f_pixel_data_offset file =? 0); [discriminate |].
  apply bind_done in E. destruct E as ([[eheader fp1] n1] & E1 & E).
  destruct (negb _); [discriminate |].
  apply bind_done in E. destruct E as ([[iheader fp2] n2] & E2 & E).
  destruct (negb _); [discriminate |].
  destruct (0 <? uint32 (iheader_get_length iheader)) eqn:Epos.
  - exists eheader, fp1, n1, iheader, fp2, n2.
    repeat split.
    + destruct (read_element_header _ 0 false); simpl in E1;
        try discriminate; exact E1.
    + exact E2.
    + now apply Z.ltb_lt.
  - destruct (dcm_dataset_get metadata 0x7FE00001); [| discriminate].
    destruct (dcm_element_get_value_OV e); try discriminate.
    simpl in E. destruct (read_extended_offsets _ _ _); discriminate.
Qed.

End ReadBot.

(** C2, the code at the failing input.  A JPEG Baseline file of one frame
    whose BOT Item has length 0 and whose metadata holds the Extended
    Offset Table (7FE0,0001), VR OV, with the one offset 0:
    [dcm_file_read_bot] returns [NULL], not a table with the offset 0. *)
Theorem extended_offset_table_is_dropped :
  dcm_file_read_metadata (C := example_collaborators) 50
    (dcm_file_create extended_offset_table_file) =
    Done (extended_offset_table_metadata, extended_offset_table_handle) /\
  dcm_dataset_get extended_offset_table_metadata TAG_EXTENDED_OFFSET_TABLE =
    Some (mkElement 0x7FE00001 "OV" (Blob (u64le 0) 8)) /\
  read_item_header (mkFILE extended_offset_table_file 320 false) 0 =
    Done (mkIHeader TAG_ITEM 0, mkFILE extended_offset_table_file 328 false, 8) /\
  dcm_file_read_bot (C := example_collaborators)
    extended_offset_table_handle extended_offset_table_metadata =
    Failed NoBOT.
Proof.
  repeat split; vm_compute; reflexivity.
Qed.

(** ** The Frame Items *)

(** C3, the code at the failing input.  A JPEG Baseline file with an empty
    BOT Item (B = 0) and Frame Items of 100, 200 and 300 bytes; the first
    Frame Item starts at byte 308, where the stream stands after the header
    of the BOT Item.  [dcm_file_build_bot] seeks to the absolute offset B,
    the start of the file, reads the preamble as an Item header and stops
    in the [assert] of [iheader_get_tag].  When the loop over the Frame
    Items is started at byte 308, it records the byte count of the headers
    read so far, 8, 16 and 24 from the initial content 0 of
    [current_offset], and not the offsets 316, 424 and 632 of the stream
    after each header. *)
Theorem build_bot_seeks_from_the_start_of_the_file :
  dcm_file_read_metadata (C := example_collaborators) 50
    (dcm_file_create encapsulated_file) =
    Done (encapsulated_metadata, encapsulated_read_handle) /\
  read_item_header (mkFILE encapsulated_file 300 false) 0 =
    Done (mkIHeader TAG_ITEM 0, mkFILE encapsulated_file 308 false, 8) /\
  position (fseek (mkFILE encapsulated_file 308 false) 0 SEEK_SET) = 0%N /\
  (forall current_offset : Z,
     dcm_file_build_bot (C := example_collaborators) current_offset
       encapsulated_read_handle encapsulated_metadata = Aborted) /\
  scan_frame_items 10 (mkFILE encapsulated_file 308 false) 0 3 0 [] =
    Done ([8; 16; 24], 3) /\
  map (fun start => ftell (advance (mkFILE encapsulated_file start false) 8))
      [308%N; 416%N; 624%N] = [316; 424; 632].
Proof.
  repeat split; vm_compute; reflexivity.
Qed.

(** ** Number of Frames *)

Lemma fails_within_bind {A B : Type} (errors : list error)
    (m : outcome A) (k : A -> outcome B) :
  fails_within errors m ->
  (forall a : A, fails_within errors (k a)) ->
  fails_within errors (bind m k).
Proof.
  intros Hm Hk e. destruct m; simpl; intros E; try discriminate.
  - exact (Hk a e E).
  - injection E as <-. exact (Hm e0 eq_refl).
Qed.

Lemma fails_within_asserted {A : Type} (errors : list error) (m : outcome A) :
  fails_within errors (asserted m).
Proof. intros e. destruct m; discriminate. Qed.

Lemma fails_within_done {A : Type} (errors : list error) (a : A) :
  fails_within errors (Done a).
Proof. intros e. discriminate. Qed.

Lemma fails_within_failed {A : Type} (errors : list error) (e : error) :
  In e errors -> fails_within errors (@Failed A e).
Proof. intros Hin e' E. injection E as <-. exact Hin. Qed.

Lemma fails_within_other {A : Type} (errors : list error) (m : outcome A) :
  (forall e, m <> Failed e) -> fails_within errors m.
Proof. intros Hm e E. now destruct (Hm e). Qed.

Lemma fread_object_fails_within (errors : list error) (count : Z) (fp : FILE) :
  fails_within errors (fread_object count fp).
Proof.
  apply fails_within_other. intros e. unfold fread_object.
  destruct (fread count fp). destruct (_ =? _); discriminate.
Qed.

Lemma read_tag_fails_within (errors : list error) (fp : FILE) (n : Z) :
  fails_within errors (read_tag fp n).
Proof.
  unfold read_tag.
  apply fails_within_bind; [apply fread_object_fails_within |].
  intros [group_num fp1].
  apply fails_within_bind; [apply fread_object_fails_within |].
  intros [elem_num fp2]. apply fails_within_done.
Qed.

Lemma read_item_header_fails_within (errors : list error) (fp : FILE) (n : Z) :
  In InvalidItemTag errors ->
  fails_within errors (read_item_header fp n).
Proof.
  intros Hin. unfold read_item_header.
  apply fails_within_bind; [apply read_tag_fails_within |].
  intros [[tag fp1] n1].
  apply fails_within_bind; [apply fread_object_fails_within |].
  intros [length fp2].
  apply fails_within_bind; [| intros; apply fails_within_done].
  unfold iheader_create. destruct (negb _).
  - now apply fails_within_failed.
  - apply fails_within_done.
Qed.

Lemma strcmp_read_fails_within (errors : list error) (s : string) :
  forall got : list Z, fails_within errors (strcmp_read got s).
Proof.
  induction s as [| c s IH]; intros got; simpl.
  - apply fails_within_done.
  - destruct got as [| b got]; [apply fails_within_other; discriminate |].
    destruct (_ =? _); [apply IH | apply fails_within_done].
Qed.

Lemma fread_into_fails_within (errors : list error) (size : Z)
    (object : option (list Z)) (got : list Z) :
  fails_within errors (fread_into size object got).
Proof.
  apply fails_within_other. intros e. unfold fread_into.
  destruct (_ =? size); [discriminate |]. destruct object; discriminate.
Qed.

Lemma read_bot_values_fails_within (errors : list error) (count : nat) :
  In MalformedBOT errors ->
  forall (fp : FILE) (tmp_value : option (list Z)),
    fails_within errors (read_bot_values count fp tmp_value).
Proof.
  intros Hin. induction count as [| count IH]; intros fp tmp_value;
    cbn [read_bot_values].
  - apply fails_within_done.
  - destruct (fread 4 fp) as [got fp1].
    apply fails_within_bind; [apply fread_into_fails_within |].
    intros bytes. destruct (_ =? TAG_ITEM).
    + now apply fails_within_failed.
    + apply fails_within_bind; [apply IH |].
      intros [offsets fp2]. apply fails_within_done.
Qed.

Lemma read_extended_offsets_fails_within (errors : list error) (blob : list Z)
    (count : nat) :
  forall i : Z, fails_within errors (read_extended_offsets blob i count).
Proof.
  induction count as [| count IH]; intros i; cbn [read_extended_offsets].
  - apply fails_within_done.
  - destruct (_ && _); [apply fails_within_other; discriminate |].
    apply fails_within_bind; [apply IH |].
    intros offsets. apply fails_within_done.
Qed.

Lemma scan_frame_items_fails_within (errors : list error) (loop : nat) :
  In ExpectedItem errors ->
  forall (fp : FILE) (current_offset num_frames i : Z) (offsets : list Z),
    fails_within errors
      (scan_frame_items loop fp current_offset num_frames i offsets).
Proof.
  intros Hin. induction loop as [| loop IH]; intros fp c num_frames i offsets.
  - apply fails_within_other. discriminate.
  - cbn [scan_frame_items].
    apply fails_within_bind; [apply fails_within_asserted |].
    intros [[iheader fp1] c1].
    destruct (_ =? TAG_SQ_DELIM); [apply fails_within_done |].
    destruct (negb _); [now apply fails_within_failed |].
    destruct (feof fp1); [apply fails_within_done |].
    destruct (num_frames <=? i).
    + apply fails_within_other. discriminate.
    + apply IH.
Qed.

Lemma get_value_string_fails_within (errors : list error) (vr : string)
    (element : Element) (index : nat) :
  fails_within errors (dcm_element_get_value_string vr element index).
Proof.
  apply fails_within_other. intros e.
  destruct element as [tag vr' []]; simpl; try discriminate.
  destruct (String.eqb vr' vr); [| discriminate].
  destruct (nth_error strings index); discriminate.
Qed.

Section FrameCount.
Context {C : Collaborators}.

Lemma read_bot_after_frame_count (file : DcmFile) (metadata : DcmDataSet) (v : Z) :
  get_num_frames metadata = Done v -> v <> 0 ->
  fails_within (NotEncapsulated :: errors_after_frame_count)
               (dcm_file_read_bot file metadata).
Proof.
  intros Hget Hv. unfold dcm_file_read_bot.
  destruct (negb _); [apply fails_within_failed; simpl; tauto |].
  rewrite Hget. cbn [bind].
  replace (v =? 0) with false by (symmetry; now apply Z.eqb_neq).
  destruct (f_pixel_data_offset file =? 0);
    [apply fails_within_failed; simpl; tauto |].
  apply fails_within_bind; [apply fails_within_asserted |].
  intros [[eheader fp1] n1].
  destruct (negb _); [apply fails_within_failed; simpl; tauto |].
  apply fails_within_bind;
    [apply read_item_header_fails_within; simpl; tauto |].
  intros [[iheader fp2] n2].
  destruct (negb _); [apply fails_within_failed; simpl; tauto |].
  destruct (0 <? _).
  - apply fails_within_bind;
      [apply read_bot_values_fails_within; simpl; tauto |].
    intros [offsets fp3]. apply fails_within_done.
  - destruct (dcm_dataset_get metadata 0x7FE00001) as [eot |];
      [| apply fails_within_failed; simpl; tauto].
    apply fails_within_bind.
    + apply fails_within_other. intros e.
      destruct eot as [t vr' []]; simpl; try discriminate.
      destruct (String.eqb vr' "OV"); discriminate.
    + intros blob. apply fails_within_bind;
        [apply read_extended_offsets_fails_within; simpl; tauto |].
      intros offsets. apply fails_within_failed; simpl; tauto.
Qed.

Lemma build_bot_after_frame_count
    (current_offset : Z) (file : DcmFile) (metadata : DcmDataSet) (v : Z) :
  get_num_frames metadata = Done v -> v <> 0 ->
  fails_within errors_after_frame_count
               (dcm_file_build_bot current_offset file metadata).
Proof.
  intros Hget Hv. unfold dcm_file_build_bot.
  rewrite Hget. cbn [bind].
  replace (v =? 0) with false by (symmetry; now apply Z.eqb_neq).
  destruct (f_pixel_data_offset file =? 0);
    [apply fails_within_failed; simpl; tauto |].
  apply fails_within_bind; [apply fails_within_asserted |].
  intros [[eheader fp1] n1].
  destruct (negb _); [apply fails_within_failed; simpl; tauto |].
  destruct (dcm_is_encapsulated_transfer_syntax _).
  - apply fails_within_bind;
      [apply read_item_header_fails_within; simpl; tauto |].
    intros [[iheader fp2] n2].
    destruct (negb _); [apply fails_within_failed; simpl; tauto |].
    apply fails_within_bind;
      [apply scan_frame_items_fails_within; simpl; tauto |].
    intros [offsets i].
    destruct (negb _); [apply fails_within_failed; simpl; tauto |].
    apply fails_within_done.
  - apply fails_within_other. intros e.
    destruct (create_pixel_description metadata); discriminate.
Qed.

(** C6, as amended.  [dcm_file_read_bot] (on an encapsulated transfer
    syntax) and [dcm_file_build_bot] fail when the metadata has no Number
    of Frames (0028,0008).  Where it is there, with the VR IS, its string
    is converted by [strtol] in base 10 and the result is stored in a
    [uint32_t]; both functions fail with the message that the Number of
    Frames is malformed when that stored value is 0, and only then: a
    string such as "-1", which is stored as 4294967295, passes. *)
Theorem frame_count_is_rejected_when_it_is_stored_as_zero
    (current_offset : Z) (file : DcmFile) (metadata : DcmDataSet) :
  let encapsulated :=
    dcm_is_encapsulated_transfer_syntax (f_transfer_syntax_uid file) in
  (dcm_dataset_get metadata 0x00280008 = None ->
   dcm_file_build_bot current_offset file metadata =
     Failed MissingNumberOfFrames /\
   (encapsulated = true ->
    dcm_file_read_bot file metadata = Failed MissingNumberOfFrames)) /\
  (forall (element : Element) (value : string),
     dcm_dataset_get metadata 0x00280008 = Some element ->
     dcm_element_get_value_string "IS" element 0 = Done value ->
     let num_frames := uint32 (strtol_10 value) in
     (num_frames = 0 ->
      dcm_file_build_bot current_offset file metadata = Failed BadFrameCount /\
      (encapsulated = true ->
       dcm_file_read_bot file metadata = Failed BadFrameCount)) /\
     (num_frames <> 0 ->
      dcm_file_build_bot current_offset file metadata <> Failed BadFrameCount /\
      dcm_file_read_bot file metadata <> Failed BadFrameCount)).
Proof.
  intros encapsulated. split.
  - intros Hnone.
    assert (Hget : get_num_frames metadata = Failed MissingNumberOfFrames).
    { unfold get_num_frames. now rewrite Hnone. }
    split.
    + unfold dcm_file_build_bot. now rewrite Hget.
    + intros Henc. unfold dcm_file_read_bot. fold encapsulated.
      rewrite Henc. cbn [negb]. now rewrite Hget.
  - intros element value Hsome Hvalue num_frames.
    assert (Hget : get_num_frames metadata = Done num_frames).
    { unfold get_num_frames. rewrite Hsome, Hvalue. reflexivity. }
    split.
    + intros Hzero. split.
      * unfold dcm_file_build_bot. rewrite Hget. cbn [bind].
        now rewrite Hzero.
      * intros Henc. unfold dcm_file_read_bot. fold encapsulated.
        rewrite Henc. cbn [negb]. rewrite Hget. cbn [bind].
        now rewrite Hzero.
    + intros Hnonzero. split; intros E.
      * apply (build_bot_after_frame_count _ _ _ _ Hget Hnonzero) in E.
        simpl in E. intuition discriminate.
      * apply (read_bot_after_frame_count _ _ _ Hget Hnonzero) in E.
        simpl in E. intuition discriminate.
Qed.

End FrameCount.

Lemma frame_count_is_rejected_when_it_is_stored_as_zero_witness :
  dcm_file_build_bot (C := example_collaborators) 0
    encapsulated_handle zero_frames_metadata = Failed BadFrameCount /\
  dcm_file_read_bot (C := example_collaborators)
    encapsulated_handle zero_frames_metadata = Failed BadFrameCount.
Proof.
  destruct (frame_count_is_rejected_when_it_is_stored_as_zero
              (C := example_collaborators) 0
              encapsulated_handle zero_frames_metadata) as [_ H].
  destruct (H (mkElement 0x00280008 "IS" (Strings ["0"] 1)) "0"
              eq_refl eq_refl) as [[Hbuild Hread] _].
  - reflexivity.
  - split; [exact Hbuild | apply Hread; reflexivity].
Defined.

(** C6, the claim as stated fails: the Number of Frames "-1" is parsed
    as -1, a value below zero, and is stored as 4294967295; neither
    function reports a malformed Number of Frames: on a handle whose
    metadata has not been read both go on to the next check and fail
    there. *)
Lemma negative_frame_count_is_not_rejected :
  strtol_10 "-1" = -1 /\
  get_num_frames negative_frames_metadata = Done 4294967295 /\
  dcm_file_read_bot (C := example_collaborators)
    encapsulated_handle negative_frames_metadata =
    Failed MissingPixelDataOffset /\
  dcm_file_build_bot (C := example_collaborators) 0
    encapsulated_handle negative_frames_metadata =
    Failed MissingPixelDataOffset.
Proof.
  repeat split; vm_compute; reflexivity.
Qed.

(** ** The mode of the Data Set *)


(** The Data Set of [implicit_file] is read in implicit mode: its Patient
    Name, an element of 8 header bytes without a VR, gets the VR PN of the
    dictionary. *)
Example implicit_file_is_read_in_implicit_mode :
  dcm_file_read_metadata (C := example_collaborators) 50
    (dcm_file_create implicit_file) =
  Done ([mkElement 0x00100010 "PN" (Strings ["DOE^J"] 1)],
        mkDcmFile (mkFILE implicit_file 198 false) None 184
                  (Some "1.2.840.10008.1.2") 198 None).
Proof. vm_compute. reflexivity. Qed.

(** ** Where the readers leave the stream *)

Lemma stream_moves_on_refl (fp : FILE) : stream_moves_on fp fp.
Proof. split; [reflexivity | lia]. Qed.

Lemma stream_moves_on_trans (fp1 fp2 fp3 : FILE) :
  stream_moves_on fp1 fp2 -> stream_moves_on fp2 fp3 ->
  stream_moves_on fp1 fp3.
Proof. intros [C1 P1] [C2 P2]. split; [congruence | lia]. Qed.

Lemma stream_moves_on_advance (fp : FILE) (count : Z) :
  stream_moves_on fp (advance fp count).
Proof. split; simpl; [reflexivity | lia]. Qed.

Lemma fread_object_moves_on (count : Z) (fp fp' : FILE) (bs : list Z) :
  fread_object count fp = Done (bs, fp') -> stream_moves_on fp fp'.
Proof.
  intros E. apply fread_object_done in E. destruct E as (_ & _ & _ & ->).
  apply stream_moves_on_advance.
Qed.

Lemma read_tag_done (fp fp' : FILE) (n n' tag : Z) :
  read_tag fp n = Done (tag, fp', n') -> fp' = advance fp 4.
Proof.
  unfold read_tag. intros E.
  apply bind_done in E. destruct E as ([g fp1] & E1 & E).
  apply bind_done in E. destruct E as ([e fp2] & E2 & E).
  apply fread_object_done in E1. destruct E1 as (_ & _ & _ & ->).
  apply fread_object_done in E2. destruct E2 as (_ & _ & _ & ->).
  injection E as _ <- _. now rewrite advance_advance by lia.
Qed.

Lemma read_item_header_done (fp fp' : FILE) (n n' : Z) (header : IHeader) :
  read_item_header fp n = Done (header, fp', n') -> fp' = advance fp 8.
Proof.
  unfold read_item_header. intros E.
  apply bind_done in E. destruct E as ([[tag fp1] n1] & E1 & E).
  apply bind_done in E. destruct E as ([len fp2] & E2 & E).
  apply bind_done in E. destruct E as (h & _ & E).
  apply read_tag_done in E1. subst fp1.
  apply fread_object_done in E2. destruct E2 as (_ & _ & _ & ->).
  injection E as _ <- _. now rewrite advance_advance by lia.
Qed.

Section Positions.
Context {C : Collaborators}.

(** An element header takes 8 bytes in implicit mode and 8 or 12 bytes in
    explicit mode. *)
Lemma read_element_header_done
    (fp fp' : FILE) (n n' : Z) (implicit : bool) (header : EHeader) :
  read_element_header fp n implicit = Done (header, fp', n') ->
  if implicit then fp' = advance fp 8
  else fp' = advance fp 8 \/ fp' = advance fp 12.
Proof.
  unfold read_element_header. intros E.
  apply bind_done in E. destruct E as ([[tag fp1] n1] & E1 & E).
  apply read_tag_done in E1. subst fp1.
  destruct implicit.
  - apply bind_done in E. destruct E as ([len fp2] & E2 & E).
    apply bind_done in E. destruct E as (h & _ & E).
    apply fread_object_done in E2. destruct E2 as (_ & _ & _ & ->).
    injection E as _ <- _. now rewrite advance_advance by lia.
  - apply bind_done in E. destruct E as ([vr fp2] & E2 & E).
    apply fread_object_done in E2. destruct E2 as (_ & _ & _ & ->).
    rewrite advance_advance in E by lia.
    destruct (vr_in (cstring vr) short_length_vrs).
    + apply bind_done in E. destruct E as ([len fp3] & E3 & E).
      apply bind_done in E. destruct E as (h & _ & E).
      apply fread_object_done in E3. destruct E3 as (_ & _ & _ & ->).
      injection E as _ <- _. left. now rewrite advance_advance by lia.
    + apply bind_done in E. destruct E as ([res fp3] & E3 & E).
      apply fread_object_done in E3. destruct E3 as (_ & _ & _ & ->).
      destruct (negb _); [discriminate |].
      apply bind_done in E. destruct E as ([len fp4] & E4 & E).
      apply bind_done in E. destruct E as (h & _ & E).
      apply fread_object_done in E4. destruct E4 as (_ & _ & _ & ->).
      injection E as _ <- _. right. now rewrite !advance_advance by lia.
Qed.

Lemma read_element_header_moves_on
    (fp fp' : FILE) (n n' : Z) (implicit : bool) (header : EHeader) :
  read_element_header fp n implicit = Done (header, fp', n') ->
  stream_moves_on fp fp'.
Proof.
  intros E. apply read_element_header_done in E.
  destruct implicit; [| destruct E]; subst fp'; apply stream_moves_on_advance.
Qed.

Lemma read_values_moves_on (size : Z) (convert : Z -> Z) (vm : nat) :
  forall (fp fp' : FILE) (n n' : Z) (values : list Z),
    read_values size convert vm fp n = Done (values, fp', n') ->
    stream_moves_on fp fp'.
Proof.
  induction vm as [| vm IH]; intros fp fp' n n' values E; simpl in E.
  - injection E as _ <- _. apply stream_moves_on_refl.
  - apply bind_done in E. destruct E as ([val fp1] & E1 & E).
    apply bind_done in E. destruct E as ([[vals fp2] n2] & E2 & E).
    injection E as _ <- _.
    eapply stream_moves_on_trans.
    + eapply fread_object_moves_on; eassumption.
    + eapply IH; eassumption.
Qed.

Lemma fseek_back_4 (fp : FILE) :
  stream_moves_on fp (fseek (advance fp 4) (-4) SEEK_CUR).
Proof.
  unfold fseek, advance. simpl.
  destruct (_ <? 0); split; simpl; try reflexivity; lia.
Qed.

Lemma fseek_on_4 (fp : FILE) :
  stream_moves_on fp (fseek (advance fp 4) 4 SEEK_CUR).
Proof.
  unfold fseek, advance. simpl.
  destruct (_ <? 0); split; simpl; try reflexivity; lia.
Qed.

Lemma readers_move_on (fuel : nat) :
  (forall fp header n implicit element fp' n',
     read_element fuel fp header n implicit = Done (element, fp', n') ->
     stream_moves_on fp fp') /\
  (forall fp tag length implicit n_seq value value' fp' n',
     read_items fuel fp tag length implicit n_seq value = Done (value', fp', n') ->
     stream_moves_on fp fp') /\
  (forall fp tag item_length implicit n_item dataset dataset' fp' n',
     read_item_elements fuel fp tag item_length implicit n_item dataset =
       Done (dataset', fp', n') ->
     stream_moves_on fp fp').
Proof.
  induction fuel as [| fuel (IHe & IHs & IHi)].
  - split; [| split]; intros; discriminate.
  - split; [| split].
    + intros fp header n implicit element fp' n' E.
      cbn [read_element] in E.
      destruct (vr_in (eheader_vr header) character_string_vrs).
      * destruct (_ =? 0); [discriminate |].
        apply bind_done in E. destruct E as ([value fp1] & E1 & E).
        apply fread_object_moves_on in E1.
        destruct (parse_character_string _) as [strings vm].
        destruct (vr_in _ single_string_vrs).
        -- destruct (1 <? vm); [discriminate |].
           destruct strings as [| str strings]; [discriminate |].
           apply bind_done in E. destruct E as (el & _ & E).
           now injection E as _ <- _.
        -- apply bind_done in E. destruct E as (el & _ & E).
           now injection E as _ <- _.
      * destruct (eheader_check_vr header "SQ").
        -- destruct (_ =? 0).
           ++ apply bind_done in E. destruct E as (el & _ & E).
              injection E as _ <- _. apply stream_moves_on_refl.
           ++ apply bind_done in E. destruct E as ([[value fp1] n1] & E1 & E).
              apply bind_done in E. destruct E as (el & _ & E).
              injection E as _ <- _. eapply IHs; eassumption.
        -- destruct (numeric_vr header) as [[size convert] |].
           ++ apply bind_done in E. destruct E as ([[values fp1] n1] & E1 & E).
              apply bind_done in E. destruct E as (el & _ & E).
              injection E as _ <- _. eapply read_values_moves_on; eassumption.
           ++ destruct (vr_in _ opaque_vrs);
                [| destruct (fread _ fp); discriminate].
              apply bind_done in E. destruct E as ([value fp1] & E1 & E).
              apply fread_object_moves_on in E1.
              apply bind_done in E. destruct E as (el & _ & E).
              now injection E as _ <- _.
    + intros fp tag length implicit n_seq value value' fp' n' E.
      cbn [read_items] in E.
      destruct (n_seq <? length).
      * apply bind_done in E. destruct E as ([[ih fp1] n1] & E1 & E).
        apply read_item_header_done in E1. subst fp1.
        destruct (_ =? TAG_SQ_DELIM).
        -- injection E as _ <- _. apply stream_moves_on_advance.
        -- destruct (negb _); [discriminate |].
           apply bind_done in E. destruct E as ([[ds fp2] n2] & E2 & E).
           apply IHi in E2. apply IHs in E.
           eapply stream_moves_on_trans; [apply stream_moves_on_advance |].
           eapply stream_moves_on_trans; eassumption.
      * injection E as _ <- _. apply stream_moves_on_refl.
    + intros fp tag item_length implicit n_item dataset dataset' fp' n' E.
      cbn [read_item_elements] in E.
      destruct (n_item <? item_length).
      * apply bind_done in E. destruct E as ([[probe fp1] n1] & E1 & E).
        apply read_tag_done in E1. subst fp1.
        destruct (probe =? TAG_ITEM_DELIM).
        -- injection E as _ <- _. apply fseek_on_4.
        -- apply bind_done in E. destruct E as ([[eh fp2] n2] & E2 & E).
           apply bind_done in E. destruct E as ([[el fp3] n3] & E3 & E).
           apply read_element_header_moves_on in E2. apply IHe in E3.
           destruct (dcm_dataset_insert dataset el); [| discriminate].
           apply IHi in E.
           eapply stream_moves_on_trans; [apply fseek_back_4 |].
           eapply stream_moves_on_trans; [eassumption |].
           eapply stream_moves_on_trans; eassumption.
      * injection E as _ <- _. apply stream_moves_on_refl.
Qed.

Lemma read_element_moves_on
    (fuel : nat) (fp fp' : FILE) (header : EHeader) (n n' : Z)
    (implicit : bool) (element : Element) :
  read_element fuel fp header n implicit = Done (element, fp', n') ->
  stream_moves_on fp fp'.
Proof. apply readers_move_on. Qed.

Lemma read_file_meta_elements_moves_on (fuel loop : nat) :
  forall (fp fp' : FILE) (size size' group_length : Z)
         (file_meta file_meta' : DcmDataSet),
    read_file_meta_elements fuel loop fp size group_length file_meta =
      Done (file_meta', fp', size') ->
    stream_moves_on fp fp'.
Proof.
  induction loop as [| loop IH];
    intros fp fp' size size' group_length file_meta file_meta' E;
    [discriminate |].
  cbn [read_file_meta_elements] in E.
  apply bind_done in E. destruct E as ([[header fp1] n1] & E1 & E).
  apply freed_twice_done, read_element_header_moves_on in E1.
  destruct (negb _).
  - now injection E as _ <- _.
  - apply bind_done in E. destruct E as ([[element fp2] n2] & E2 & E).
    apply read_element_moves_on in E2.
    destruct (dcm_dataset_insert file_meta element); [| discriminate].
    destruct (group_length <=? n2).
    + injection E as _ <- _. eapply stream_moves_on_trans; eassumption.
    + apply IH in E.
      eapply stream_moves_on_trans; [eassumption |].
      eapply stream_moves_on_trans; eassumption.
Qed.

Lemma fread_then_object (count more : Z) (fp fp0 fp1 : FILE) (got bs : list Z) :
  0 <= count -> 0 < more ->
  fread count fp = (got, fp0) ->
  fread_object more fp0 = Done (bs, fp1) ->
  contents fp1 = contents fp /\
  position fp1 = (position fp + Z.to_N count + Z.to_N more)%N.
Proof.
  intros Hcount Hmore E0 E1.
  apply fread_object_done in E1. destruct E1 as (_ & Hleft & _ & ->).
  unfold fread in E0. injection E0 as _ <-.
  unfold remaining in *. cbn [position contents advance] in *.
  pose proof (length_firstn (Z.to_nat count)
                (skipn (N.to_nat (position fp)) (contents fp))) as Hgot.
  rewrite length_skipn in Hleft, Hgot.
  split; [reflexivity | lia].
Qed.

Lemma fread_length (count : Z) (fp fp' : FILE) (got : list Z) :
  fread count fp = (got, fp') -> (List.length got <= Z.to_nat count)%nat.
Proof.
  unfold fread. intros E. injection E as <- _.
  rewrite length_firstn. lia.
Qed.

(** The comparison finds the text only in a buffer that was read in
    full. *)
Lemma strcmp_read_true (s : string) :
  forall got : list Z,
    strcmp_read got s = Done true -> (String.length s <= List.length got)%nat.
Proof.
  induction s as [| c s IH]; intros got E; simpl; [lia |].
  destruct got as [| b got]; [discriminate |].
  simpl in E. destruct (b mod 256 =? byte_of_char c); [| discriminate].
  apply IH in E. simpl. lia.
Qed.

Lemma preamble_and_prefix (fp fp0 fp1 : FILE) (preamble prefix : list Z) :
  fread 128 fp = (preamble, fp0) ->
  fread 4 fp0 = (prefix, fp1) ->
  strcmp_read prefix "DICM" = Done true ->
  contents fp1 = contents fp /\ (position fp + 132 <= position fp1)%N.
Proof.
  intros E0 E1 Ef. apply strcmp_read_true in Ef. simpl in Ef.
  assert (E1' : fread_object 4 fp0 = Done (prefix, fp1)).
  { unfold fread_object. rewrite E1.
    assert (Hlen : (List.length prefix <= 4)%nat).
    { pose proof (fread_length _ _ _ _ E1). lia. }
    destruct (Z.eqb_spec (Z.of_nat (List.length prefix)) 4); [reflexivity | lia]. }
  destruct (fread_then_object 128 4 _ _ _ _ _ ltac:(lia) ltac:(lia) E0 E1')
    as [Hc Hp].
  split; [exact Hc | lia].
Qed.

(** A File Meta group that was read ends at byte 132 or later of the same
    file; the handle records that offset and a Transfer Syntax UID. *)
Lemma read_file_meta_done
    (fuel : nat) (file file' : DcmFile) (file_meta : DcmDataSet) :
  dcm_file_read_file_meta fuel file = Done (file_meta, file') ->
  contents (f_fp file') = contents (f_fp file) /\
  f_offset file' = ftell (f_fp file') /\
  132 <= f_offset file' /\
  f_pixel_data_offset file' = f_pixel_data_offset file /\
  f_meta file' = f_meta file /\
  f_extended_offset_table file' = f_extended_offset_table file.
Proof.
  unfold dcm_file_read_file_meta. intros E.
  destruct (fread 128 (f_fp file)) as [preamble fp0] eqn:E0.
  destruct (fread 4 fp0) as [prefix fp1] eqn:E1.
  apply bind_done in E. destruct E as (found & Ef & E).
  destruct found; cbn [negb] in E; [| discriminate].
  apply bind_done in E. destruct E as ([[h1 fp2] n2] & E2 & E).
  apply bind_done in E. destruct E as ([[e1 fp3] n3] & E3 & E).
  apply bind_done in E. destruct E as (group_length & _ & E).
  apply bind_done in E. destruct E as ([[h2 fp4] n4] & E4 & E).
  apply bind_done in E. destruct E as ([[e2 fp5] n5] & E5 & E).
  apply bind_done in E. destruct E as ([[fm fp6] n6] & E6 & E).
  destruct (dcm_dataset_get fm 0x00020010); [| discriminate].
  apply bind_done in E. destruct E as (uid & _ & E).
  injection E as _ <-. cbn [f_fp f_offset f_pixel_data_offset f_meta
                            f_extended_offset_table].
  destruct (preamble_and_prefix _ _ _ _ _ E0 E1 Ef) as [Pc Pp].
  apply read_element_header_moves_on in E2, E4.
  apply read_element_moves_on in E3, E5.
  apply read_file_meta_elements_moves_on in E6.
  assert (M : stream_moves_on fp1 fp6).
  { repeat (eapply stream_moves_on_trans; [eassumption |]).
    apply stream_moves_on_refl. }
  destruct M as [Mc Mp].
  repeat split; try reflexivity.
  - congruence.
  - unfold ftell. lia.
Qed.


Lemma peek_and_rewind (count : Z) (fp fp1 : FILE) (tmp : list Z) :
  count = 1 ->
  fread count fp = (tmp, fp1) ->
  (List.length tmp =? 0)%nat = false ->
  fseek fp1 (- count) SEEK_CUR = mkFILE (contents fp) (position fp) false.
Proof.
  intros Hcount E Hgot. unfold fread in E. injection E as <- <-.
  apply Nat.eqb_neq in Hgot.
  pose proof (length_firstn (Z.to_nat count) (remaining fp)) as Hlen.
  unfold fseek. cbn [position contents].
  destruct (_ <? 0) eqn:Hneg; [apply Z.ltb_lt in Hneg; lia |].
  f_equal. lia.
Qed.

(** The loop over the Data Set stays in the same file.  When it stops at a
    Pixel Data Element, the header of that element starts at or after the
    position where the loop started and takes 8 bytes in implicit mode and
    8 or 12 bytes in explicit mode; the stream is then moved back by 8
    bytes in implicit mode and by 12 bytes in explicit mode, if there are
    as many before it. *)
Lemma read_dataset_elements_done (fuel loop : nat) :
  forall (fp fp' : FILE) (n : Z) (implicit : bool)
         (dataset dataset' : DcmDataSet) (stopped : stop),
    read_dataset_elements fuel loop fp n implicit dataset =
      Done (dataset', fp', stopped) ->
    contents fp' = contents fp /\
    match stopped with
    | AtPixelData s e =>
        Z.of_N (position fp) <= s /\
        (if implicit then e = s + 8 else e = s + 8 \/ e = s + 12) /\
        ftell fp' =
          (let target := e - (if implicit then 8 else 12) in
           if target <? 0 then e else target)
    | _ => True
    end.
Proof.
  induction loop as [| loop IH];
    intros fp fp' n implicit dataset dataset' stopped E; [discriminate |].
  cbn [read_dataset_elements] in E.
  destruct (feof fp).
  { injection E as _ <- <-. split; [reflexivity | exact I]. }
  destruct (fread 1 fp) as [tmp fp1] eqn:Epeek.
  destruct (List.length tmp =? 0)%nat eqn:Etmp.
  { injection E as _ <- <-. split; [| exact I].
    unfold fread in Epeek. now injection Epeek as _ <-. }
  change (-1) with (- (1)) in E.
  rewrite (peek_and_rewind 1 _ _ _ eq_refl Epeek Etmp) in E.
  set (fph := mkFILE (contents fp) (position fp) false) in E.
  apply bind_done in E. destruct E as ([[header fp2] n2] & Eh & E).
  apply read_element_header_done in Eh.
  destruct (_ =? TAG_TRAILING_PADDING).
  { injection E as _ <- <-. split; [| exact I].
    destruct implicit; [| destruct Eh]; subst fp2; reflexivity. }
  destruct (is_pixel_data_tag _).
  { injection E as _ <- <-. split.
    - destruct implicit; [| destruct Eh]; subst fp2; unfold fseek;
        destruct (_ <? 0); reflexivity.
    - split; [unfold ftell, fph; simpl; lia |].
      destruct implicit; [| destruct Eh]; subst fp2;
        unfold fseek, ftell, advance, fph; cbn [position contents];
        (split; [lia |]);
        cbv zeta;
        repeat match goal with
               | |- context [?a <? 0] => destruct (Z.ltb_spec a 0)
               end;
        cbn [position]; lia. }
  destruct (_ =? 0x0002); [discriminate |].
  apply bind_done in E. destruct E as ([[element fp3] n3] & Ee & E).
  apply read_element_moves_on in Ee.
  destruct (dcm_dataset_insert dataset element); [| discriminate].
  apply IH in E. destruct E as [Ec Es].
  assert (M : stream_moves_on fph fp3).
  { eapply stream_moves_on_trans; [| eassumption].
    destruct implicit; [| destruct Eh]; subst fp2;
      apply stream_moves_on_advance. }
  destruct M as [Mc Mp]. cbn [fph contents position] in Mc, Mp.
  split; [congruence |].
  destruct stopped as [| | s e]; try exact I.
  destruct Es as (Hs & Hk & Ht). repeat split; try assumption. lia.
Qed.

Lemma ensure_file_meta_done (fuel : nat) (file file1 : DcmFile) :
  ensure_file_meta fuel file = Done file1 ->
  contents (f_fp file1) = contents (f_fp file) /\
  f_pixel_data_offset file1 = f_pixel_data_offset file /\
  (f_offset file = 0 -> 132 <= f_offset file1) /\
  (f_offset file <> 0 -> file1 = file).
Proof.
  unfold ensure_file_meta. intros E.
  destruct (f_offset file =? 0) eqn:Eoff.
  - apply Z.eqb_eq in Eoff.
    apply bind_done in E. destruct E as ([meta file0] & E0 & E).
    injection E as <-.
    destruct (read_file_meta_done _ _ _ _ E0) as (Hc & _ & Hoff & Hpdo & _).
    split; [exact Hc |]. split; [exact Hpdo |].
    split; [intros _; exact Hoff | intros Hnz; contradiction].
  - apply Z.eqb_neq in Eoff. injection E as <-.
    split; [reflexivity |]. split; [reflexivity |].
    split; [intros Hz; contradiction | reflexivity].
Qed.

(** C9, as amended.  On a handle on which [dcm_file_read_metadata] has
    returned a Data Set, a second call returns the same Data Set and
    leaves the handle as it was.  ([dcm_file_read_file_meta] reads from
    where the stream stands and does not rewind it: it returns the same
    File Meta Information again when it starts from the same state of the
    stream.) *)
Theorem read_metadata_again_returns_the_same
    (fuel : nat) (file file' : DcmFile) (dataset : DcmDataSet) :
  0 <= f_offset file ->
  dcm_file_read_metadata fuel file = Done (dataset, file') ->
  dcm_file_read_metadata fuel file' = Done (dataset, file') /\
  (forall (file2 file_after : DcmFile) (file_meta : DcmDataSet),
     f_fp file2 = f_fp file ->
     dcm_file_read_file_meta fuel file = Done (file_meta, file_after) ->
     exists file2_after : DcmFile,
       dcm_file_read_file_meta fuel file2 = Done (file_meta, file2_after)).
Proof.
  intros Hoff E. split.
  - unfold dcm_file_read_metadata in *.
    apply bind_done in E. destruct E as ([[ds file0] st] & E & E').
    injection E' as <- <-.
    unfold read_metadata_trace in *.
    apply bind_done in E. destruct E as (file1 & E1 & E).
    apply bind_done in E. destruct E as ([[ds' fp'] st'] & E2 & E).
    injection E as <- <- <-.
    destruct (ensure_file_meta_done _ _ _ E1) as (_ & _ & Hread & Hsame).
    assert (Hoff1 : 0 < f_offset file1).
    { destruct (Z.eq_dec (f_offset file) 0) as [Hz | Hnz].
      - specialize (Hread Hz). lia.
      - rewrite (Hsame Hnz). lia. }
    unfold ensure_file_meta at 1. cbn [f_offset].
    replace (f_offset file1 =? 0) with false by (symmetry; apply Z.eqb_neq; lia).
    cbn [bind f_fp f_offset f_transfer_syntax_uid].
    destruct (read_dataset_elements_done _ _ _ _ _ _ _ _ _ E2) as [Hc _].
    assert (Hseek : fseek fp' (f_offset file1) SEEK_SET =
                    fseek (f_fp file1) (f_offset file1) SEEK_SET).
    { unfold fseek in *. destruct (Z.ltb_spec (f_offset file1) 0); [lia |].
      cbn [contents] in Hc. now rewrite Hc. }
    rewrite Hseek, E2. cbn [bind f_meta f_pixel_data_offset
                                 f_extended_offset_table].
    match goal with s : stop |- _ => destruct s end; reflexivity.
  - intros file2 file_after file_meta Hfp E2.
    unfold dcm_file_read_file_meta in *. rewrite Hfp.
    destruct (fread 128 (f_fp file)) as [preamble fp0].
    repeat match goal with
           | H : bind ?m _ = Done _ |- _ =>
               destruct m as [? | | | |]; cbn [bind] in H |- *;
               [| discriminate H ..]
           | H : match ?x with _ => _ end = Done _ |- _ =>
               destruct x; try discriminate H
           end.
    injection E2 as <- _. eexists. reflexivity.
Qed.

End Positions.

(** C8, the code at the failing input.  [short_vr_pixel_file] is an
    Explicit VR Little Endian file whose Pixel Data Element is written with
    the VR US, a VR with a 2-byte length.  [dcm_file_read_metadata] returns
    its Data Set, the Rows element, and sets [pixel_data_offset]: the loop
    has met the tag (7FE0,0010).  The header of the Pixel Data Element is
    the 8 bytes 196 to 203: read at byte 196 it has the tag (7FE0,0010),
    and the stream is then at byte 204.  The source seeks 12 bytes back
    from there, as for a header with a 4-byte length, and sets
    [pixel_data_offset] to 192, which is inside the Rows element.  Read at
    that offset, as [dcm_file_read_bot] and [dcm_file_build_bot] read it,
    the tag is (0002,0002) and no header is returned;
    [dcm_file_build_bot] then stops in the [assert] of
    [eheader_get_tag]. *)
Theorem pixel_data_offset_misses_a_short_header :
  dcm_file_read_metadata (C := example_collaborators) 50
    (dcm_file_create short_vr_pixel_file) =
    Done ([mkElement 0x00280010 "US" (Numbers [2] 1)],
          short_vr_pixel_handle) /\
  read_element_header (C := example_collaborators)
    (mkFILE short_vr_pixel_file 196 false) 0 false =
    Done (mkEHeader TAG_PIXEL_DATA "US" 2,
          mkFILE short_vr_pixel_file 204 false, 8) /\
  f_pixel_data_offset short_vr_pixel_handle = 192 /\
  read_tag (fseek (f_fp short_vr_pixel_handle)
                  (f_pixel_data_offset short_vr_pixel_handle) SEEK_SET) 0 =
    Done (0x00020002, mkFILE short_vr_pixel_file 196 false, 4) /\
  read_element_header (C := example_collaborators)
    (fseek (f_fp short_vr_pixel_handle)
           (f_pixel_data_offset short_vr_pixel_handle) SEEK_SET) 0 false =
    Failed ReservedNonZero /\
  dcm_file_build_bot (C := example_collaborators) 0
    short_vr_pixel_handle one_frame_metadata = Aborted.
Proof.
  repeat split; vm_compute; reflexivity.
Qed.

Lemma read_metadata_again_returns_the_same_witness :
  dcm_file_read_metadata (C := example_collaborators) 50 native_16bit_handle =
    Done (native_16bit_metadata, native_16bit_handle) /\
  (forall (file2 file_after : DcmFile) (file_meta : DcmDataSet),
     f_fp file2 = f_fp (dcm_file_create native_16bit_file) ->
     dcm_file_read_file_meta (C := example_collaborators) 50
       (dcm_file_create native_16bit_file) = Done (file_meta, file_after) ->
     exists file2_after : DcmFile,
       dcm_file_read_file_meta (C := example_collaborators) 50 file2 =
         Done (file_meta, file2_after)).
Proof.
  apply (read_metadata_again_returns_the_same (C := example_collaborators)
           50 (dcm_file_create native_16bit_file) native_16bit_handle
           native_16bit_metadata).
  - vm_compute. discriminate.
  - vm_compute. reflexivity.
Defined.

(** C9, the claim as stated fails: on a stream that holds a second
    preamble, prefix and File Meta group after the first, two successive
    calls of [dcm_file_read_file_meta] on the same handle both return a
    data set, and the two differ: the second call reads on from byte 186,
    where the first one left the stream. *)
Lemma read_file_meta_again_reads_on :
  dcm_file_read_file_meta (C := example_collaborators) 50
    (dcm_file_create two_headers_file) =
    Done ([mkElement 0x00020010 "UI" (Strings ["1.2.840.10008.1.2.1"] 1)],
          two_headers_handle_1) /\
  dcm_file_read_file_meta (C := example_collaborators) 50
    two_headers_handle_1 =
    Done ([mkElement 0x00020010 "UI" (Strings ["1.2.840.10008.1.2"] 1)],
          two_headers_handle_2) /\
  [mkElement 0x00020010 "UI" (Strings ["1.2.840.10008.1.2.1"] 1)] <>
  [mkElement 0x00020010 "UI" (Strings ["1.2.840.10008.1.2"] 1)].
Proof.
  repeat split; try (vm_compute; reflexivity).
  discriminate.
Qed.

(** ** The reader on well-formed input *)

(** A Sequence of undefined length with one Item of undefined length: the
    Item ends at the Item Delimitation tag and the Sequence at the Sequence
    Delimitation tag; 34 bytes are read. *)
Example undefined_length_sequence :
  read_element (C := example_collaborators) 5 undefined_length_items
    sq_undefined_length 0 false =
  Done (mkElement 0x00400555 "SQ"
          (Sequence [[mkElement 0x00080100 "SH" (Strings ["X"] 1)]]),
        advance undefined_length_items 34, 34).
Proof. vm_compute. reflexivity. Qed.

(** A BOT Item that has a value is returned as it is in the file. *)
Example filled_bot_is_read :
  dcm_file_read_metadata (C := example_collaborators) 50
    (dcm_file_create filled_bot_file) =
    Done (encapsulated_metadata, filled_bot_handle) /\
  dcm_file_read_bot (C := example_collaborators)
    filled_bot_handle encapsulated_metadata =
    Done (dcm_bot_create [0; 1024; 2048] 3).
Proof. split; vm_compute; reflexivity. Qed.

(** * More of the reader *)

(** ** Little-endian objects *)

Lemma le_decode_range (bs : list Z) :
  0 <= le_decode bs < 256 ^ Z.of_nat (List.length bs).
Proof.
  induction bs as [| b bs IH].
  - simpl. lia.
  - cbn [le_decode fold_right List.length]. fold (le_decode bs).
    rewrite Nat2Z.inj_succ, Z.pow_succ_r by lia.
    pose proof (Z.mod_pos_bound b 256 ltac:(lia)). nia.
Qed.

Lemma le_decode_app (bs cs : list Z) :
  le_decode (bs ++ cs) =
  le_decode bs + 256 ^ Z.of_nat (List.length bs) * le_decode cs.
Proof.
  induction bs as [| b bs IH].
  - change (le_decode cs = 0 + 1 * le_decode cs). lia.
  - cbn [app le_decode fold_right List.length].
    fold (le_decode (bs ++ cs)). fold (le_decode bs).
    rewrite IH, Nat2Z.inj_succ, Z.pow_succ_r by lia. ring.
Qed.

Lemma le_decode_u16le (v : Z) : 0 <= v < 2 ^ 16 -> le_decode (u16le v) = v.
Proof.
  intros Hv. unfold u16le, le_decode. cbn [fold_right].
  rewrite !Z.mod_mod by lia.
  pose proof (Z.div_mod v 256 ltac:(lia)).
  assert (0 <= v / 256 < 256).
  { split; [apply Z.div_pos; lia | apply Z.div_lt_upper_bound; lia]. }
  rewrite (Z.mod_small (v / 256)) by lia. lia.
Qed.

Lemma le_decode_u32le (v : Z) : 0 <= v < 2 ^ 32 -> le_decode (u32le v) = v.
Proof.
  intros Hv. unfold u32le. rewrite le_decode_app.
  assert (0 <= v / 65536 < 65536).
  { split; [apply Z.div_pos; lia | apply Z.div_lt_upper_bound; lia]. }
  pose proof (Z.mod_pos_bound v 65536 ltac:(lia)).
  rewrite !le_decode_u16le by lia.
  change (256 ^ Z.of_nat (List.length (u16le (v mod 65536)))) with 65536.
  pose proof (Z.div_mod v 65536 ltac:(lia)). lia.
Qed.

Lemma u16le_length (v : Z) : List.length (u16le v) = 2%nat.
Proof. reflexivity. Qed.

Lemma u32le_length (v : Z) : List.length (u32le v) = 4%nat.
Proof. reflexivity. Qed.

Lemma tag_bytes_length (tag : Z) : List.length (tag_bytes tag) = 4%nat.
Proof. reflexivity. Qed.

(** ** Streams that go on with given bytes *)

Lemma fread_object_prefix (bs rest : list Z) (fp : FILE) :
  remaining fp = bs ++ rest ->
  fread_object (Z.of_nat (List.length bs)) fp =
    Done (bs, advance fp (Z.of_nat (List.length bs))) /\
  remaining (advance fp (Z.of_nat (List.length bs))) = rest.
Proof.
  intros E. split.
  - rewrite fread_object_enough.
    + rewrite E, Nat2Z.id, firstn_app, Nat.sub_diag, firstn_all. simpl.
      now rewrite app_nil_r.
    + lia.
    + rewrite E, length_app. lia.
  - rewrite remaining_advance by lia.
    rewrite E, Nat2Z.id, skipn_app, Nat.sub_diag, skipn_all. reflexivity.
Qed.

Lemma read_tag_prefix (tag : Z) (rest : list Z) (fp : FILE) (n : Z) :
  0 <= tag < 2 ^ 32 ->
  remaining fp = tag_bytes tag ++ rest ->
  read_tag fp n = Done (tag, advance fp 4, size_t (n + 4)) /\
  remaining (advance fp 4) = rest.
Proof.
  intros Htag E. unfold tag_bytes in E. rewrite <- app_assoc in E.
  destruct (fread_object_prefix _ _ _ E) as [R1 E1].
  rewrite u16le_length in R1, E1.
  destruct (fread_object_prefix _ _ _ E1) as [R2 E2].
  rewrite u16le_length in R2, E2.
  change (Z.of_nat 2) with 2 in *.
  rewrite advance_advance in R2, E2 by lia. change (2 + 2) with 4 in *.
  split; [| exact E2].
  unfold read_tag. rewrite R1. cbn [bind]. rewrite R2. cbn [bind].
  rewrite size_t_add. change (2 + 2) with 4.
  assert (0 <= tag / 65536 < 65536).
  { split; [apply Z.div_pos; lia | apply Z.div_lt_upper_bound; lia]. }
  pose proof (Z.mod_pos_bound tag 65536 ltac:(lia)).
  rewrite !le_decode_u16le by lia.
  rewrite Z.shiftl_mul_pow2 by lia.
  pose proof (Z.div_mod tag 65536 ltac:(lia)).
  replace (tag / 65536 * 2 ^ 16 + tag mod 65536) with tag by lia.
  unfold uint32. rewrite Z.mod_small by lia. reflexivity.
Qed.

(** ** C strings and their bytes *)

Lemma byte_of_char_range (c : ascii) : 0 <= byte_of_char c < 256.
Proof.
  unfold byte_of_char. pose proof (nat_ascii_bounded c). lia.
Qed.

Lemma char_of_byte_of_char (c : ascii) : char_of_byte (byte_of_char c) = c.
Proof.
  unfold char_of_byte.
  rewrite Z.mod_small by apply byte_of_char_range.
  unfold byte_of_char. rewrite Nat2Z.id. apply ascii_nat_embedding.
Qed.

Lemma bytes_of_string_length (s : string) :
  List.length (bytes_of_string s) = String.length s.
Proof. induction s as [| c s IH]; simpl; [reflexivity | now rewrite IH]. Qed.

(** The bytes of a string without NUL, whatever follows a NUL after them,
    are read back as the string. *)
Lemma cstring_bytes_of_string (s : string) :
  no_nul s = true -> cstring (bytes_of_string s) = s.
Proof.
  induction s as [| c s IH]; simpl; [reflexivity |].
  intros H. apply andb_prop in H. destruct H as [Hc Hs].
  rewrite Z.mod_small by apply byte_of_char_range.
  apply negb_true_iff in Hc. rewrite Hc.
  now rewrite char_of_byte_of_char, IH.
Qed.

Lemma cstring_bytes_of_string_nul (s : string) (rest : list Z) :
  no_nul s = true -> cstring (bytes_of_string s ++ 0 :: rest) = s.
Proof.
  intros H. rewrite cstring_app_nul. now apply cstring_bytes_of_string.
Qed.

Lemma strncpy2_short (s : string) :
  (String.length s <= 2)%nat -> strncpy2 s = s.
Proof.
  destruct s as [| a [| b [| c s]]]; simpl; try reflexivity. lia.
Qed.

Lemma strncpy2_length (s : string) : (String.length (strncpy2 s) <= 2)%nat.
Proof.
  destruct s as [| a [| b s]]; simpl; lia.
Qed.

Lemma strncpy2_idempotent (s : string) : strncpy2 (strncpy2 s) = strncpy2 s.
Proof. apply strncpy2_short, strncpy2_length. Qed.

(** ** Item headers *)

(** X1.  Where the stream goes on with the four bytes of a tag and the
    four bytes of a length, [read_item_header] returns the header with
    that tag and length, 8 bytes further on and with 8 added to the count,
    when the tag is Item, Item Delimitation or Sequence Delimitation; for
    any other tag it fails with the message of an invalid Item tag. *)
Theorem item_header_of_its_bytes
    (tag length : Z) (rest : list Z) (fp : FILE) (n : Z) :
  0 <= tag < 2 ^ 32 ->
  0 <= length < 2 ^ 32 ->
  remaining fp = item_bytes tag length rest ->
  read_item_header fp n =
    (if (tag =? TAG_ITEM) || (tag =? TAG_ITEM_DELIM) || (tag =? TAG_SQ_DELIM)
     then Done (mkIHeader tag length, advance fp 8, size_t (n + 8))
     else Failed InvalidItemTag) /\
  remaining (advance fp 8) = rest.
Proof.
  intros Htag Hlen E. unfold item_bytes in E.
  destruct (read_tag_prefix _ _ _ n Htag E) as [R1 E1].
  destruct (fread_object_prefix _ _ _ E1) as [R2 E2].
  rewrite u32le_length in R2, E2. change (Z.of_nat 4) with 4 in *.
  rewrite advance_advance in R2, E2 by lia. change (4 + 4) with 8 in *.
  split; [| exact E2].
  unfold read_item_header. rewrite R1. cbn [bind]. rewrite R2. cbn [bind].
  rewrite size_t_add, le_decode_u32le by lia. change (4 + 4) with 8.
  unfold iheader_create.
  destruct ((tag =? TAG_ITEM) || (tag =? TAG_ITEM_DELIM) || (tag =? TAG_SQ_DELIM));
    reflexivity.
Qed.

Lemma item_header_of_its_bytes_witness :
  read_item_header (mkFILE encapsulated_file 300 false) 0 =
    (if (TAG_ITEM =? TAG_ITEM) || (TAG_ITEM =? TAG_ITEM_DELIM) ||
        (TAG_ITEM =? TAG_SQ_DELIM)
     then Done (mkIHeader TAG_ITEM 0,
                advance (mkFILE encapsulated_file 300 false) 8, size_t (0 + 8))
     else Failed InvalidItemTag) /\
  remaining (advance (mkFILE encapsulated_file 300 false) 8) =
    encapsulated_frames.
Proof.
  apply (item_header_of_its_bytes TAG_ITEM 0 encapsulated_frames
           (mkFILE encapsulated_file 300 false) 0).
  - vm_compute. split; [discriminate | reflexivity].
  - lia.
  - vm_compute. reflexivity.
Defined.

(** ** Element headers *)

Section ElementHeaders.
Context {C : Collaborators}.

Lemma eheader_create_done (tag : Z) (vr : string) (length : Z) (header : EHeader) :
  eheader_create tag vr length = Done header ->
  header = mkEHeader tag (strncpy2 vr) length /\
  dcm_is_valid_tag tag = true /\ dcm_is_valid_vr vr = true.
Proof.
  unfold eheader_create.
  destruct (dcm_is_valid_tag tag); [| discriminate].
  destruct (dcm_is_valid_vr vr); [| discriminate].
  cbn [negb]. intros [= <-]. repeat split.
Qed.

(** What a header that was read is made of. *)
Lemma read_element_header_inv
    (fp fp' : FILE) (n n' : Z) (implicit : bool) (header : EHeader) :
  read_element_header fp n implicit = Done (header, fp', n') ->
  exists (k : Z),
    fp' = advance fp k /\ n' = size_t (n + k) /\
    k <= Z.of_nat (List.length (remaining fp)) /\
    dcm_is_valid_tag (eheader_get_tag header) = true /\
    dcm_is_valid_vr (eheader_vr header) = true /\
    (String.length (eheader_vr header) <= 2)%nat /\
    0 <= eheader_get_length header < 2 ^ 32 /\
    (if implicit
     then k = 8 /\
          eheader_vr header =
            strncpy2 (dcm_dict_lookup_vr (eheader_get_tag header))
     else if vr_in (eheader_vr header) short_length_vrs
          then k = 8 /\ eheader_get_length header < 2 ^ 16
          else k = 12).
Proof.
  unfold read_element_header. intros E.
  apply bind_done in E. destruct E as ([[tag fp1] n1] & E1 & E).
  assert (Hn1 : n1 = size_t (n + 4)).
  { unfold read_tag in E1.
    apply bind_done in E1. destruct E1 as ([g f1] & _ & E1).
    apply bind_done in E1. destruct E1 as ([e f2] & _ & E1).
    injection E1 as _ _ <-. now rewrite size_t_add. }
  apply read_tag_done in E1. subst fp1 n1.
  destruct implicit.
  - apply bind_done in E. destruct E as ([len fp2] & E2 & E).
    apply bind_done in E. destruct E as (h & Eh & E).
    apply fread_object_done in E2. destruct E2 as (_ & Hav & Hlen & ->).
    rewrite remaining_advance, length_skipn in Hav by lia.
    injection E as <- <- <-.
    apply eheader_create_done in Eh. destruct Eh as (-> & Ht & Hv).
    exists 8. cbn [eheader_get_tag eheader_vr eheader_get_length].
    rewrite strncpy2_idempotent, advance_advance, size_t_add by lia.
    pose proof (le_decode_range len) as Hr.
    assert (List.length len = 4%nat).
    { subst len. rewrite length_firstn, remaining_advance, length_skipn by lia.
      lia. }
    replace (Z.of_nat (List.length len)) with 4 in Hr by lia.
    repeat split; try assumption; try lia.
    apply strncpy2_length.
  - apply bind_done in E. destruct E as ([vr fp2] & E2 & E).
    apply fread_object_done in E2. destruct E2 as (_ & Hav2 & Hvr & ->).
    rewrite remaining_advance, length_skipn in Hav2 by lia.
    rewrite advance_advance in E by lia.
    assert (Hvrlen : (String.length (cstring vr) <= 2)%nat).
    { pose proof (cstring_length vr). subst vr.
      rewrite length_firstn in *. lia. }
    destruct (vr_in (cstring vr) short_length_vrs) eqn:Hshort.
    + apply bind_done in E. destruct E as ([len fp3] & E3 & E).
      apply bind_done in E. destruct E as (h & Eh & E).
      apply fread_object_done in E3. destruct E3 as (_ & Hav & Hlen & ->).
      rewrite remaining_advance, length_skipn in Hav by lia.
      injection E as <- <- <-.
      apply eheader_create_done in Eh. destruct Eh as (-> & Ht & Hv).
      exists 8. cbn [eheader_get_tag eheader_vr eheader_get_length].
      rewrite strncpy2_short, advance_advance, !size_t_add by (assumption || lia).
      rewrite Hshort.
      pose proof (le_decode_range len) as Hr.
      assert (List.length len = 2%nat).
      { subst len. rewrite length_firstn, remaining_advance, length_skipn by lia.
        lia. }
      replace (Z.of_nat (List.length len)) with 2 in Hr by lia.
      repeat split; try assumption; try lia.
    + apply bind_done in E. destruct E as ([res fp3] & E3 & E).
      apply fread_object_done in E3. destruct E3 as (_ & _ & _ & ->).
      destruct (negb _); [discriminate |].
      apply bind_done in E. destruct E as ([len fp4] & E4 & E).
      apply bind_done in E. destruct E as (h & Eh & E).
      apply fread_object_done in E4. destruct E4 as (_ & Hav & Hlen & ->).
      rewrite !advance_advance in * by lia.
      rewrite remaining_advance, length_skipn in Hav by lia.
      injection E as <- <- <-.
      apply eheader_create_done in Eh. destruct Eh as (-> & Ht & Hv).
      exists 12. cbn [eheader_get_tag eheader_vr eheader_get_length].
      rewrite strncpy2_short, !size_t_add by (assumption || lia).
      rewrite Hshort.
      pose proof (le_decode_range len) as Hr.
      assert (List.length len = 4%nat).
      { subst len. rewrite length_firstn, remaining_advance, length_skipn by lia.
        lia. }
      replace (Z.of_nat (List.length len)) with 4 in Hr by lia.
      repeat split; try assumption; try lia.
Qed.

(** X2.  A header that [read_element_header] returns has a tag that
    [dcm_is_valid_tag] accepts, a VR of at most two characters that
    [dcm_is_valid_vr] accepts, and a length below 2^32; in implicit mode
    the VR is the one of the dictionary for the tag. *)
Theorem element_header_read_is_valid
    (fp fp' : FILE) (n n' : Z) (implicit : bool) (header : EHeader) :
  read_element_header fp n implicit = Done (header, fp', n') ->
  dcm_is_valid_tag (eheader_get_tag header) = true /\
  dcm_is_valid_vr (eheader_vr header) = true /\
  (String.length (eheader_vr header) <= 2)%nat /\
  0 <= eheader_get_length header < 2 ^ 32 /\
  (implicit = true ->
   eheader_vr header = strncpy2 (dcm_dict_lookup_vr (eheader_get_tag header))).
Proof.
  intros E. apply read_element_header_inv in E.
  destruct E as (k & _ & _ & _ & Ht & Hv & Hl & Hr & Hm).
  repeat split; try assumption; try lia.
  intros ->. apply Hm.
Qed.

(** X3.  A header that was read took 8 bytes of the stream in implicit
    mode; in explicit mode it took 8 bytes when its VR is one of the 21
    with a 2-byte length, and its length is then below 2^16, and 12 bytes
    for every other VR.  The byte count of the caller went up by as much. *)
Theorem element_header_size_follows_vr
    (fp fp' : FILE) (n n' : Z) (implicit : bool) (header : EHeader) :
  read_element_header fp n implicit = Done (header, fp', n') ->
  let size :=
    if implicit then 8
    else if vr_in (eheader_vr header) short_length_vrs then 8 else 12 in
  fp' = advance fp size /\ n' = size_t (n + size) /\
  size <= Z.of_nat (List.length (remaining fp)) /\
  (implicit = false -> size = 8 -> eheader_get_length header < 2 ^ 16).
Proof.
  intros E size. apply read_element_header_inv in E.
  destruct E as (k & Hfp & Hn & Hav & _ & _ & _ & _ & Hm).
  subst size. destruct implicit.
  - destruct Hm as [-> _]. repeat split; try assumption. discriminate.
  - destruct (vr_in (eheader_vr header) short_length_vrs).
    + destruct Hm as [-> Hs]. repeat split; try assumption. intros _ _. exact Hs.
    + subst k. repeat split; try assumption. intros _ [=].
Qed.

(** X4.  In explicit mode, where the stream goes on with a tag, a VR that
    is not one of those with a 2-byte length and two reserved bytes that
    are not both zero, [read_element_header] fails with the message of the
    reserved bytes, whatever the tag and the VR are. *)
Theorem reserved_bytes_must_be_zero
    (tag reserved : Z) (vr : string) (rest : list Z) (fp : FILE) (n : Z) :
  0 <= tag < 2 ^ 32 ->
  String.length vr = 2%nat -> no_nul vr = true ->
  vr_in vr short_length_vrs = false ->
  0 < reserved < 2 ^ 16 ->
  remaining fp = tag_bytes tag ++ bytes_of_string vr ++ u16le reserved ++ rest ->
  read_element_header fp n false = Failed ReservedNonZero.
Proof.
  intros Htag Hlen Hnul Hlong Hres E.
  destruct (read_tag_prefix _ _ _ n Htag E) as [R1 E1].
  destruct (fread_object_prefix _ _ _ E1) as [R2 E2].
  rewrite bytes_of_string_length, Hlen in R2, E2.
  destruct (fread_object_prefix _ _ _ E2) as [R3 _].
  rewrite u16le_length in R3. change (Z.of_nat 2) with 2 in *.
  unfold read_element_header. rewrite R1. cbn [bind]. rewrite R2. cbn [bind].
  rewrite cstring_bytes_of_string, Hlong by assumption.
  rewrite R3. cbn [bind]. rewrite le_decode_u16le by lia.
  replace (reserved =? 0) with false by (symmetry; apply Z.eqb_neq; lia).
  reflexivity.
Qed.

(** X5.  The header of an explicit VR element is read back from its
    bytes: for a valid tag and a valid VR of two characters, the bytes tag,
    VR, 2-byte length (for the 21 VRs that have one) or tag, VR, two zero
    bytes, 4-byte length (for the others) give the header with that tag, VR
    and length, and the stream stands at the value. *)
Theorem explicit_header_round_trip
    (tag length : Z) (vr : string) (value rest : list Z) (fp : FILE) (n : Z) :
  0 <= tag < 2 ^ 32 ->
  String.length vr = 2%nat -> no_nul vr = true ->
  dcm_is_valid_tag tag = true -> dcm_is_valid_vr vr = true ->
  (if vr_in vr short_length_vrs
   then length = Z.of_nat (List.length value) /\ length < 2 ^ 16 /\
        remaining fp = explicit_short tag vr value ++ rest
   else 0 <= length < 2 ^ 32 /\
        remaining fp = explicit_long tag vr length value ++ rest) ->
  let size := if vr_in vr short_length_vrs then 8 else 12 in
  read_element_header fp n false =
    Done (mkEHeader tag vr length, advance fp size, size_t (n + size)) /\
  remaining (advance fp size) = value ++ rest.
Proof.
  intros Htag Hlen Hnul Hvt Hvv Hbytes size.
  assert (Hcreate : forall len, eheader_create tag vr len = Done (mkEHeader tag vr len)).
  { intros len. unfold eheader_create. rewrite Hvt, Hvv. cbn [negb].
    rewrite strncpy2_short by lia. reflexivity. }
  unfold read_element_header. subst size.
  destruct (vr_in vr short_length_vrs) eqn:Hshort.
  - destruct Hbytes as (Hl & Hs & E). unfold explicit_short in E.
    rewrite <- !app_assoc in E.
    destruct (read_tag_prefix _ _ _ n Htag E) as [R1 E1].
    destruct (fread_object_prefix _ _ _ E1) as [R2 E2].
    rewrite bytes_of_string_length, Hlen in R2, E2.
    destruct (fread_object_prefix _ _ _ E2) as [R3 E3].
    rewrite u16le_length in R3, E3. change (Z.of_nat 2) with 2 in *.
    rewrite !advance_advance in * by lia. sum_counts.
    split; [| exact E3].
    rewrite R1. cbn [bind]. rewrite R2. cbn [bind].
    rewrite cstring_bytes_of_string, Hshort by assumption.
    rewrite R3. cbn [bind]. rewrite le_decode_u16le by lia.
    rewrite Hcreate. cbn [bind]. rewrite !size_t_add. sum_counts.
    subst length. reflexivity.
  - destruct Hbytes as (Hl & E). unfold explicit_long in E.
    rewrite <- !app_assoc in E.
    destruct (read_tag_prefix _ _ _ n Htag E) as [R1 E1].
    destruct (fread_object_prefix _ _ _ E1) as [R2 E2].
    rewrite bytes_of_string_length, Hlen in R2, E2.
    destruct (fread_object_prefix _ _ _ E2) as [R3 E3].
    destruct (fread_object_prefix _ _ _ E3) as [R4 E4].
    rewrite u32le_length in R4, E4.
    change (Z.of_nat (List.length [0; 0])) with 2 in *.
    change (Z.of_nat 2) with 2 in *. change (Z.of_nat 4) with 4 in *.
    rewrite !advance_advance in * by lia. sum_counts.
    split; [| exact E4].
    rewrite R1. cbn [bind]. rewrite R2. cbn [bind].
    rewrite cstring_bytes_of_string, Hshort by assumption.
    rewrite R3. cbn [bind].
    change (le_decode [0; 0] =? 0) with true. cbn [negb].
    rewrite R4. cbn [bind]. rewrite le_decode_u32le by lia.
    rewrite Hcreate. cbn [bind]. rewrite !size_t_add. sum_counts. reflexivity.
Qed.

(** X6.  The header of an implicit VR element is read back from its
    bytes: the bytes of a valid tag and a 4-byte length give the header
    with that tag, the VR that the dictionary has for the tag (its first
    two characters) and that length. *)
Theorem implicit_header_round_trip
    (tag : Z) (value rest : list Z) (fp : FILE) (n : Z) :
  0 <= tag < 2 ^ 32 ->
  Z.of_nat (List.length value) < 2 ^ 32 ->
  dcm_is_valid_tag tag = true ->
  dcm_is_valid_vr (strncpy2 (dcm_dict_lookup_vr tag)) = true ->
  remaining fp = implicit_element tag value ++ rest ->
  read_element_header fp n true =
    Done (mkEHeader tag (strncpy2 (dcm_dict_lookup_vr tag))
            (Z.of_nat (List.length value)),
          advance fp 8, size_t (n + 8)) /\
  remaining (advance fp 8) = value ++ rest.
Proof.
  intros Htag Hlen Hvt Hvv E. unfold implicit_element in E.
  rewrite <- !app_assoc in E.
  destruct (read_tag_prefix _ _ _ n Htag E) as [R1 E1].
  destruct (fread_object_prefix _ _ _ E1) as [R2 E2].
  rewrite u32le_length in R2, E2. change (Z.of_nat 4) with 4 in *.
  rewrite !advance_advance in * by lia. change (4 + 4) with 8 in *.
  split; [| exact E2].
  unfold read_element_header. rewrite R1. cbn [bind]. rewrite R2. cbn [bind].
  rewrite le_decode_u32le by lia.
  unfold eheader_create. rewrite Hvt, Hvv. cbn [negb bind].
  rewrite strncpy2_idempotent, size_t_add. reflexivity.
Qed.

End ElementHeaders.

Lemma element_header_read_is_valid_witness :
  @dcm_is_valid_tag example_collaborators
    (eheader_get_tag (mkEHeader 0x00280002 "US" 2)) = true /\
  @dcm_is_valid_vr example_collaborators
    (eheader_vr (mkEHeader 0x00280002 "US" 2)) = true /\
  (String.length (eheader_vr (mkEHeader 0x00280002 "US" 2)) <= 2)%nat /\
  0 <= eheader_get_length (mkEHeader 0x00280002 "US" 2) < 2 ^ 32 /\
  (false = true ->
   eheader_vr (mkEHeader 0x00280002 "US" 2) =
   strncpy2 (@dcm_dict_lookup_vr example_collaborators
               (eheader_get_tag (mkEHeader 0x00280002 "US" 2)))).
Proof.
  apply (element_header_read_is_valid (C := example_collaborators)
           native_16bit_at_dataset (advance native_16bit_at_dataset 8) 0 8 false).
  vm_compute. reflexivity.
Defined.

Lemma element_header_size_follows_vr_witness :
  advance native_16bit_at_dataset 8 = advance native_16bit_at_dataset 8 /\
  8 = size_t (0 + 8) /\
  8 <= Z.of_nat (List.length (remaining native_16bit_at_dataset)) /\
  (false = false -> 8 = 8 ->
   eheader_get_length (mkEHeader 0x00280002 "US" 2) < 2 ^ 16).
Proof.
  apply (element_header_size_follows_vr (C := example_collaborators)
           native_16bit_at_dataset (advance native_16bit_at_dataset 8) 0 8 false
           (mkEHeader 0x00280002 "US" 2)).
  vm_compute. reflexivity.
Defined.

Lemma reserved_bytes_must_be_zero_witness :
  read_element_header (C := example_collaborators) reserved_not_zero 0 false =
    Failed ReservedNonZero.
Proof.
  apply (reserved_bytes_must_be_zero (C := example_collaborators)
           0x7FE00010 1 "OB" (u32le 4) reserved_not_zero 0).
  - lia.
  - reflexivity.
  - reflexivity.
  - reflexivity.
  - lia.
  - reflexivity.
Defined.

Lemma explicit_header_round_trip_witness :
  read_element_header (C := example_collaborators)
    native_16bit_at_dataset 0 false =
    Done (mkEHeader 0x00280002 "US" 2, advance native_16bit_at_dataset 8,
          size_t (0 + 8)) /\
  remaining (advance native_16bit_at_dataset 8) =
    u16le 1 ++ skipn 196 native_16bit_file.
Proof.
  apply (explicit_header_round_trip (C := example_collaborators)
           0x00280002 2 "US" (u16le 1) (skipn 196 native_16bit_file)
           native_16bit_at_dataset 0).
  - lia.
  - reflexivity.
  - reflexivity.
  - reflexivity.
  - reflexivity.
  - vm_compute. repeat split.
Defined.

Lemma implicit_header_round_trip_witness :
  read_element_header (C := example_collaborators) implicit_at_dataset 0 true =
    Done (mkEHeader 0x00100010 "PN" 6, advance implicit_at_dataset 8,
          size_t (0 + 8)) /\
  remaining (advance implicit_at_dataset 8) =
    text_bytes "DOE^J" ++ skipn 198 implicit_file.
Proof.
  apply (implicit_header_round_trip (C := example_collaborators)
           0x00100010 (text_bytes "DOE^J") (skipn 198 implicit_file)
           implicit_at_dataset 0).
  - lia.
  - vm_compute. reflexivity.
  - reflexivity.
  - reflexivity.
  - vm_compute. reflexivity.
Defined.

(** ** The byte count follows the stream *)

Lemma size_t_range (z : Z) : is_size_t (size_t z).
Proof. unfold is_size_t, size_t. apply Z.mod_pos_bound. lia. Qed.

Lemma size_t_idempotent (z : Z) : size_t (size_t z) = size_t z.
Proof. unfold size_t. apply Z.mod_mod. lia. Qed.

Lemma size_t_add_cong (a a' b b' : Z) :
  size_t a = size_t a' -> size_t b = size_t b' ->
  size_t (a + b) = size_t (a' + b').
Proof.
  unfold size_t. intros Ha Hb.
  rewrite (Z.add_mod a b), (Z.add_mod a' b') by lia. now rewrite Ha, Hb.
Qed.

Lemma counted_refl (fp : FILE) (n : Z) : counted fp n fp n.
Proof. unfold counted. f_equal. lia. Qed.

Lemma counted_trans (fp1 fp2 fp3 : FILE) (n1 n2 n3 : Z) :
  counted fp1 n1 fp2 n2 -> counted fp2 n2 fp3 n3 -> counted fp1 n1 fp3 n3.
Proof.
  unfold counted. intros H12 H23. rewrite H23.
  replace (n1 + (ftell fp3 - ftell fp1))
    with (n1 + (ftell fp2 - ftell fp1) + (ftell fp3 - ftell fp2)) by lia.
  apply size_t_add_cong; [exact H12 | reflexivity].
Qed.

Lemma ftell_advance (fp : FILE) (k : Z) :
  0 <= k -> ftell (advance fp k) = ftell fp + k.
Proof. intros Hk. unfold ftell, advance. simpl. lia. Qed.

Lemma counted_advance (fp : FILE) (n k : Z) :
  0 <= k -> counted fp n (advance fp k) (size_t (n + k)).
Proof.
  intros Hk. unfold counted. rewrite ftell_advance, size_t_idempotent by lia.
  f_equal. lia.
Qed.

Lemma counted_fread_object (count : Z) (fp fp' : FILE) (bs : list Z) (n : Z) :
  fread_object count fp = Done (bs, fp') ->
  counted fp n fp' (size_t (n + count)).
Proof.
  intros E. apply fread_object_done in E. destruct E as (H0 & _ & _ & ->).
  now apply counted_advance.
Qed.

Lemma read_tag_counted (fp fp' : FILE) (n n' tag : Z) :
  read_tag fp n = Done (tag, fp', n') ->
  fp' = advance fp 4 /\ n' = size_t (n + 4).
Proof.
  intros E. split; [eapply read_tag_done; eassumption |].
  unfold read_tag in E.
  apply bind_done in E. destruct E as ([g f1] & _ & E).
  apply bind_done in E. destruct E as ([e f2] & _ & E).
  injection E as _ _ <-. now rewrite size_t_add.
Qed.

Lemma read_item_header_counted (fp fp' : FILE) (n n' : Z) (header : IHeader) :
  read_item_header fp n = Done (header, fp', n') ->
  fp' = advance fp 8 /\ n' = size_t (n + 8).
Proof.
  intros E. split; [eapply read_item_header_done; eassumption |].
  unfold read_item_header in E.
  apply bind_done in E. destruct E as ([[tag fp1] n1] & E1 & E).
  apply bind_done in E. destruct E as ([len fp2] & _ & E).
  apply bind_done in E. destruct E as (h & _ & E).
  apply read_tag_counted in E1. destruct E1 as [_ ->].
  injection E as _ _ <-. now rewrite size_t_add.
Qed.

Lemma read_values_counted (size : Z) (convert : Z -> Z) (vm : nat) :
  forall (fp fp' : FILE) (n n' : Z) (values : list Z),
    read_values size convert vm fp n = Done (values, fp', n') ->
    counted fp n fp' n' /\ (is_size_t n -> is_size_t n').
Proof.
  induction vm as [| vm IH]; intros fp fp' n n' values E; simpl in E.
  - injection E as _ <- <-. split; [apply counted_refl | auto].
  - apply bind_done in E. destruct E as ([val fp1] & E1 & E).
    apply bind_done in E. destruct E as ([[vals fp2] n2] & E2 & E).
    injection E as _ <- <-.
    apply (counted_fread_object _ _ _ _ n) in E1.
    apply IH in E2. destruct E2 as [E2 R2].
    split; [eapply counted_trans; eassumption |].
    intros _. apply R2, size_t_range.
Qed.

Section Counting.
Context {C : Collaborators}.

Lemma readers_count (fuel : nat) :
  (forall fp header n implicit element fp' n',
     read_element fuel fp header n implicit = Done (element, fp', n') ->
     counted fp n fp' n' /\ (is_size_t n -> is_size_t n')) /\
  (forall fp tag length implicit n_seq value value' fp' n',
     read_items fuel fp tag length implicit n_seq value = Done (value', fp', n') ->
     counted fp n_seq fp' n' /\ (is_size_t n_seq -> is_size_t n')) /\
  (forall fp tag item_length implicit n_item dataset dataset' fp' n',
     read_item_elements fuel fp tag item_length implicit n_item dataset =
       Done (dataset', fp', n') ->
     counted fp n_item fp' n' /\ (is_size_t n_item -> is_size_t n')).
Proof.
  induction fuel as [| fuel (IHe & IHs & IHi)].
  - split; [| split]; intros; discriminate.
  - split; [| split].
    + intros fp header n implicit element fp' n' E.
      cbn [read_element] in E.
      destruct (vr_in (eheader_vr header) character_string_vrs).
      * destruct (_ =? 0); [discriminate |].
        apply bind_done in E. destruct E as ([value fp1] & E1 & E).
        apply (counted_fread_object _ _ _ _ n) in E1.
        destruct (parse_character_string _) as [strings vm].
        destruct (vr_in _ single_string_vrs).
        -- destruct (1 <? vm); [discriminate |].
           destruct strings as [| str strings]; [discriminate |].
           apply bind_done in E. destruct E as (el & _ & E).
           injection E as _ <- <-.
           split; [exact E1 | intros _; apply size_t_range].
        -- apply bind_done in E. destruct E as (el & _ & E).
           injection E as _ <- <-.
           split; [exact E1 | intros _; apply size_t_range].
      * destruct (eheader_check_vr header "SQ").
        -- destruct (_ =? 0).
           ++ apply bind_done in E. destruct E as (el & _ & E).
              injection E as _ <- <-. split; [apply counted_refl | auto].
           ++ apply bind_done in E. destruct E as ([[value fp1] n1] & E1 & E).
              apply bind_done in E. destruct E as (el & _ & E).
              injection E as _ <- <-.
              apply IHs in E1. destruct E1 as [E1 _].
              split; [| intros _; apply size_t_range].
              unfold counted in *. rewrite size_t_idempotent.
              apply size_t_add_cong; [reflexivity |].
              rewrite E1. f_equal.
        -- destruct (numeric_vr header) as [[size convert] |].
           ++ apply bind_done in E. destruct E as ([[values fp1] n1] & E1 & E).
              apply bind_done in E. destruct E as (el & _ & E).
              injection E as _ <- <-.
              eapply read_values_counted; eassumption.
           ++ destruct (vr_in _ opaque_vrs);
                [| destruct (fread _ fp); discriminate].
              apply bind_done in E. destruct E as ([value fp1] & E1 & E).
              apply (counted_fread_object _ _ _ _ n) in E1.
              apply bind_done in E. destruct E as (el & _ & E).
              injection E as _ <- <-.
              split; [exact E1 | intros _; apply size_t_range].
    + intros fp tag length implicit n_seq value value' fp' n' E.
      cbn [read_items] in E.
      destruct (n_seq <? length).
      * apply bind_done in E. destruct E as ([[ih fp1] n1] & E1 & E).
        apply read_item_header_counted in E1. destruct E1 as [-> ->].
        destruct (_ =? TAG_SQ_DELIM).
        -- injection E as _ <- <-.
           split; [apply counted_advance; lia | intros _; apply size_t_range].
        -- destruct (negb _); [discriminate |].
           apply bind_done in E. destruct E as ([[ds fp2] n2] & E2 & E).
           apply IHi in E2. destruct E2 as [E2 _].
           apply IHs in E. destruct E as [E R].
           split; [| intros _; apply R, size_t_range].
           eapply counted_trans; [| exact E].
           eapply counted_trans; [apply (counted_advance fp n_seq 8); lia |].
           unfold counted in *. rewrite size_t_idempotent.
           apply size_t_add_cong; [reflexivity |].
           rewrite E2. f_equal.
      * injection E as _ <- <-. split; [apply counted_refl | auto].
    + intros fp tag item_length implicit n_item dataset dataset' fp' n' E.
      cbn [read_item_elements] in E.
      destruct (n_item <? item_length).
      * apply bind_done in E. destruct E as ([[probe fp1] n1] & E1 & E).
        apply read_tag_counted in E1. destruct E1 as [-> ->].
        destruct (probe =? TAG_ITEM_DELIM).
        -- injection E as _ <- <-.
           split; [| intros _; apply size_t_range].
           unfold counted, fseek, ftell, advance. cbn [position contents].
           destruct (Z.ltb_spec (Z.of_N (position fp + Z.to_N 4) + 4) 0);
             [lia |].
           cbn [position]. rewrite size_t_idempotent, size_t_add. f_equal. lia.
        -- set (fp0 := fseek (advance fp 4) (-4) SEEK_CUR) in E.
           set (n0 := size_t (size_t (n_item + 4) - 4)) in E.
           assert (H0 : counted fp n_item fp0 n0).
           { unfold counted, fp0, n0, fseek, ftell, advance.
             cbn [position contents].
             destruct (Z.ltb_spec (Z.of_N (position fp + Z.to_N 4) + -4) 0);
               [lia |].
             cbn [position]. rewrite size_t_idempotent.
             replace (size_t (n_item + 4) - 4)
               with (size_t (n_item + 4) + (- 4)) by lia.
             transitivity (size_t ((n_item + 4) + (- 4)));
               [apply size_t_add_cong; [apply size_t_idempotent | reflexivity]
               | f_equal; lia]. }
           apply bind_done in E. destruct E as ([[eh fp2] n2] & E2 & E).
           apply bind_done in E. destruct E as ([[el fp3] n3] & E3 & E).
           apply read_element_header_inv in E2.
           destruct E2 as (k & -> & -> & _ & _ & _ & _ & _ & Hm).
           assert (Hk0 : 0 <= k).
           { destruct implicit;
               [| destruct (vr_in (eheader_vr eh) short_length_vrs)];
               lia. }
           apply IHe in E3. destruct E3 as [E3 R3].
           destruct (dcm_dataset_insert dataset el); [| discriminate].
           apply IHi in E. destruct E as [E R].
           split.
           ++ eapply counted_trans; [exact H0 |].
              eapply counted_trans; [apply counted_advance; exact Hk0 |].
              eapply counted_trans; eassumption.
           ++ intros _. apply R, R3, size_t_range.
      * injection E as _ <- <-. split; [apply counted_refl | auto].
Qed.

End Counting.

Section ElementsRead.
Context {C : Collaborators}.

(** X7.  For every element that [read_element] returns, the byte count of
    the caller has gone up, modulo 2^64, by exactly the number of bytes
    that the stream has moved on, nested Sequences and their delimiters
    included; the stream has not moved back. *)
Theorem element_byte_count_follows_stream
    (fuel : nat) (fp fp' : FILE) (header : EHeader) (n n' : Z)
    (implicit : bool) (element : Element) :
  is_size_t n ->
  read_element fuel fp header n implicit = Done (element, fp', n') ->
  ftell fp <= ftell fp' /\
  contents fp' = contents fp /\
  n' = size_t (n + (ftell fp' - ftell fp)).
Proof.
  intros Hn E.
  destruct (read_element_moves_on _ _ _ _ _ _ _ _ E) as [Hc Hp].
  apply (readers_count fuel) in E. destruct E as [E R].
  unfold counted in E. specialize (R Hn).
  unfold size_t in E at 1. rewrite Z.mod_small in E by exact R.
  unfold ftell. repeat split; [lia | exact Hc | exact E].
Qed.

Lemma read_values_length (size : Z) (convert : Z -> Z) (vm : nat) :
  forall (fp fp' : FILE) (n n' : Z) (values : list Z),
    read_values size convert vm fp n = Done (values, fp', n') ->
    List.length values = vm.
Proof.
  induction vm as [| vm IH]; intros fp fp' n n' values E; simpl in E.
  - now injection E as <- _ _.
  - apply bind_done in E. destruct E as ([val fp1] & _ & E).
    apply bind_done in E. destruct E as ([[vals fp2] n2] & E2 & E).
    injection E as <- _ _. simpl. f_equal. eapply IH; eassumption.
Qed.

Lemma terminate_value_length (header : EHeader) (length : Z) (value : list Z) :
  Z.of_nat (List.length value) = length ->
  Z.of_nat (List.length (terminate_value header length value)) <= length + 1.
Proof.
  intros Hlen. unfold terminate_value.
  destruct (_ && _ && _) eqn:Hstrip.
  - apply andb_prop in Hstrip. destruct Hstrip as [Hstrip _].
    apply andb_prop in Hstrip. destruct Hstrip as [Hpos _].
    apply Z.ltb_lt in Hpos.
    rewrite !length_app, length_firstn. simpl. lia.
  - rewrite length_app. simpl. lia.
Qed.

Lemma dcm_element_create_done (tag : Z) (vr : string) (value : Value)
    (element : Element) :
  dcm_element_create tag vr value = Done element ->
  element = mkElement tag vr value /\ dcm_element_accepts element = true.
Proof.
  unfold dcm_element_create.
  destruct (dcm_element_accepts (mkElement tag vr value)) eqn:Hacc;
    [| discriminate].
  intros [= <-]. split; [reflexivity | exact Hacc].
Qed.

(** X8.  An element that [read_element] returns has the tag and the VR of
    the header it was read for, and its constructor has accepted it.  The
    kind of its value follows the VR: a list of strings with a VM that is
    the number of strings for the character string VRs with many values,
    one string for ST, LT, UR and UT, an array of [length / size] numbers
    for a numeric VR, the [length] bytes for an opaque VR, a Sequence for
    SQ. *)
Theorem element_read_matches_its_header
    (fuel : nat) (fp fp' : FILE) (header : EHeader) (n n' : Z)
    (implicit : bool) (element : Element) :
  read_element fuel fp header n implicit = Done (element, fp', n') ->
  let vr := eheader_vr header in
  let length := uint32 (eheader_get_length header) in
  element_tag element = eheader_get_tag header /\
  element_vr element = vr /\
  dcm_element_accepts element = true /\
  match element_value element with
  | Strings strings vm =>
      vr_in vr character_string_vrs = true /\
      vr_in vr single_string_vrs = false /\
      vm = Z.of_nat (List.length strings)
  | Text _ =>
      vr_in vr character_string_vrs = true /\
      vr_in vr single_string_vrs = true
  | Numbers values vm =>
      (exists size convert,
         numeric_vr header = Some (size, convert) /\ vm = length / size) /\
      vm = Z.of_nat (List.length values)
  | Blob value blob_length =>
      vr_in vr opaque_vrs = true /\
      blob_length = length /\
      Z.of_nat (List.length value) = length
  | Sequence _ => vr = "SQ"
  end.
Proof.
  intros E vr length. destruct fuel as [| fuel]; [discriminate |].
  cbn [read_element] in E. fold vr length in E.
  pose proof (uint32_range (eheader_get_length header)) as Hlen.
  fold length in Hlen.
  destruct (vr_in vr character_string_vrs) eqn:Hstr.
  - destruct (uint32 (length + 1) =? 0) eqn:Hwrap; [discriminate |].
    apply Z.eqb_neq in Hwrap.
    assert (Hmax : length + 1 < 2 ^ 32).
    { destruct (Z.eq_dec (length + 1) (2 ^ 32)) as [Heq | Hne]; [| lia].
      rewrite Heq in Hwrap. now vm_compute in Hwrap. }
    apply bind_done in E. destruct E as ([value fp1] & E1 & E).
    apply fread_object_done in E1. destruct E1 as (_ & Hav & Hvalue & _).
    assert (Hvlen : Z.of_nat (List.length value) = length).
    { subst value. rewrite firstn_length_le; lia. }
    pose proof (terminate_value_length header length value Hvlen) as Hterm.
    pose proof (cstring_length (terminate_value header length value)) as Htext.
    rewrite parse_character_string_split in E by lia.
    destruct (vr_in vr single_string_vrs) eqn:Hsingle.
    + destruct (1 <? _); [discriminate |].
      destruct (if nonempty _ then _ else _) as [| str strings];
        [discriminate |].
      apply bind_done in E. destruct E as (el & Eel & E).
      injection E as <- _ _.
      apply dcm_element_create_done in Eel. destruct Eel as [-> Hacc].
      repeat split; assumption.
    + apply bind_done in E. destruct E as (el & Eel & E).
      injection E as <- _ _.
      apply dcm_element_create_done in Eel. destruct Eel as [-> Hacc].
      repeat split; assumption.
  - destruct (eheader_check_vr header "SQ") eqn:Hsq.
    + assert (Hvr : vr = "SQ") by (now apply String.eqb_eq).
      destruct (length =? 0).
      * apply bind_done in E. destruct E as (el & Eel & E).
        injection E as <- _ _.
        apply dcm_element_create_done in Eel. destruct Eel as [-> Hacc].
        repeat split; assumption.
      * apply bind_done in E. destruct E as ([[value fp1] n1] & _ & E).
        apply bind_done in E. destruct E as (el & Eel & E).
        injection E as <- _ _.
        apply dcm_element_create_done in Eel. destruct Eel as [-> Hacc].
        repeat split; assumption.
    + destruct (numeric_vr header) as [[size convert] |] eqn:Hnum.
      * destruct (numeric_vr_inv _ _ _ Hnum) as (_ & _ & Hsize).
        assert (Hvm : uint32 (length / size) = length / size).
        { unfold uint32. apply Z.mod_small. split.
          - apply Z.div_pos; lia.
          - apply Z.div_lt_upper_bound; nia. }
        rewrite Hvm in E.
        apply bind_done in E. destruct E as ([[values fp1] n1] & E1 & E).
        apply bind_done in E. destruct E as (el & Eel & E).
        injection E as <- _ _.
        apply dcm_element_create_done in Eel. destruct Eel as [-> Hacc].
        apply read_values_length in E1.
        repeat split; try assumption.
        -- exists size, convert. split; reflexivity.
        -- rewrite E1, Z2Nat.id; [reflexivity |].
           apply Z.div_pos; lia.
      * destruct (vr_in vr opaque_vrs) eqn:Hop;
          [| destruct (fread _ fp); discriminate].
        apply bind_done in E. destruct E as ([value fp1] & E1 & E).
        apply fread_object_done in E1. destruct E1 as (_ & Hav & Hvalue & _).
        apply bind_done in E. destruct E as (el & Eel & E).
        injection E as <- _ _.
        apply dcm_element_create_done in Eel. destruct Eel as [-> Hacc].
        repeat split; try assumption.
        subst value. rewrite firstn_length_le; lia.
Qed.

End ElementsRead.

Lemma element_byte_count_follows_stream_witness :
  ftell undefined_length_items <= ftell (advance undefined_length_items 34) /\
  contents (advance undefined_length_items 34) =
    contents undefined_length_items /\
  34 = size_t (0 + (ftell (advance undefined_length_items 34) -
                    ftell undefined_length_items)).
Proof.
  apply (element_byte_count_follows_stream (C := example_collaborators)
           5 undefined_length_items (advance undefined_length_items 34)
           sq_undefined_length 0 34 false
           (mkElement 0x00400555 "SQ"
              (Sequence [[mkElement 0x00080100 "SH" (Strings ["X"] 1)]]))).
  - unfold is_size_t. lia.
  - vm_compute. reflexivity.
Defined.

Lemma element_read_matches_its_header_witness :
  element_tag (mkElement 0x00280010 "US" (Numbers [513; 1027; 1541] 3)) =
    eheader_get_tag us_length_7 /\
  element_vr (mkElement 0x00280010 "US" (Numbers [513; 1027; 1541] 3)) =
    eheader_vr us_length_7 /\
  @dcm_element_accepts example_collaborators
    (mkElement 0x00280010 "US" (Numbers [513; 1027; 1541] 3)) = true /\
  ((exists size convert,
      numeric_vr us_length_7 = Some (size, convert) /\
      3 = uint32 (eheader_get_length us_length_7) / size) /\
   3 = Z.of_nat (List.length [513; 1027; 1541])).
Proof.
  apply (element_read_matches_its_header (C := example_collaborators)
           1 eight_bytes (advance eight_bytes 6) us_length_7 0 6 false
           (mkElement 0x00280010 "US" (Numbers [513; 1027; 1541] 3))).
  vm_compute. reflexivity.
Defined.

(** ** How the reader fails *)

Lemma fails_only_bind {A B : Type} (errors : list error)
    (m : outcome A) (k : A -> outcome B) :
  fails_only errors m ->
  (forall a : A, m = Done a -> fails_only errors (k a)) ->
  fails_only errors (bind m k).
Proof.
  intros [Hm Hma] Hk. destruct m; cbn [bind].
  - now apply Hk.
  - split; [| discriminate]. intros e' E. injection E as <-.
    exact (Hm e eq_refl).
  - contradiction.
  - split; [intros e E |]; discriminate.
  - split; [intros e E |]; discriminate.
Qed.

Lemma fails_only_done {A : Type} (errors : list error) (a : A) :
  fails_only errors (Done a).
Proof. split; [intros e E |]; discriminate. Qed.

Lemma fails_only_failed {A : Type} (errors : list error) (e : error) :
  In e errors -> fails_only errors (@Failed A e).
Proof.
  intros Hin. split; [| discriminate]. intros e' E. injection E as <-.
  exact Hin.
Qed.

Lemma fails_only_undefined {A : Type} (errors : list error) :
  fails_only errors (@Undefined A).
Proof. split; [intros e E |]; discriminate. Qed.

Lemma fails_only_out_of_fuel {A : Type} (errors : list error) :
  fails_only errors (@OutOfFuel A).
Proof. split; [intros e E |]; discriminate. Qed.

Lemma fails_only_fread_object (errors : list error) (count : Z) (fp : FILE) :
  fails_only errors (fread_object count fp).
Proof.
  unfold fread_object. destruct (fread count fp). destruct (_ =? _).
  - apply fails_only_done.
  - apply fails_only_undefined.
Qed.

Lemma fails_only_read_tag (errors : list error) (fp : FILE) (n : Z) :
  fails_only errors (read_tag fp n).
Proof.
  unfold read_tag.
  apply fails_only_bind; [apply fails_only_fread_object |].
  intros [g fp1] _.
  apply fails_only_bind; [apply fails_only_fread_object |].
  intros [e fp2] _. apply fails_only_done.
Qed.

Lemma fails_only_read_item_header (errors : list error) (fp : FILE) (n : Z) :
  In InvalidItemTag errors ->
  fails_only errors (read_item_header fp n).
Proof.
  intros Hin. unfold read_item_header.
  apply fails_only_bind; [apply fails_only_read_tag |].
  intros [[tag fp1] n1] _.
  apply fails_only_bind; [apply fails_only_fread_object |].
  intros [len fp2] _.
  apply fails_only_bind; [| intros; apply fails_only_done].
  unfold iheader_create. destruct (negb _).
  - now apply fails_only_failed.
  - apply fails_only_done.
Qed.

Lemma fails_only_read_values (errors : list error) (size : Z)
    (convert : Z -> Z) (vm : nat) :
  forall (fp : FILE) (n : Z),
    fails_only errors (read_values size convert vm fp n).
Proof.
  induction vm as [| vm IH]; intros fp n; simpl.
  - apply fails_only_done.
  - apply fails_only_bind; [apply fails_only_fread_object |].
    intros [val fp1] _.
    apply fails_only_bind; [apply IH |].
    intros [[vals fp2] n2] _. apply fails_only_done.
Qed.

Section Failures.
Context {C : Collaborators}.

Lemma fails_only_eheader_create (errors : list error)
    (tag : Z) (vr : string) (length : Z) :
  In InvalidTag errors -> In InvalidVR errors ->
  fails_only errors (eheader_create tag vr length).
Proof.
  intros Ht Hv. unfold eheader_create.
  destruct (negb (dcm_is_valid_tag tag)); [now apply fails_only_failed |].
  destruct (negb (dcm_is_valid_vr vr)); [now apply fails_only_failed |].
  apply fails_only_done.
Qed.

Lemma fails_only_read_element_header (errors : list error)
    (fp : FILE) (n : Z) (implicit : bool) :
  In InvalidTag errors -> In InvalidVR errors -> In ReservedNonZero errors ->
  fails_only errors (read_element_header fp n implicit).
Proof.
  intros Ht Hv Hr. unfold read_element_header.
  apply fails_only_bind; [apply fails_only_read_tag |].
  intros [[tag fp1] n1] _. destruct implicit.
  - apply fails_only_bind; [apply fails_only_fread_object |].
    intros [len fp2] _.
    apply fails_only_bind; [now apply fails_only_eheader_create |].
    intros; apply fails_only_done.
  - apply fails_only_bind; [apply fails_only_fread_object |].
    intros [vr fp2] _.
    destruct (vr_in (cstring vr) short_length_vrs).
    + apply fails_only_bind; [apply fails_only_fread_object |].
      intros [len fp3] _.
      apply fails_only_bind; [now apply fails_only_eheader_create |].
      intros; apply fails_only_done.
    + apply fails_only_bind; [apply fails_only_fread_object |].
      intros [res fp3] _.
      destruct (negb _); [now apply fails_only_failed |].
      apply fails_only_bind; [apply fails_only_fread_object |].
      intros [len fp4] _.
      apply fails_only_bind; [now apply fails_only_eheader_create |].
      intros; apply fails_only_done.
Qed.

Lemma fails_only_element_create (errors : list error)
    (tag : Z) (vr : string) (value : Value) :
  In ElementConstructionFailed errors ->
  fails_only errors (dcm_element_create tag vr value).
Proof.
  intros Hin. unfold dcm_element_create.
  destruct (dcm_element_accepts _);
    [apply fails_only_done | now apply fails_only_failed].
Qed.

Lemma readers_fail_only (fuel : nat) :
  (forall fp header n implicit,
     fails_only read_element_errors (read_element fuel fp header n implicit)) /\
  (forall fp tag length implicit n_seq value,
     fails_only read_element_errors
       (read_items fuel fp tag length implicit n_seq value)) /\
  (forall fp tag item_length implicit n_item dataset,
     fails_only read_element_errors
       (read_item_elements fuel fp tag item_length implicit n_item dataset)).
Proof.
  assert (Hcreate : forall tag vr value,
            fails_only read_element_errors (dcm_element_create tag vr value)).
  { intros. apply fails_only_element_create. simpl. tauto. }
  induction fuel as [| fuel (IHe & IHs & IHi)].
  - split; [| split]; intros; apply fails_only_out_of_fuel.
  - split; [| split].
    + intros fp header n implicit. cbn [read_element].
      destruct (vr_in (eheader_vr header) character_string_vrs).
      * destruct (_ =? 0); [apply fails_only_undefined |].
        apply fails_only_bind; [apply fails_only_fread_object |].
        intros [value fp1] _.
        destruct (parse_character_string _) as [strings vm].
        destruct (vr_in _ single_string_vrs).
        -- destruct (1 <? vm); [apply fails_only_failed; simpl; tauto |].
           destruct strings as [| str strings]; [apply fails_only_undefined |].
           apply fails_only_bind; [apply Hcreate |].
           intros; apply fails_only_done.
        -- apply fails_only_bind; [apply Hcreate |].
           intros; apply fails_only_done.
      * destruct (eheader_check_vr header "SQ").
        -- destruct (_ =? 0).
           ++ apply fails_only_bind; [apply Hcreate |].
              intros; apply fails_only_done.
           ++ apply fails_only_bind; [apply IHs |].
              intros [[value fp1] n1] _.
              apply fails_only_bind; [apply Hcreate |].
              intros; apply fails_only_done.
        -- destruct (numeric_vr header) as [[size convert] |].
           ++ apply fails_only_bind; [apply fails_only_read_values |].
              intros [[values fp1] n1] _.
              apply fails_only_bind; [apply Hcreate |].
              intros; apply fails_only_done.
           ++ destruct (vr_in _ opaque_vrs);
                [| destruct (fread _ fp); apply fails_only_failed;
                   simpl; tauto].
              apply fails_only_bind; [apply fails_only_fread_object |].
              intros [value fp1] _.
              apply fails_only_bind; [apply Hcreate |].
              intros; apply fails_only_done.
    + intros fp tag length implicit n_seq value. cbn [read_items].
      destruct (n_seq <? length); [| apply fails_only_done].
      apply fails_only_bind;
        [apply fails_only_read_item_header; simpl; tauto |].
      intros [[ih fp1] n1] _.
      destruct (_ =? TAG_SQ_DELIM); [apply fails_only_done |].
      destruct (negb _); [apply fails_only_failed; simpl; tauto |].
      apply fails_only_bind; [apply IHi |].
      intros [[ds fp2] n2] _. apply IHs.
    + intros fp tag item_length implicit n_item dataset.
      cbn [read_item_elements].
      destruct (n_item <? item_length); [| apply fails_only_done].
      apply fails_only_bind; [apply fails_only_read_tag |].
      intros [[probe fp1] n1] _.
      destruct (probe =? TAG_ITEM_DELIM); [apply fails_only_done |].
      apply fails_only_bind;
        [apply fails_only_read_element_header; simpl; tauto |].
      intros [[eh fp2] n2] _.
      apply fails_only_bind; [apply IHe |].
      intros [[el fp3] n3] _.
      destruct (dcm_dataset_insert dataset el);
        [apply IHi | apply fails_only_failed; simpl; tauto].
Qed.

(** X9.  [read_element] never stops in an [assert], and when it returns
    [NULL] the first message is one of nine: an invalid tag or VR or
    non-zero reserved bytes in the header of a nested element, an invalid
    or unexpected Item tag, an unexpected VR, more than one value for ST,
    LT, UR or UT, a tag that is in an Item twice, or a constructor that
    returned [NULL].  No failure is about a length. *)
Theorem read_element_fails_in_nine_ways
    (fuel : nat) (fp : FILE) (header : EHeader) (n : Z) (implicit : bool) :
  read_element fuel fp header n implicit <> Aborted /\
  (forall e : error,
     read_element fuel fp header n implicit = Failed e ->
     In e read_element_errors).
Proof.
  destruct (readers_fail_only fuel) as (He & _ & _).
  destruct (He fp header n implicit) as [Hf Ha].
  split; [exact Ha | exact Hf].
Qed.

End Failures.

(** ** The reader comes to an end *)

Lemma bind_not_out_of_fuel {A B : Type} (m : outcome A) (k : A -> outcome B) :
  m <> OutOfFuel ->
  (forall a : A, m = Done a -> k a <> OutOfFuel) ->
  bind m k <> OutOfFuel.
Proof.
  intros Hm Hk. destruct m; cbn [bind]; try discriminate.
  - now apply Hk.
  - contradiction.
Qed.

Lemma fread_object_not_out_of_fuel (count : Z) (fp : FILE) :
  fread_object count fp <> OutOfFuel.
Proof.
  unfold fread_object. destruct (fread count fp). destruct (_ =? _); discriminate.
Qed.

Lemma strcmp_read_not_out_of_fuel (s : string) :
  forall got : list Z, strcmp_read got s <> OutOfFuel.
Proof.
  induction s as [| c s IH]; intros got; simpl; [discriminate |].
  destruct got as [| b got]; [discriminate |].
  destruct (_ =? _); [apply IH | discriminate].
Qed.

Lemma read_tag_not_out_of_fuel (fp : FILE) (n : Z) :
  read_tag fp n <> OutOfFuel.
Proof.
  unfold read_tag.
  apply bind_not_out_of_fuel; [apply fread_object_not_out_of_fuel |].
  intros [g fp1] _.
  apply bind_not_out_of_fuel; [apply fread_object_not_out_of_fuel |].
  intros [e fp2] _. discriminate.
Qed.

Lemma read_item_header_not_out_of_fuel (fp : FILE) (n : Z) :
  read_item_header fp n <> OutOfFuel.
Proof.
  unfold read_item_header.
  apply bind_not_out_of_fuel; [apply read_tag_not_out_of_fuel |].
  intros [[tag fp1] n1] _.
  apply bind_not_out_of_fuel; [apply fread_object_not_out_of_fuel |].
  intros [len fp2] _.
  apply bind_not_out_of_fuel; [| discriminate].
  unfold iheader_create. destruct (negb _); discriminate.
Qed.

Lemma read_values_not_out_of_fuel (size : Z) (convert : Z -> Z) (vm : nat) :
  forall (fp : FILE) (n : Z), read_values size convert vm fp n <> OutOfFuel.
Proof.
  induction vm as [| vm IH]; intros fp n; simpl; [discriminate |].
  apply bind_not_out_of_fuel; [apply fread_object_not_out_of_fuel |].
  intros [val fp1] _.
  apply bind_not_out_of_fuel; [apply IH |].
  intros [[vals fp2] n2] _. discriminate.
Qed.

Lemma bytes_left_nonneg (fp : FILE) : 0 <= bytes_left fp.
Proof. unfold bytes_left. lia. Qed.

Lemma bytes_left_advance (fp : FILE) (k : Z) :
  0 <= k <= bytes_left fp -> bytes_left (advance fp k) = bytes_left fp - k.
Proof.
  unfold bytes_left. intros Hk.
  rewrite remaining_advance, length_skipn by lia. lia.
Qed.

Lemma bytes_left_moves_on (fp fp' : FILE) :
  stream_moves_on fp fp' -> bytes_left fp' <= bytes_left fp.
Proof.
  intros [Hc Hp]. unfold bytes_left, remaining.
  rewrite Hc, !length_skipn. lia.
Qed.

Lemma bytes_left_same_place (fp fp' : FILE) :
  contents fp' = contents fp -> position fp' = position fp ->
  bytes_left fp' = bytes_left fp.
Proof.
  intros Hc Hp. unfold bytes_left, remaining. now rewrite Hc, Hp.
Qed.

Lemma read_tag_bytes_left (fp fp' : FILE) (n n' tag : Z) :
  read_tag fp n = Done (tag, fp', n') -> 4 <= bytes_left fp.
Proof.
  unfold read_tag. intros E.
  apply bind_done in E. destruct E as ([g fp1] & E1 & E).
  apply bind_done in E. destruct E as ([e fp2] & E2 & E).
  apply fread_object_done in E1. destruct E1 as (_ & H1 & _ & ->).
  apply fread_object_done in E2. destruct E2 as (_ & H2 & _ & _).
  rewrite remaining_advance, length_skipn in H2 by lia.
  unfold bytes_left. lia.
Qed.

Lemma read_item_header_bytes_left (fp fp' : FILE) (n n' : Z) (header : IHeader) :
  read_item_header fp n = Done (header, fp', n') -> 8 <= bytes_left fp.
Proof.
  unfold read_item_header. intros E.
  apply bind_done in E. destruct E as ([[tag fp1] n1] & E1 & E).
  apply bind_done in E. destruct E as ([len fp2] & E2 & E).
  pose proof (read_tag_bytes_left _ _ _ _ _ E1) as H4.
  apply read_tag_done in E1. subst fp1.
  apply fread_object_done in E2. destruct E2 as (_ & H2 & _ & _).
  rewrite remaining_advance, length_skipn in H2 by lia.
  unfold bytes_left in *. lia.
Qed.

Section Termination.
Context {C : Collaborators}.

Lemma eheader_create_not_out_of_fuel (tag : Z) (vr : string) (length : Z) :
  eheader_create tag vr length <> OutOfFuel.
Proof.
  unfold eheader_create.
  destruct (negb _); [discriminate |]. destruct (negb _); discriminate.
Qed.

Lemma read_element_header_not_out_of_fuel (fp : FILE) (n : Z) (implicit : bool) :
  read_element_header fp n implicit <> OutOfFuel.
Proof.
  unfold read_element_header.
  apply bind_not_out_of_fuel; [apply read_tag_not_out_of_fuel |].
  intros [[tag fp1] n1] _. destruct implicit.
  - apply bind_not_out_of_fuel; [apply fread_object_not_out_of_fuel |].
    intros [len fp2] _.
    apply bind_not_out_of_fuel; [apply eheader_create_not_out_of_fuel |].
    discriminate.
  - apply bind_not_out_of_fuel; [apply fread_object_not_out_of_fuel |].
    intros [vr fp2] _.
    destruct (vr_in (cstring vr) short_length_vrs).
    + apply bind_not_out_of_fuel; [apply fread_object_not_out_of_fuel |].
      intros [len fp3] _.
      apply bind_not_out_of_fuel; [apply eheader_create_not_out_of_fuel |].
      discriminate.
    + apply bind_not_out_of_fuel; [apply fread_object_not_out_of_fuel |].
      intros [res fp3] _.
      destruct (negb _); [discriminate |].
      apply bind_not_out_of_fuel; [apply fread_object_not_out_of_fuel |].
      intros [len fp4] _.
      apply bind_not_out_of_fuel; [apply eheader_create_not_out_of_fuel |].
      discriminate.
Qed.

Lemma element_create_not_out_of_fuel (tag : Z) (vr : string) (value : Value) :
  dcm_element_create tag vr value <> OutOfFuel.
Proof. unfold dcm_element_create. destruct (dcm_element_accepts _); discriminate. Qed.

(** A header that was read leaves at least 8 bytes fewer. *)
Lemma read_element_header_bytes_left
    (fp fp' : FILE) (n n' : Z) (implicit : bool) (header : EHeader) :
  read_element_header fp n implicit = Done (header, fp', n') ->
  bytes_left fp' + 8 <= bytes_left fp.
Proof.
  intros E. apply read_element_header_inv in E.
  destruct E as (k & -> & _ & Hk & _ & _ & _ & _ & Hm).
  fold (bytes_left fp) in Hk.
  assert (8 <= k).
  { destruct implicit;
      [| destruct (vr_in (eheader_vr header) short_length_vrs)]; lia. }
  rewrite bytes_left_advance by lia. lia.
Qed.

Lemma readers_end (fuel : nat) :
  (forall fp header n implicit,
     2 * bytes_left fp + 16 <= 8 * Z.of_nat fuel ->
     read_element fuel fp header n implicit <> OutOfFuel) /\
  (forall fp tag length implicit n_seq value,
     2 * bytes_left fp + 8 <= 8 * Z.of_nat fuel ->
     read_items fuel fp tag length implicit n_seq value <> OutOfFuel) /\
  (forall fp tag item_length implicit n_item dataset,
     2 * bytes_left fp + 8 <= 8 * Z.of_nat fuel ->
     read_item_elements fuel fp tag item_length implicit n_item dataset <>
       OutOfFuel).
Proof.
  induction fuel as [| fuel (IHe & IHs & IHi)].
  - split; [| split]; intros fp; intros;
      pose proof (bytes_left_nonneg fp); lia.
  - rewrite Nat2Z.inj_succ. split; [| split].
    + intros fp header n implicit Hfuel. cbn [read_element].
      destruct (vr_in (eheader_vr header) character_string_vrs).
      * destruct (_ =? 0); [discriminate |].
        apply bind_not_out_of_fuel; [apply fread_object_not_out_of_fuel |].
        intros [value fp1] _.
        destruct (parse_character_string _) as [strings vm].
        destruct (vr_in _ single_string_vrs).
        -- destruct (1 <? vm); [discriminate |].
           destruct strings as [| str strings]; [discriminate |].
           apply bind_not_out_of_fuel; [apply element_create_not_out_of_fuel |].
           discriminate.
        -- apply bind_not_out_of_fuel; [apply element_create_not_out_of_fuel |].
           discriminate.
      * destruct (eheader_check_vr header "SQ").
        -- destruct (_ =? 0).
           ++ apply bind_not_out_of_fuel; [apply element_create_not_out_of_fuel |].
              discriminate.
           ++ apply bind_not_out_of_fuel; [apply IHs; lia |].
              intros [[value fp1] n1] _.
              apply bind_not_out_of_fuel; [apply element_create_not_out_of_fuel |].
              discriminate.
        -- destruct (numeric_vr header) as [[size convert] |].
           ++ apply bind_not_out_of_fuel; [apply read_values_not_out_of_fuel |].
              intros [[values fp1] n1] _.
              apply bind_not_out_of_fuel; [apply element_create_not_out_of_fuel |].
              discriminate.
           ++ destruct (vr_in _ opaque_vrs);
                [| destruct (fread _ fp); discriminate].
              apply bind_not_out_of_fuel; [apply fread_object_not_out_of_fuel |].
              intros [value fp1] _.
              apply bind_not_out_of_fuel; [apply element_create_not_out_of_fuel |].
              discriminate.
    + intros fp tag length implicit n_seq value Hfuel. cbn [read_items].
      destruct (n_seq <? length); [| discriminate].
      apply bind_not_out_of_fuel; [apply read_item_header_not_out_of_fuel |].
      intros [[ih fp1] n1] E1.
      pose proof (read_item_header_bytes_left _ _ _ _ _ E1) as H8.
      apply read_item_header_done in E1. subst fp1.
      pose proof (bytes_left_advance fp 8 ltac:(lia)) as Hleft.
      destruct (_ =? TAG_SQ_DELIM); [discriminate |].
      destruct (negb _); [discriminate |].
      apply bind_not_out_of_fuel; [apply IHi; lia |].
      intros [[ds fp2] n2] E2.
      apply (readers_move_on fuel) in E2.
      apply bytes_left_moves_on in E2.
      apply IHs. lia.
    + intros fp tag item_length implicit n_item dataset Hfuel.
      cbn [read_item_elements].
      destruct (n_item <? item_length); [| discriminate].
      apply bind_not_out_of_fuel; [apply read_tag_not_out_of_fuel |].
      intros [[probe fp1] n1] E1.
      apply read_tag_done in E1. subst fp1.
      destruct (probe =? TAG_ITEM_DELIM); [discriminate |].
      assert (Hback : bytes_left (fseek (advance fp 4) (-4) SEEK_CUR) =
                      bytes_left fp).
      { apply bytes_left_same_place; unfold fseek, advance; cbn [position];
          destruct (Z.ltb_spec (Z.of_N (position fp + Z.to_N 4) + -4) 0);
          cbn [position contents]; try reflexivity; lia. }
      apply bind_not_out_of_fuel; [apply read_element_header_not_out_of_fuel |].
      intros [[eh fp2] n2] E2.
      apply read_element_header_bytes_left in E2.
      apply bind_not_out_of_fuel; [apply IHe; lia |].
      intros [[el fp3] n3] E3.
      apply read_element_moves_on in E3. apply bytes_left_moves_on in E3.
      destruct (dcm_dataset_insert dataset el); [| discriminate].
      apply IHi. lia.
Qed.

Lemma bind_more_fuel {A B : Type} (m m' : outcome A) (k k' : A -> outcome B) :
  (m <> OutOfFuel -> m' = m) ->
  (forall a : A, m = Done a -> k a <> OutOfFuel -> k' a = k a) ->
  bind m k <> OutOfFuel -> bind m' k' = bind m k.
Proof.
  intros Hm Hk H. destruct m; cbn [bind] in H |- *;
    try (rewrite Hm by discriminate; cbn [bind]).
  - now apply Hk.
  - reflexivity.
  - reflexivity.
  - reflexivity.
  - now destruct H.
Qed.

(** A result that is not the end of the fuel stays with one unit more. *)
Lemma readers_more_fuel (fuel : nat) :
  (forall fp header n implicit,
     read_element fuel fp header n implicit <> OutOfFuel ->
     read_element (S fuel) fp header n implicit =
     read_element fuel fp header n implicit) /\
  (forall fp tag length implicit n_seq value,
     read_items fuel fp tag length implicit n_seq value <> OutOfFuel ->
     read_items (S fuel) fp tag length implicit n_seq value =
     read_items fuel fp tag length implicit n_seq value) /\
  (forall fp tag item_length implicit n_item dataset,
     read_item_elements fuel fp tag item_length implicit n_item dataset <>
       OutOfFuel ->
     read_item_elements (S fuel) fp tag item_length implicit n_item dataset =
     read_item_elements fuel fp tag item_length implicit n_item dataset).
Proof.
  induction fuel as [| fuel (IHe & IHs & IHi)].
  - split; [| split]; intros; exfalso; auto.
  - split; [| split].
    + intros fp header n implicit H. cbn [read_element] in H |- *.
      destruct (vr_in (eheader_vr header) character_string_vrs);
        [reflexivity |].
      destruct (eheader_check_vr header "SQ"); [| reflexivity].
      destruct (_ =? 0); [reflexivity |].
      apply bind_more_fuel; [apply IHs | intros; reflexivity | exact H].
    + intros fp tag length implicit n_seq value H.
      cbn [read_items] in H |- *.
      destruct (n_seq <? length); [| reflexivity].
      apply bind_more_fuel; [intros _; reflexivity | | exact H].
      intros [[ih fp1] n1] _ Hk.
      destruct (_ =? TAG_SQ_DELIM); [reflexivity |].
      destruct (negb _); [reflexivity |].
      apply bind_more_fuel; [apply IHi | | exact Hk].
      intros [[ds fp2] n2] _ Hk2. now apply IHs.
    + intros fp tag item_length implicit n_item dataset H.
      cbn [read_item_elements] in H |- *.
      destruct (n_item <? item_length); [| reflexivity].
      apply bind_more_fuel; [intros _; reflexivity | | exact H].
      intros [[probe fp1] n1] _ Hk.
      destruct (probe =? TAG_ITEM_DELIM); [reflexivity |].
      apply bind_more_fuel; [intros _; reflexivity | | exact Hk].
      intros [[eh fp2] n2] _ Hk2.
      apply bind_more_fuel; [apply IHe | | exact Hk2].
      intros [[el fp3] n3] _ Hk3.
      destruct (dcm_dataset_insert dataset el); [| reflexivity].
      now apply IHi.
Qed.

Lemma read_element_more_fuel
    (fuel fuel' : nat) (fp : FILE) (header : EHeader) (n : Z) (implicit : bool) :
  (fuel <= fuel')%nat ->
  read_element fuel fp header n implicit <> OutOfFuel ->
  read_element fuel' fp header n implicit =
  read_element fuel fp header n implicit.
Proof.
  intros Hle H. induction Hle as [| fuel' Hle IH]; [reflexivity |].
  rewrite <- IH. apply readers_more_fuel. now rewrite IH.
Qed.

(** X10.  A call of [read_element] that returns, an element or [NULL]
    after a message, has made no more nested calls and turns of its loops
    over Items and over the elements of an Item than a quarter of the
    bytes left in the stream, and two more: that much fuel gives the
    result that any other amount gives. *)
Theorem read_element_ends
    (fuel fuel' : nat) (fp : FILE) (header : EHeader) (n : Z)
    (implicit : bool) :
  bytes_left fp + 8 <= 4 * Z.of_nat fuel ->
  returned (read_element fuel' fp header n implicit) ->
  read_element fuel fp header n implicit =
  read_element fuel' fp header n implicit.
Proof.
  intros Hfuel Hret.
  destruct (Nat.le_ge_cases fuel fuel') as [Hle | Hle].
  - symmetry. apply read_element_more_fuel; [exact Hle |].
    apply readers_end. lia.
  - apply read_element_more_fuel; [exact Hle |].
    intros E. rewrite E in Hret. exact Hret.
Qed.

End Termination.

Lemma read_element_ends_witness :
  read_element (C := example_collaborators) 11 undefined_length_items
    sq_undefined_length 0 false =
  read_element (C := example_collaborators) 5 undefined_length_items
    sq_undefined_length 0 false.
Proof.
  apply (read_element_ends (C := example_collaborators)
           11 5 undefined_length_items sq_undefined_length 0 false).
  - vm_compute. discriminate.
  - vm_compute. exact I.
Defined.

Lemma bytes_left_at_most (fp : FILE) :
  bytes_left fp <= Z.of_nat (List.length (contents fp)).
Proof.
  unfold bytes_left, remaining. rewrite length_skipn. lia.
Qed.

Lemma bytes_left_fseek_set (fp : FILE) (offset : Z) :
  bytes_left (fseek fp offset SEEK_SET) <= Z.of_nat (List.length (contents fp)).
Proof.
  pose proof (bytes_left_at_most (fseek fp offset SEEK_SET)) as H.
  unfold fseek in *. destruct (offset <? 0); exact H.
Qed.

Section MetadataEnds.
Context {C : Collaborators}.

Lemma read_file_meta_elements_end (fuel loop : nat) :
  forall (fp : FILE) (size group_length : Z) (file_meta : DcmDataSet),
    bytes_left fp + 8 <= 4 * Z.of_nat fuel ->
    bytes_left fp + 8 <= 8 * Z.of_nat loop ->
    read_file_meta_elements fuel loop fp size group_length file_meta <>
      OutOfFuel.
Proof.
  induction loop as [| loop IH]; intros fp size group_length file_meta Hf Hl.
  - pose proof (bytes_left_nonneg fp). lia.
  - cbn [read_file_meta_elements].
    apply bind_not_out_of_fuel.
    { pose proof (read_element_header_not_out_of_fuel fp size false) as Hh.
      destruct (read_element_header fp size false); try discriminate.
      contradiction. }
    intros [[header fp1] n1] E1.
    apply freed_twice_done, read_element_header_bytes_left in E1.
    destruct (negb _); [discriminate |].
    apply bind_not_out_of_fuel; [apply readers_end; lia |].
    intros [[element fp2] n2] E2.
    apply read_element_moves_on in E2. apply bytes_left_moves_on in E2.
    destruct (dcm_dataset_insert file_meta element); [| discriminate].
    destruct (group_length <=? n2); [discriminate |].
    apply IH; lia.
Qed.

Lemma get_value_number_not_out_of_fuel (vr : string) (element : Element)
    (index : nat) :
  dcm_element_get_value_number vr element index <> OutOfFuel.
Proof.
  unfold dcm_element_get_value_number.
  destruct element as [tag vr' [| | values vm | |]]; try discriminate.
  destruct (String.eqb vr' vr); [| discriminate].
  destruct (nth_error values index); discriminate.
Qed.

Lemma get_value_string_not_out_of_fuel (vr : string) (element : Element)
    (index : nat) :
  dcm_element_get_value_string vr element index <> OutOfFuel.
Proof.
  unfold dcm_element_get_value_string.
  destruct element as [tag vr' [strings vm | | | |]]; try discriminate.
  destruct (String.eqb vr' vr); [| discriminate].
  destruct (nth_error strings index); discriminate.
Qed.

Lemma read_file_meta_ends_at (fuel : nat) (file : DcmFile) :
  bytes_left (f_fp file) + 8 <= 4 * Z.of_nat fuel ->
  dcm_file_read_file_meta fuel file <> OutOfFuel.
Proof.
  intros Hfuel. unfold dcm_file_read_file_meta.
  destruct (fread 128 (f_fp file)) as [preamble fp0] eqn:E0.
  destruct (fread 4 fp0) as [prefix fp1] eqn:E1.
  apply bind_not_out_of_fuel; [apply strcmp_read_not_out_of_fuel |].
  intros found Ef.
  destruct found; cbn [negb]; [| discriminate].
  destruct (preamble_and_prefix _ _ _ _ _ E0 E1 Ef) as [Pc Pp].
  assert (M1 : bytes_left fp1 <= bytes_left (f_fp file)).
  { apply bytes_left_moves_on. split; [exact Pc | lia]. }
  apply bind_not_out_of_fuel; [apply read_element_header_not_out_of_fuel |].
  intros [[h1 fp2] n2] E2. apply read_element_header_bytes_left in E2.
  apply bind_not_out_of_fuel; [apply readers_end; lia |].
  intros [[e1 fp3] n3] E3.
  apply read_element_moves_on in E3. apply bytes_left_moves_on in E3.
  apply bind_not_out_of_fuel; [apply get_value_number_not_out_of_fuel |].
  intros group_length _.
  apply bind_not_out_of_fuel; [apply read_element_header_not_out_of_fuel |].
  intros [[h2 fp4] n4] E4. apply read_element_header_bytes_left in E4.
  apply bind_not_out_of_fuel; [apply readers_end; lia |].
  intros [[e2 fp5] n5] E5.
  apply read_element_moves_on in E5. apply bytes_left_moves_on in E5.
  apply bind_not_out_of_fuel; [apply read_file_meta_elements_end; lia |].
  intros [[fm fp6] n6] _.
  destruct (dcm_dataset_get fm 0x00020010); [| discriminate].
  apply bind_not_out_of_fuel; [apply get_value_string_not_out_of_fuel |].
  discriminate.
Qed.

Lemma read_dataset_elements_end (fuel loop : nat) :
  forall (fp : FILE) (n : Z) (implicit : bool) (dataset : DcmDataSet),
    bytes_left fp + 8 <= 4 * Z.of_nat fuel ->
    bytes_left fp + 8 <= 8 * Z.of_nat loop ->
    read_dataset_elements fuel loop fp n implicit dataset <> OutOfFuel.
Proof.
  induction loop as [| loop IH]; intros fp n implicit dataset Hf Hl.
  - pose proof (bytes_left_nonneg fp). lia.
  - cbn [read_dataset_elements].
    destruct (feof fp); [discriminate |].
    destruct (fread 1 fp) as [tmp fp1] eqn:Epeek.
    destruct (List.length tmp =? 0)%nat eqn:Etmp; [discriminate |].
    change (-1) with (- (1)).
    rewrite (peek_and_rewind 1 _ _ _ eq_refl Epeek Etmp).
    set (fph := mkFILE (contents fp) (position fp) false).
    assert (Hh : bytes_left fph = bytes_left fp)
      by (now apply bytes_left_same_place).
    apply bind_not_out_of_fuel; [apply read_element_header_not_out_of_fuel |].
    intros [[header fp2] n2] E2. apply read_element_header_bytes_left in E2.
    destruct (_ =? TAG_TRAILING_PADDING); [discriminate |].
    destruct (is_pixel_data_tag _); [discriminate |].
    destruct (_ =? 0x0002); [discriminate |].
    apply bind_not_out_of_fuel; [apply readers_end; lia |].
    intros [[element fp3] n3] E3.
    apply read_element_moves_on in E3. apply bytes_left_moves_on in E3.
    destruct (dcm_dataset_insert dataset element); [| discriminate].
    apply IH; lia.
Qed.

Lemma read_metadata_ends_at (fuel : nat) (file : DcmFile) :
  Z.of_nat (List.length (contents (f_fp file))) + 8 <= 4 * Z.of_nat fuel ->
  dcm_file_read_metadata fuel file <> OutOfFuel.
Proof.
  intros Hfuel. unfold dcm_file_read_metadata, read_metadata_trace.
  apply bind_not_out_of_fuel; [| intros [[dataset file'] stopped] _; discriminate].
  apply bind_not_out_of_fuel.
  - unfold ensure_file_meta. destruct (f_offset file =? 0); [| discriminate].
    apply bind_not_out_of_fuel.
    + apply read_file_meta_ends_at.
      pose proof (bytes_left_at_most (f_fp file)). lia.
    + intros [meta file0] _. discriminate.
  - intros file1 E1. apply ensure_file_meta_done in E1.
    destruct E1 as (Hc & _).
    pose proof (bytes_left_fseek_set (f_fp file1) (f_offset file1)) as Hleft.
    rewrite Hc in Hleft.
    apply bind_not_out_of_fuel.
    + apply read_dataset_elements_end; lia.
    + intros [[dataset fp'] stopped] _. discriminate.
Qed.

(** More fuel, for the elements and for the turns of the loop, keeps a
    result that is not the end of the fuel. *)
Lemma read_file_meta_elements_more_fuel (fuel fuel' : nat) :
  (fuel <= fuel')%nat ->
  forall (loop loop' : nat) (fp : FILE) (size group_length : Z)
         (file_meta : DcmDataSet),
    (loop <= loop')%nat ->
    read_file_meta_elements fuel loop fp size group_length file_meta <>
      OutOfFuel ->
    read_file_meta_elements fuel' loop' fp size group_length file_meta =
    read_file_meta_elements fuel loop fp size group_length file_meta.
Proof.
  intros Hfuel. induction loop as [| loop IH];
    intros loop' fp size group_length file_meta Hloop H;
    [now destruct H |].
  destruct loop' as [| loop']; [lia |].
  cbn [read_file_meta_elements] in H |- *.
  apply bind_more_fuel; [intros _; reflexivity | | exact H].
  intros [[header fp1] n1] _ Hk.
  destruct (negb _); [reflexivity |].
  apply bind_more_fuel; [now apply read_element_more_fuel | | exact Hk].
  intros [[element fp2] n2] _ Hk2.
  destruct (dcm_dataset_insert file_meta element); [| reflexivity].
  destruct (group_length <=? n2); [reflexivity |].
  apply IH; [lia | exact Hk2].
Qed.

Lemma read_dataset_elements_more_fuel (fuel fuel' : nat) :
  (fuel <= fuel')%nat ->
  forall (loop loop' : nat) (fp : FILE) (n : Z) (implicit : bool)
         (dataset : DcmDataSet),
    (loop <= loop')%nat ->
    read_dataset_elements fuel loop fp n implicit dataset <> OutOfFuel ->
    read_dataset_elements fuel' loop' fp n implicit dataset =
    read_dataset_elements fuel loop fp n implicit dataset.
Proof.
  intros Hfuel. induction loop as [| loop IH];
    intros loop' fp n implicit dataset Hloop H; [now destruct H |].
  destruct loop' as [| loop']; [lia |].
  cbn [read_dataset_elements] in H |- *.
  destruct (feof fp); [reflexivity |].
  destruct (fread 1 fp) as [tmp fp1].
  destruct (List.length tmp =? 0)%nat; [reflexivity |].
  apply bind_more_fuel; [intros _; reflexivity | | exact H].
  intros [[header fp2] n2] _ Hk.
  destruct (_ =? TAG_TRAILING_PADDING); [reflexivity |].
  destruct (is_pixel_data_tag _); [reflexivity |].
  destruct (_ =? 0x0002); [reflexivity |].
  apply bind_more_fuel; [now apply read_element_more_fuel | | exact Hk].
  intros [[element fp3] n3] _ Hk2.
  destruct (dcm_dataset_insert dataset element); [| reflexivity].
  apply IH; [lia | exact Hk2].
Qed.

Lemma read_file_meta_more_fuel (fuel fuel' : nat) (file : DcmFile) :
  (fuel <= fuel')%nat ->
  dcm_file_read_file_meta fuel file <> OutOfFuel ->
  dcm_file_read_file_meta fuel' file = dcm_file_read_file_meta fuel file.
Proof.
  intros Hfuel H. unfold dcm_file_read_file_meta in H |- *.
  destruct (fread 128 (f_fp file)) as [preamble fp0].
  destruct (fread 4 fp0) as [prefix fp1].
  apply bind_more_fuel; [intros _; reflexivity | | exact H].
  intros found _ H1. destruct (negb found); [reflexivity |].
  apply bind_more_fuel; [intros _; reflexivity | | exact H1].
  intros [[h1 fp2] n2] _ H2.
  apply bind_more_fuel; [now apply read_element_more_fuel | | exact H2].
  intros [[e1 fp3] n3] _ H3.
  apply bind_more_fuel; [intros _; reflexivity | | exact H3].
  intros group_length _ H4.
  apply bind_more_fuel; [intros _; reflexivity | | exact H4].
  intros [[h2 fp4] n4] _ H5.
  apply bind_more_fuel; [now apply read_element_more_fuel | | exact H5].
  intros [[e2 fp5] n5] _ H6.
  apply bind_more_fuel;
    [now apply read_file_meta_elements_more_fuel
    | intros; reflexivity | exact H6].
Qed.

Lemma read_metadata_more_fuel (fuel fuel' : nat) (file : DcmFile) :
  (fuel <= fuel')%nat ->
  dcm_file_read_metadata fuel file <> OutOfFuel ->
  dcm_file_read_metadata fuel' file = dcm_file_read_metadata fuel file.
Proof.
  intros Hfuel H.
  unfold dcm_file_read_metadata, read_metadata_trace in H |- *.
  apply bind_more_fuel; [| intros; reflexivity | exact H].
  intros H1.
  apply bind_more_fuel; [| | exact H1].
  - unfold ensure_file_meta. destruct (f_offset file =? 0);
      [| reflexivity].
    intros H2.
    apply bind_more_fuel; [| intros; reflexivity | exact H2].
    now apply read_file_meta_more_fuel.
  - intros file1 _ H2.
    apply bind_more_fuel; [| intros; reflexivity | exact H2].
    now apply read_dataset_elements_more_fuel.
Qed.

(** X11.  A call of [dcm_file_read_file_meta] that returns, the File Meta
    Information or [NULL] after a message, has made no more turns of its
    loop, and its calls of [read_element] no more turns and nested calls,
    than a quarter of the size of the file, and two more: that much fuel
    gives the result that any other amount gives. *)
Theorem read_file_meta_ends (fuel fuel' : nat) (file : DcmFile) :
  Z.of_nat (List.length (contents (f_fp file))) + 8 <= 4 * Z.of_nat fuel ->
  returned (dcm_file_read_file_meta fuel' file) ->
  dcm_file_read_file_meta fuel file = dcm_file_read_file_meta fuel' file.
Proof.
  intros Hfuel Hret.
  destruct (Nat.le_ge_cases fuel fuel') as [Hle | Hle].
  - symmetry. apply read_file_meta_more_fuel; [exact Hle |].
    apply read_file_meta_ends_at.
    pose proof (bytes_left_at_most (f_fp file)). lia.
  - apply read_file_meta_more_fuel; [exact Hle |].
    intros E. rewrite E in Hret. exact Hret.
Qed.

(** X12.  A call of [dcm_file_read_metadata] that returns, the Data Set
    or [NULL] after a message, has made no more turns of its loops and
    nested calls than a quarter of the size of the file, and two more,
    whether it had to read the File Meta Information first or not: that
    much fuel gives the result that any other amount gives. *)
Theorem read_metadata_ends (fuel fuel' : nat) (file : DcmFile) :
  Z.of_nat (List.length (contents (f_fp file))) + 8 <= 4 * Z.of_nat fuel ->
  returned (dcm_file_read_metadata fuel' file) ->
  dcm_file_read_metadata fuel file = dcm_file_read_metadata fuel' file.
Proof.
  intros Hfuel Hret.
  destruct (Nat.le_ge_cases fuel fuel') as [Hle | Hle].
  - symmetry. apply read_metadata_more_fuel; [exact Hle |].
    now apply read_metadata_ends_at.
  - apply read_metadata_more_fuel; [exact Hle |].
    intros E. rewrite E in Hret. exact Hret.
Qed.

End MetadataEnds.

Lemma read_file_meta_ends_witness :
  dcm_file_read_file_meta (C := example_collaborators) 60
    (dcm_file_create implicit_file) =
  dcm_file_read_file_meta (C := example_collaborators) 5
    (dcm_file_create implicit_file).
Proof.
  apply (read_file_meta_ends (C := example_collaborators) 60 5
           (dcm_file_create implicit_file)).
  - vm_compute. discriminate.
  - vm_compute. exact I.
Defined.

Lemma read_metadata_ends_witness :
  dcm_file_read_metadata (C := example_collaborators) 60
    (dcm_file_create implicit_file) =
  dcm_file_read_metadata (C := example_collaborators) 5
    (dcm_file_create implicit_file).
Proof.
  apply (read_metadata_ends (C := example_collaborators) 60 5
           (dcm_file_create implicit_file)).
  - vm_compute. discriminate.
  - vm_compute. exact I.
Defined.

(** ** Opaque values and unknown VRs *)

Lemma opaque_vr_inv (header : EHeader) :
  vr_in (eheader_vr header) opaque_vrs = true ->
  vr_in (eheader_vr header) character_string_vrs = false /\
  eheader_check_vr header "SQ" = false /\
  numeric_vr header = None.
Proof.
  destruct header as [tag vr len].
  unfold vr_in, opaque_vrs, numeric_vr, eheader_check_vr.
  cbn [eheader_vr existsb].
  repeat match goal with
         | |- context [String.eqb vr ?s || _] =>
             destruct (String.eqb_spec vr s);
             [ subst vr; intros _; repeat split; reflexivity | cbn [orb] ]
         end.
  discriminate.
Qed.

Section OpaqueValues.
Context {C : Collaborators}.

(** X13.  For a header with one of the VRs OB, OD, OF, OL, OV, OW, UC and
    UN, on a stream that holds as many bytes as the header declares,
    [read_element] returns these bytes as they are, with their number, and
    moves the stream and the byte count on by that number.  On a stream
    that holds fewer bytes the value is not defined. *)
Theorem opaque_value_is_the_bytes
    (fuel : nat) (fp : FILE) (header : EHeader) (n : Z) (implicit : bool) :
  vr_in (eheader_vr header) opaque_vrs = true ->
  let length := uint32 (eheader_get_length header) in
  let value := firstn (Z.to_nat length) (remaining fp) in
  let element :=
    mkElement (eheader_get_tag header) (eheader_vr header) (Blob value length) in
  dcm_element_accepts element = true ->
  (length <= bytes_left fp ->
   read_element (S fuel) fp header n implicit =
     Done (element, advance fp length, size_t (n + length)) /\
   Z.of_nat (List.length value) = length) /\
  (bytes_left fp < length ->
   read_element (S fuel) fp header n implicit = Undefined).
Proof.
  intros Hop length value element Hacc.
  destruct (opaque_vr_inv _ Hop) as (Hstr & Hsq & Hnum).
  pose proof (uint32_range (eheader_get_length header)) as Hlen.
  fold length in Hlen. unfold bytes_left.
  split; intros Hbytes.
  - split.
    + cbn [read_element]. rewrite Hstr, Hsq, Hnum, Hop. fold length.
      rewrite fread_object_enough by lia. cbn [bind].
      fold value. unfold dcm_element_create. fold element.
      rewrite Hacc. reflexivity.
    + unfold value. rewrite firstn_length_le; lia.
  - cbn [read_element]. rewrite Hstr, Hsq, Hnum, Hop. fold length.
    unfold fread_object, fread. rewrite length_firstn.
    destruct (Z.eqb_spec (Z.of_nat (Nat.min (Z.to_nat length)
                                      (List.length (remaining fp)))) length);
      [lia | reflexivity].
Qed.

(** X14.  For a header whose VR is not SQ, [read_element] fails with the
    message of an unknown VR exactly when the VR is none of the character
    string, numeric and opaque VRs, whatever the stream holds and whatever
    length the header declares: the buffer that the value is read into is
    not looked at, so the failure is the same on a stream that is shorter
    than the value. *)
Theorem unknown_vr_fails_on_every_stream
    (fuel : nat) (fp : FILE) (header : EHeader) (n : Z) (implicit : bool) :
  eheader_check_vr header "SQ" = false ->
  (read_element (S fuel) fp header n implicit = Failed UnknownVR <->
   vr_in (eheader_vr header) character_string_vrs = false /\
   numeric_vr header = None /\
   vr_in (eheader_vr header) opaque_vrs = false).
Proof.
  intros Hsq. cbn [read_element]. rewrite Hsq.
  set (length := uint32 (eheader_get_length header)) in *.
  split.
  - destruct (vr_in (eheader_vr header) character_string_vrs).
    { destruct (_ =? 0); [discriminate |].
      destruct (fread_object length fp) as [[value fp1] | e | | |] eqn:Ev;
        cbn [bind]; try discriminate;
        [| destruct (fails_only_fread_object [] length fp) as [F _];
           destruct (F e Ev)].
      destruct (parse_character_string _) as [strings vm].
      destruct (vr_in _ single_string_vrs).
      - destruct (1 <? vm); [discriminate |].
        destruct strings; [discriminate |].
        unfold dcm_element_create. destruct (dcm_element_accepts _);
          cbn [bind]; discriminate.
      - unfold dcm_element_create. destruct (dcm_element_accepts _);
          cbn [bind]; discriminate. }
    destruct (numeric_vr header) as [[size convert] |].
    { intros E. exfalso.
      destruct (read_values size convert _ fp n) as [[[values fp1] n1] | e | | |]
        eqn:Ev; cbn [bind] in E; try discriminate.
      - unfold dcm_element_create in E. destruct (dcm_element_accepts _);
          cbn [bind] in E; discriminate.
      - injection E as ->.
        pose proof (fails_only_read_values [] size convert
                      (Z.to_nat (uint32 (length / size))) fp n) as [F _].
        rewrite Ev in F. exact (F UnknownVR eq_refl). }
    destruct (vr_in _ opaque_vrs); [| intros _; repeat split].
    destruct (fread_object length fp) as [[value fp1] | e | | |] eqn:Ev;
      cbn [bind]; try discriminate;
      [| destruct (fails_only_fread_object [] length fp) as [F _];
         destruct (F e Ev)].
    unfold dcm_element_create. destruct (dcm_element_accepts _);
      cbn [bind]; discriminate.
  - intros (-> & -> & ->). destruct (fread length fp). reflexivity.
Qed.

End OpaqueValues.

Lemma opaque_value_is_the_bytes_witness :
  (4 <= bytes_left eight_bytes ->
   read_element (C := example_collaborators) 1 eight_bytes ob_length_4 0 false =
     Done (mkElement 0x7FE00010 "OB" (Blob [1; 2; 3; 4] 4),
           advance eight_bytes 4, size_t (0 + 4)) /\
   Z.of_nat (List.length [1; 2; 3; 4]) = 4) /\
  (bytes_left eight_bytes < 4 ->
   read_element (C := example_collaborators) 1 eight_bytes ob_length_4 0 false =
     Undefined).
Proof.
  apply (opaque_value_is_the_bytes (C := example_collaborators)
           0 eight_bytes ob_length_4 0 false); reflexivity.
Defined.

Lemma unknown_vr_fails_on_every_stream_witness :
  read_element (C := example_collaborators) 1 two_bytes zz_length_4 0 false =
    Failed UnknownVR <->
  vr_in "ZZ" character_string_vrs = false /\
  numeric_vr zz_length_4 = None /\
  vr_in "ZZ" opaque_vrs = false.
Proof.
  apply (unknown_vr_fails_on_every_stream (C := example_collaborators)
           0 two_bytes zz_length_4 0 false).
  reflexivity.
Defined.

(** ** One element for a tag *)

Lemma dcm_dataset_get_none (dataset : DcmDataSet) (tag : Z) :
  dcm_dataset_get dataset tag = None ->
  existsb (Z.eqb tag) (map element_tag dataset) = false.
Proof.
  induction dataset as [| e rest IH]; simpl; [reflexivity |].
  destruct (Z.eqb_spec (element_tag e) tag) as [Heq | Hne]; [discriminate |].
  intros H. rewrite (IH H).
  destruct (Z.eqb_spec tag (element_tag e)); [congruence | reflexivity].
Qed.

Lemma distinct_app_one (tags : list Z) (t : Z) :
  distinct tags = true -> existsb (Z.eqb t) tags = false ->
  distinct (tags ++ [t]) = true.
Proof.
  induction tags as [| a rest IH]; simpl; [reflexivity |].
  intros Hd Hn.
  apply andb_prop in Hd. destruct Hd as [Ha Hr].
  apply orb_false_elim in Hn. destruct Hn as [Hta Htr].
  rewrite IH by assumption. rewrite existsb_app. simpl.
  apply negb_true_iff in Ha. rewrite Ha.
  rewrite Z.eqb_sym, Hta. reflexivity.
Qed.

Lemma dcm_dataset_insert_done (dataset dataset' : DcmDataSet) (e : Element) :
  dcm_dataset_insert dataset e = Some dataset' ->
  dataset' = dataset ++ [e] /\
  existsb (Z.eqb (element_tag e)) (map element_tag dataset) = false.
Proof.
  unfold dcm_dataset_insert.
  destruct (dcm_dataset_get dataset (element_tag e)) eqn:G; [discriminate |].
  intros [= <-]. split; [reflexivity |]. now apply dcm_dataset_get_none.
Qed.

Lemma dataset_distinct_insert (dataset dataset' : DcmDataSet) (e : Element) :
  dataset_distinct dataset = true -> items_distinct e = true ->
  dcm_dataset_insert dataset e = Some dataset' ->
  dataset_distinct dataset' = true.
Proof.
  unfold dataset_distinct. intros Hd He Hi.
  apply dcm_dataset_insert_done in Hi. destruct Hi as [-> Hnew].
  apply andb_prop in Hd. destruct Hd as [Htags Hitems].
  rewrite map_app, forallb_app. simpl.
  rewrite distinct_app_one, Hitems, He by assumption. reflexivity.
Qed.

Lemma items_distinct_sequence (tag : Z) (vr : string) (items : list DcmDataSet) :
  items_distinct (mkElement tag vr (Sequence items)) =
  forallb dataset_distinct items.
Proof. reflexivity. Qed.

Section UniqueTags.
Context {C : Collaborators}.

Lemma readers_keep_tags_distinct (fuel : nat) :
  (forall fp header n implicit element fp' n',
     read_element fuel fp header n implicit = Done (element, fp', n') ->
     items_distinct element = true /\
     element_tag element = eheader_get_tag header) /\
  (forall fp tag length implicit n_seq value value' fp' n',
     forallb dataset_distinct value = true ->
     read_items fuel fp tag length implicit n_seq value =
       Done (value', fp', n') ->
     forallb dataset_distinct value' = true) /\
  (forall fp tag item_length implicit n_item dataset dataset' fp' n',
     dataset_distinct dataset = true ->
     read_item_elements fuel fp tag item_length implicit n_item dataset =
       Done (dataset', fp', n') ->
     dataset_distinct dataset' = true).
Proof.
  induction fuel as [| fuel (IHe & IHs & IHi)].
  - split; [| split]; intros; discriminate.
  - split; [| split].
    + intros fp header n implicit element fp' n' E.
      cbn [read_element] in E.
      destruct (vr_in (eheader_vr header) character_string_vrs).
      * destruct (_ =? 0); [discriminate |].
        apply bind_done in E. destruct E as ([value fp1] & _ & E).
        destruct (parse_character_string _) as [strings vm].
        destruct (vr_in _ single_string_vrs).
        -- destruct (1 <? vm); [discriminate |].
           destruct strings as [| str strings]; [discriminate |].
           apply bind_done in E. destruct E as (el & Eel & E).
           injection E as <- _ _.
           apply dcm_element_create_done in Eel. destruct Eel as [-> _].
           split; reflexivity.
        -- apply bind_done in E. destruct E as (el & Eel & E).
           injection E as <- _ _.
           apply dcm_element_create_done in Eel. destruct Eel as [-> _].
           split; reflexivity.
      * destruct (eheader_check_vr header "SQ").
        -- destruct (_ =? 0).
           ++ apply bind_done in E. destruct E as (el & Eel & E).
              injection E as <- _ _.
              apply dcm_element_create_done in Eel. destruct Eel as [-> _].
              split; reflexivity.
           ++ apply bind_done in E. destruct E as ([[value fp1] n1] & E1 & E).
              apply bind_done in E. destruct E as (el & Eel & E).
              injection E as <- _ _.
              apply dcm_element_create_done in Eel. destruct Eel as [-> _].
              split; [| reflexivity].
              rewrite items_distinct_sequence.
              eapply IHs; [| exact E1]. reflexivity.
        -- destruct (numeric_vr header) as [[size convert] |].
           ++ apply bind_done in E. destruct E as ([[values fp1] n1] & _ & E).
              apply bind_done in E. destruct E as (el & Eel & E).
              injection E as <- _ _.
              apply dcm_element_create_done in Eel. destruct Eel as [-> _].
              split; reflexivity.
           ++ destruct (vr_in _ opaque_vrs);
                [| destruct (fread _ fp); discriminate].
              apply bind_done in E. destruct E as ([value fp1] & _ & E).
              apply bind_done in E. destruct E as (el & Eel & E).
              injection E as <- _ _.
              apply dcm_element_create_done in Eel. destruct Eel as [-> _].
              split; reflexivity.
    + intros fp tag length implicit n_seq value value' fp' n' Hv E.
      cbn [read_items] in E.
      destruct (n_seq <? length); [| now injection E as <- _ _].
      apply bind_done in E. destruct E as ([[ih fp1] n1] & _ & E).
      destruct (_ =? TAG_SQ_DELIM); [now injection E as <- _ _ |].
      destruct (negb _); [discriminate |].
      apply bind_done in E. destruct E as ([[ds fp2] n2] & E2 & E).
      eapply IHs; [| exact E].
      rewrite forallb_app, Hv. simpl.
      assert (Hds : dataset_distinct ds = true)
        by (eapply IHi; [| exact E2]; reflexivity).
      rewrite Hds. reflexivity.
    + intros fp tag item_length implicit n_item dataset dataset' fp' n' Hd E.
      cbn [read_item_elements] in E.
      destruct (n_item <? item_length); [| now injection E as <- _ _].
      apply bind_done in E. destruct E as ([[probe fp1] n1] & _ & E).
      destruct (probe =? TAG_ITEM_DELIM); [now injection E as <- _ _ |].
      apply bind_done in E. destruct E as ([[eh fp2] n2] & _ & E).
      apply bind_done in E. destruct E as ([[el fp3] n3] & E3 & E).
      apply IHe in E3. destruct E3 as [Hel _].
      destruct (dcm_dataset_insert dataset el) as [ds1 |] eqn:Hi;
        [| discriminate].
      eapply IHi; [| exact E].
      eapply dataset_distinct_insert; eassumption.
Qed.

(** X15.  In an element that [read_element] returns, no Item of a
    Sequence holds two elements with the same tag, at any depth of
    nesting. *)
Theorem items_read_have_distinct_tags
    (fuel : nat) (fp fp' : FILE) (header : EHeader) (n n' : Z)
    (implicit : bool) (element : Element) :
  read_element fuel fp header n implicit = Done (element, fp', n') ->
  items_distinct element = true.
Proof.
  intros E. now apply (readers_keep_tags_distinct fuel) in E.
Qed.

End UniqueTags.

Lemma items_read_have_distinct_tags_witness :
  items_distinct
    (mkElement 0x00400555 "SQ"
       (Sequence [[mkElement 0x00080100 "SH" (Strings ["X"] 1)]])) = true.
Proof.
  apply (items_read_have_distinct_tags (C := example_collaborators)
           5 undefined_length_items (advance undefined_length_items 34)
           sq_undefined_length 0 34 false).
  vm_compute. reflexivity.
Defined.

Section DataSetsRead.
Context {C : Collaborators}.

Lemma read_dataset_elements_keep (fuel loop : nat) :
  forall (fp fp' : FILE) (n : Z) (implicit : bool)
         (dataset dataset' : DcmDataSet) (stopped : stop),
    dataset_distinct dataset = true ->
    forallb dataset_element dataset = true ->
    read_dataset_elements fuel loop fp n implicit dataset =
      Done (dataset', fp', stopped) ->
    dataset_distinct dataset' = true /\
    forallb dataset_element dataset' = true.
Proof.
  induction loop as [| loop IH];
    intros fp fp' n implicit dataset dataset' stopped Hd Hk E; [discriminate |].
  cbn [read_dataset_elements] in E.
  destruct (feof fp); [injection E as <- _ _; now split |].
  destruct (fread 1 fp) as [tmp fp1].
  destruct (List.length tmp =? 0)%nat; [injection E as <- _ _; now split |].
  apply bind_done in E. destruct E as ([[header fp2] n2] & _ & E).
  destruct (eheader_get_tag header =? TAG_TRAILING_PADDING) eqn:Hpad;
    [injection E as <- _ _; now split |].
  destruct (is_pixel_data_tag (eheader_get_tag header)) eqn:Hpix;
    [injection E as <- _ _; now split |].
  destruct (eheader_get_group_number header =? 0x0002) eqn:Hgrp;
    [discriminate |].
  apply bind_done in E. destruct E as ([[element fp3] n3] & Ee & E).
  apply (readers_keep_tags_distinct fuel) in Ee. destruct Ee as [Hel Htag].
  destruct (dcm_dataset_insert dataset element) as [ds1 |] eqn:Hi;
    [| discriminate].
  apply IH in E; [exact E | |].
  - eapply dataset_distinct_insert; eassumption.
  - apply dcm_dataset_insert_done in Hi. destruct Hi as [-> _].
    rewrite forallb_app, Hk. simpl.
    unfold dataset_element, element_group_number. rewrite Htag.
    fold (eheader_get_group_number header). rewrite Hgrp, Hpix, Hpad.
    reflexivity.
Qed.

Lemma read_file_meta_elements_keep (fuel loop : nat) :
  forall (fp fp' : FILE) (size size' group_length : Z)
         (file_meta file_meta' : DcmDataSet),
    dataset_distinct file_meta = true ->
    forallb file_meta_element file_meta = true ->
    read_file_meta_elements fuel loop fp size group_length file_meta =
      Done (file_meta', fp', size') ->
    dataset_distinct file_meta' = true /\
    forallb file_meta_element file_meta' = true.
Proof.
  induction loop as [| loop IH];
    intros fp fp' size size' group_length file_meta file_meta' Hd Hk E;
    [discriminate |].
  cbn [read_file_meta_elements] in E.
  apply bind_done in E. destruct E as ([[header fp1] n1] & _ & E).
  destruct (eheader_get_group_number header =? 0x0002) eqn:Hgrp;
    cbn [negb] in E; [| injection E as <- _ _; now split].
  apply bind_done in E. destruct E as ([[element fp2] n2] & Ee & E).
  apply (readers_keep_tags_distinct fuel) in Ee. destruct Ee as [Hel Htag].
  destruct (dcm_dataset_insert file_meta element) as [fm1 |] eqn:Hi;
    [| discriminate].
  assert (Hd1 : dataset_distinct fm1 = true)
    by (eapply dataset_distinct_insert; eassumption).
  assert (Hk1 : forallb file_meta_element fm1 = true).
  { apply dcm_dataset_insert_done in Hi. destruct Hi as [-> _].
    rewrite forallb_app, Hk. simpl.
    unfold file_meta_element, element_group_number. rewrite Htag.
    fold (eheader_get_group_number header). rewrite Hgrp. reflexivity. }
  destruct (group_length <=? n2); [injection E as <- _ _; now split |].
  eapply IH; eassumption.
Qed.

(** X16.  The Data Set that [dcm_file_read_metadata] returns holds no tag
    twice, neither at the top nor in an Item of a Sequence, no element of
    group 0x0002, no Pixel Data, Float Pixel Data or Double Float Pixel
    Data Element and no trailing padding. *)
Theorem metadata_holds_each_tag_once
    (fuel : nat) (file file' : DcmFile) (dataset : DcmDataSet) :
  dcm_file_read_metadata fuel file = Done (dataset, file') ->
  dataset_distinct dataset = true /\
  forallb dataset_element dataset = true.
Proof.
  unfold dcm_file_read_metadata, read_metadata_trace. intros E.
  apply bind_done in E. destruct E as ([[ds file1] stopped] & E & E').
  injection E' as <- _.
  apply bind_done in E. destruct E as (file0 & _ & E).
  apply bind_done in E. destruct E as ([[ds0 fp1] stopped0] & E & E').
  injection E' as <- _ _.
  eapply read_dataset_elements_keep; [| | exact E]; reflexivity.
Qed.

(** X17.  The File Meta Information that [dcm_file_read_file_meta] returns
    holds elements of group 0x0002 only, each tag once, and among them the
    Transfer Syntax UID (0002,0010), whose first value is the one that the
    handle keeps. *)
Theorem file_meta_holds_group_2
    (fuel : nat) (file file' : DcmFile) (file_meta : DcmDataSet) :
  dcm_file_read_file_meta fuel file = Done (file_meta, file') ->
  dataset_distinct file_meta = true /\
  forallb file_meta_element file_meta = true /\
  exists (element : Element) (uid : string),
    dcm_dataset_get file_meta 0x00020010 = Some element /\
    dcm_element_get_value_string "UI" element 0 = Done uid /\
    f_transfer_syntax_uid file' = Some uid.
Proof.
  unfold dcm_file_read_file_meta. intros E.
  destruct (fread 128 (f_fp file)) as [preamble fp0].
  destruct (fread 4 fp0) as [prefix fp1].
  apply bind_done in E. destruct E as (found & _ & E).
  destruct (negb found); [discriminate |].
  apply bind_done in E. destruct E as ([[h1 fp2] n2] & _ & E).
  apply bind_done in E. destruct E as ([[e1 fp3] n3] & _ & E).
  apply bind_done in E. destruct E as (group_length & _ & E).
  apply bind_done in E. destruct E as ([[h2 fp4] n4] & _ & E).
  apply bind_done in E. destruct E as ([[e2 fp5] n5] & _ & E).
  apply bind_done in E. destruct E as ([[fm fp6] n6] & E6 & E).
  destruct (dcm_dataset_get fm 0x00020010) as [element |] eqn:G;
    [| discriminate].
  apply bind_done in E. destruct E as (uid & Euid & E).
  injection E as <- <-.
  apply read_file_meta_elements_keep in E6; [| reflexivity | reflexivity].
  destruct E6 as [Hd Hk].
  split; [exact Hd |]. split; [exact Hk |].
  exists element, uid. repeat split; assumption.
Qed.

End DataSetsRead.

Lemma metadata_holds_each_tag_once_witness :
  dataset_distinct implicit_metadata = true /\
  forallb dataset_element implicit_metadata = true.
Proof.
  apply (metadata_holds_each_tag_once (C := example_collaborators)
           50 (dcm_file_create implicit_file) implicit_read_handle
           implicit_metadata).
  vm_compute. reflexivity.
Defined.

Lemma file_meta_holds_group_2_witness :
  dataset_distinct
    [mkElement 0x00020010 "UI" (Strings ["1.2.840.10008.1.2"] 1)] = true /\
  forallb file_meta_element
    [mkElement 0x00020010 "UI" (Strings ["1.2.840.10008.1.2"] 1)] = true /\
  exists (element : Element) (uid : string),
    dcm_dataset_get
      [mkElement 0x00020010 "UI" (Strings ["1.2.840.10008.1.2"] 1)]
      0x00020010 = Some element /\
    dcm_element_get_value_string "UI" element 0 = Done uid /\
    f_transfer_syntax_uid implicit_meta_handle = Some uid.
Proof.
  apply (file_meta_holds_group_2 (C := example_collaborators)
           50 (dcm_file_create implicit_file) implicit_meta_handle
           [mkElement 0x00020010 "UI" (Strings ["1.2.840.10008.1.2"] 1)]).
  vm_compute. reflexivity.
Defined.

(** ** The messages of the file readers *)

(** The comparison fails exactly when a byte that was read differs from
    the character at its place. *)
Lemma strcmp_read_false (s : string) :
  forall got : list Z,
    (List.length got <= String.length s)%nat ->
    (strcmp_read got s = Done false <->
     unsigned_chars got <> firstn (List.length got) (bytes_of_string s)).
Proof.
  induction s as [| c s IH]; intros got Hlen.
  - destruct got; [| simpl in Hlen; lia]. simpl.
    split; [discriminate | intros H; now destruct H].
  - destruct got as [| b got]; simpl.
    + split; [discriminate | intros H; now destruct H].
    + simpl in Hlen.
      destruct (Z.eqb_spec (b mod 256) (byte_of_char c)) as [Hb | Hb].
      * rewrite IH by lia. rewrite Hb. split.
        -- intros H [= H']. contradiction.
        -- intros H H'. apply H. fold (unsigned_chars got). now rewrite H'.
      * split; [| reflexivity]. intros _ [= H' _]. contradiction.
Qed.

Lemma fread_remaining (count : Z) (fp fp0 : FILE) (got : list Z) :
  fread count fp = (got, fp0) ->
  remaining fp0 = skipn (Z.to_nat count) (remaining fp).
Proof.
  unfold fread. intros [= <- <-]. unfold remaining. cbn [position contents].
  set (rest := skipn (N.to_nat (position fp)) (contents fp)).
  replace (N.to_nat (position fp + N.of_nat (List.length (firstn (Z.to_nat count) rest))))
    with (List.length (firstn (Z.to_nat count) rest) + N.to_nat (position fp))%nat
    by lia.
  rewrite <- skipn_skipn. fold rest.
  rewrite length_firstn.
  destruct (Nat.le_ge_cases (Z.to_nat count) (List.length rest)) as [Hle | Hge].
  - now rewrite Nat.min_l.
  - rewrite Nat.min_r by exact Hge.
    rewrite !skipn_all2; [reflexivity | lia | lia].
Qed.

Lemma fails_only_within {A : Type} (errors : list error) (m : outcome A) :
  fails_only errors m -> fails_within errors m.
Proof. now intros [H _]. Qed.

Lemma get_value_number_fails_within (errors : list error) (vr : string)
    (element : Element) (index : nat) :
  fails_within errors (dcm_element_get_value_number vr element index).
Proof.
  apply fails_within_other. intros e.
  destruct element as [tag vr' []]; simpl; try discriminate.
  destruct (String.eqb vr' vr); [| discriminate].
  destruct (nth_error values index); discriminate.
Qed.

Lemma fails_within_more {A : Type} (errors errors' : list error)
    (m : outcome A) :
  incl errors errors' -> fails_within errors m -> fails_within errors' m.
Proof. intros Hincl Hm e E. apply Hincl. now apply Hm. Qed.

Section FileMessages.
Context {C : Collaborators}.

Lemma read_element_header_fails_within (fp : FILE) (n : Z) (implicit : bool) :
  fails_within read_element_errors (read_element_header fp n implicit).
Proof.
  apply fails_only_within, fails_only_read_element_header; simpl; tauto.
Qed.

Lemma read_element_fails_within
    (fuel : nat) (fp : FILE) (header : EHeader) (n : Z) (implicit : bool) :
  fails_within read_element_errors (read_element fuel fp header n implicit).
Proof. apply fails_only_within, (readers_fail_only fuel). Qed.

Lemma read_file_meta_elements_fails_within (fuel loop : nat) :
  forall (fp : FILE) (size group_length : Z) (file_meta : DcmDataSet),
    fails_within read_element_errors
      (read_file_meta_elements fuel loop fp size group_length file_meta).
Proof.
  induction loop as [| loop IH]; intros fp size group_length file_meta.
  - apply fails_within_other. discriminate.
  - cbn [read_file_meta_elements].
    apply fails_within_bind.
    { apply fails_within_other. intros e.
      destruct (read_element_header fp size false); discriminate. }
    intros [[header fp1] n1].
    destruct (negb _); [apply fails_within_done |].
    apply fails_within_bind; [apply read_element_fails_within |].
    intros [[element fp2] n2].
    destruct (dcm_dataset_insert file_meta element).
    + destruct (group_length <=? n2); [apply fails_within_done | apply IH].
    + apply fails_within_failed. simpl. tauto.
Qed.

Lemma fails_only_more {A : Type} (errors errors' : list error)
    (m : outcome A) :
  incl errors errors' -> fails_only errors m -> fails_only errors' m.
Proof.
  intros Hincl [Hm Ha]. split; [| exact Ha].
  eapply fails_within_more; eassumption.
Qed.

Lemma read_dataset_elements_fails_only (fuel loop : nat) :
  forall (fp : FILE) (n : Z) (implicit : bool) (dataset : DcmDataSet),
    fails_only (UnexpectedFileMetaGroup :: read_element_errors)
      (read_dataset_elements fuel loop fp n implicit dataset).
Proof.
  induction loop as [| loop IH]; intros fp n implicit dataset.
  - apply fails_only_out_of_fuel.
  - cbn [read_dataset_elements].
    destruct (feof fp); [apply fails_only_done |].
    destruct (fread 1 fp) as [tmp fp1].
    destruct (List.length tmp =? 0)%nat; [apply fails_only_done |].
    apply fails_only_bind.
    { eapply fails_only_more;
        [| apply (fails_only_read_element_header read_element_errors);
           simpl; tauto].
      apply incl_tl, incl_refl. }
    intros [[header fp2] n2] _.
    destruct (_ =? TAG_TRAILING_PADDING); [apply fails_only_done |].
    destruct (is_pixel_data_tag _); [apply fails_only_done |].
    destruct (_ =? 0x0002); [apply fails_only_failed; simpl; tauto |].
    apply fails_only_bind.
    { eapply fails_only_more; [| apply (readers_fail_only fuel)].
      apply incl_tl, incl_refl. }
    intros [[element fp3] n3] _.
    destruct (dcm_dataset_insert dataset element); [apply IH |].
    apply fails_only_failed. simpl. tauto.
Qed.

(** What is left of [dcm_file_read_file_meta] once the prefix has been
    found fails with the messages of [read_element] only. *)
Lemma file_meta_group_fails_within
    (fuel : nat) (file : DcmFile) (fp : FILE) :
  fails_within read_element_errors
    ('(header, fp, size) <- read_element_header fp 0 false ;;
     '(element, fp, size) <- read_element fuel fp header size false ;;
     group_length <- dcm_element_get_value_number "UL" element 0 ;;
     '(header, fp, size) <- read_element_header fp size false ;;
     '(element, fp, size) <- read_element fuel fp header size false ;;
     '(file_meta, fp, size) <-
        read_file_meta_elements fuel fuel fp size group_length [] ;;
     let offset := ftell fp in
     match dcm_dataset_get file_meta 0x00020010 with
     | None => Aborted
     | Some element =>
         transfer_syntax_uid <- dcm_element_get_value_string "UI" element 0 ;;
         Done (file_meta,
               mkDcmFile fp (f_meta file) offset (Some transfer_syntax_uid)
                         (f_pixel_data_offset file)
                         (f_extended_offset_table file))
     end).
Proof.
  apply fails_within_bind; [apply read_element_header_fails_within |].
  intros [[h1 fp2] n2].
  apply fails_within_bind; [apply read_element_fails_within |].
  intros [[e1 fp3] n3].
  apply fails_within_bind; [apply get_value_number_fails_within |].
  intros group_length.
  apply fails_within_bind; [apply read_element_header_fails_within |].
  intros [[h2 fp4] n4].
  apply fails_within_bind; [apply read_element_fails_within |].
  intros [[e2 fp5] n5].
  apply fails_within_bind; [apply read_file_meta_elements_fails_within |].
  intros [[fm fp6] n6].
  destruct (dcm_dataset_get fm 0x00020010).
  - apply fails_within_bind; [apply get_value_string_fails_within |].
    intros uid. apply fails_within_done.
  - apply fails_within_other. discriminate.
Qed.

Lemma read_file_meta_fails_within (fuel : nat) (file : DcmFile) :
  fails_within read_file_meta_errors (dcm_file_read_file_meta fuel file).
Proof.
  unfold dcm_file_read_file_meta.
  destruct (fread 128 (f_fp file)) as [preamble fp0].
  destruct (fread 4 fp0) as [prefix fp1].
  apply fails_within_bind; [apply strcmp_read_fails_within |].
  intros found.
  destruct (negb found); [apply fails_within_failed; simpl; tauto |].
  eapply fails_within_more; [| apply file_meta_group_fails_within].
  apply incl_tl, incl_refl.
Qed.

(** X18.  [dcm_file_read_file_meta] fails with the message of the missing
    prefix exactly when, of the up to four bytes that the stream holds
    after the 128 bytes of the preamble, one differs from the character of
    DICM at its place: also on a file that ends inside the prefix, when a
    byte that was read differs (a file that ends after bytes that agree
    with DICM has no defined result).  Every other failure has one of the
    nine messages of [read_element]. *)
Theorem prefix_is_checked_first (fuel : nat) (file : DcmFile) :
  (dcm_file_read_file_meta fuel file = Failed MissingMagic <->
   unsigned_chars (prefix_bytes (f_fp file)) <>
   firstn (List.length (prefix_bytes (f_fp file))) (bytes_of_string "DICM")) /\
  (forall e : error,
     dcm_file_read_file_meta fuel file = Failed e ->
     e = MissingMagic \/ In e read_element_errors).
Proof.
  split;
    [| intros e E; apply read_file_meta_fails_within in E;
       destruct E as [<- | E]; [left; reflexivity | right; exact E]].
  unfold dcm_file_read_file_meta, prefix_bytes.
  destruct (fread 128 (f_fp file)) as [preamble fp0] eqn:E0.
  apply fread_remaining in E0. change (Z.to_nat 128) with 128%nat in E0.
  destruct (fread 4 fp0) as [prefix fp1] eqn:E1.
  assert (Hprefix : prefix = firstn 4 (skipn 128 (remaining (f_fp file)))).
  { rewrite <- E0. unfold fread in E1. now injection E1 as <- _. }
  rewrite <- Hprefix.
  assert (Hlen : (List.length prefix <= String.length "DICM")%nat).
  { pose proof (fread_length _ _ _ _ E1). simpl. lia. }
  rewrite <- (strcmp_read_false "DICM" prefix Hlen).
  destruct (strcmp_read prefix "DICM") as [[|] | e | | |] eqn:Ef;
    cbn [bind negb].
  - split; [| discriminate].
    intros E. apply file_meta_group_fails_within in E.
    simpl in E. intuition discriminate.
  - split; reflexivity.
  - destruct (strcmp_read_fails_within [] "DICM" prefix e Ef).
  - split; discriminate.
  - split; discriminate.
  - split; discriminate.
Qed.

(** X19.  When [dcm_file_read_metadata] fails, the first message is the
    one of an element of group 0x0002 in the Data Set, the one of the
    missing prefix, or one of the nine of [read_element].  On a handle
    whose File Meta Information has been read, it neither fails for the
    prefix nor stops in an [assert]. *)
Theorem read_metadata_messages (fuel : nat) (file : DcmFile) :
  (forall e : error,
     dcm_file_read_metadata fuel file = Failed e ->
     In e read_metadata_errors) /\
  (f_offset file <> 0 ->
   dcm_file_read_metadata fuel file <> Failed MissingMagic /\
   dcm_file_read_metadata fuel file <> Aborted).
Proof.
  unfold dcm_file_read_metadata, read_metadata_trace. split.
  - apply fails_within_bind; [| intros [[ds f] s]; apply fails_within_done].
    apply fails_within_bind.
    + unfold ensure_file_meta. destruct (f_offset file =? 0);
        [| apply fails_within_done].
      apply fails_within_bind; [| intros [fm f]; apply fails_within_done].
      eapply fails_within_more; [| apply read_file_meta_fails_within].
      apply incl_tl, incl_refl.
    + intros file1.
      apply fails_within_bind; [| intros [[ds f] s]; apply fails_within_done].
      eapply fails_within_more;
        [| apply fails_only_within, read_dataset_elements_fails_only].
      unfold read_metadata_errors, read_file_meta_errors.
      intros e [<- | Hin]; simpl; [tauto |]. simpl in Hin. tauto.
  - intros Hoff. unfold ensure_file_meta.
    destruct (Z.eqb_spec (f_offset file) 0) as [| _]; [contradiction |].
    cbn [bind].
    set (fp := fseek (f_fp file) (f_offset file) SEEK_SET).
    set (implicit := implicit_mode (f_transfer_syntax_uid file)).
    destruct (read_dataset_elements_fails_only fuel fuel fp 0 implicit [])
      as [Hw Ha].
    destruct (read_dataset_elements fuel fuel fp 0 implicit [])
      as [[[ds fp'] stopped] | e | | |]; cbn [bind]; try (split; discriminate).
    + split; [| discriminate]. intros [= ->].
      specialize (Hw MissingMagic eq_refl). simpl in Hw.
      intuition discriminate.
    + contradiction.
Qed.

End FileMessages.

(** ** The Basic Offset Table *)

Lemma to_signed_64_small (v : Z) : 0 <= v < 2 ^ 63 -> to_signed 64 v = v.
Proof.
  intros Hv. unfold to_signed.
  rewrite Z.mod_small by lia.
  destruct (Z.ltb_spec v (2 ^ (64 - 1))) as [_ | Hge]; [reflexivity |].
  change (2 ^ (64 - 1)) with (2 ^ 63) in Hge. lia.
Qed.

Lemma get_num_frames_range (metadata : DcmDataSet) (num_frames : Z) :
  get_num_frames metadata = Done num_frames -> 0 <= num_frames < 2 ^ 32.
Proof.
  unfold get_num_frames.
  destruct (dcm_dataset_get metadata 0x00280008); [| discriminate].
  intros E. apply bind_done in E. destruct E as (value & _ & E).
  injection E as <-. apply uint32_range.
Qed.

Lemma fread_enough (count : Z) (fp : FILE) :
  0 <= count -> count <= Z.of_nat (List.length (remaining fp)) ->
  fread count fp = (firstn (Z.to_nat count) (remaining fp), advance fp count).
Proof.
  intros H0 Hle.
  pose proof (fread_object_enough count fp H0 Hle) as E.
  unfold fread_object in E. destruct (fread count fp) as [got fp'].
  destruct (_ =? count); [| discriminate]. now injection E as -> ->.
Qed.

(** The bytes of [tmp_value] after a read, and their number. *)
Lemma fread_into_done (object : option (list Z)) (got bytes : list Z) :
  (List.length got <= 4)%nat ->
  match object with
  | Some old => List.length old = 4%nat
  | None => True
  end ->
  fread_into 4 object got = Done bytes ->
  List.length bytes = 4%nat /\
  (List.length got = 4%nat -> bytes = got).
Proof.
  unfold fread_into. intros Hgot Hold E.
  destruct (Z.eqb_spec (Z.of_nat (List.length got)) 4) as [H4 | H4].
  - injection E as <-. split; [lia | reflexivity].
  - destruct object as [old |]; [| discriminate]. injection E as <-.
    rewrite length_app, length_skipn. split; lia.
Qed.

(** The loop over the value of the BOT Item returns [count] values of 32
    bits, none of them the tag of an Item, also when the stream ends
    before the last of them. *)
Lemma read_bot_values_entries (count : nat) :
  forall (fp fp' : FILE) (tmp_value : option (list Z)) (offsets : list Z),
    match tmp_value with
    | Some old => List.length old = 4%nat
    | None => True
    end ->
    read_bot_values count fp tmp_value = Done (offsets, fp') ->
    List.length offsets = count /\ forallb bot_entry offsets = true.
Proof.
  induction count as [| count IH]; intros fp fp' tmp_value offsets Hold E.
  - injection E as <- _. split; reflexivity.
  - cbn [read_bot_values] in E.
    destruct (fread 4 fp) as [got fp1] eqn:Eg.
    apply fread_length in Eg. change (Z.to_nat 4) with 4%nat in Eg.
    apply bind_done in E. destruct E as (bytes & Eb & E).
    apply fread_into_done in Eb; [| exact Eg | exact Hold].
    destruct Eb as [Hb _].
    assert (Hv : 0 <= le_decode bytes < 2 ^ 32).
    { pose proof (le_decode_range bytes) as Hr. rewrite Hb in Hr. exact Hr. }
    assert (Hu : uint64 (le_decode bytes) = le_decode bytes)
      by (unfold uint64; apply Z.mod_small; lia).
    rewrite Hu in E.
    destruct (Z.eqb_spec (le_decode bytes) TAG_ITEM) as [| Hitem];
      [discriminate |].
    apply bind_done in E. destruct E as ([rest fp2] & E2 & E).
    injection E as <- _.
    apply IH in E2; [| exact Hb]. destruct E2 as [Hlen Hall].
    rewrite to_signed_64_small by lia.
    cbn [List.length forallb]. rewrite Hlen, Hall. split; [reflexivity |].
    unfold bot_entry.
    destruct (Z.leb_spec 0 (le_decode bytes)); [| lia].
    destruct (Z.ltb_spec (le_decode bytes) (2 ^ 32)); [| lia].
    destruct (Z.eqb_spec (le_decode bytes) TAG_ITEM); [contradiction |].
    reflexivity.
Qed.

(** On a stream that holds them, the values are those of the stream. *)
Lemma read_bot_values_whole (count : nat) :
  forall (fp fp' : FILE) (tmp_value : option (list Z)) (offsets : list Z),
    4 * Z.of_nat count <= bytes_left fp ->
    read_bot_values count fp tmp_value = Done (offsets, fp') ->
    offsets = decode_values 4 (fun v => v) count (remaining fp).
Proof.
  induction count as [| count IH]; intros fp fp' tmp_value offsets Hav E.
  - now injection E as <- _.
  - cbn [read_bot_values] in E. unfold bytes_left in Hav.
    rewrite fread_enough in E by lia.
    set (got := firstn (Z.to_nat 4) (remaining fp)) in *.
    assert (Hl : List.length got = 4%nat) by (apply firstn_length_le; lia).
    assert (Hfull : fread_into 4 tmp_value got = Done got).
    { unfold fread_into. rewrite Hl. reflexivity. }
    rewrite Hfull in E. cbn [bind] in E.
    assert (Hv : 0 <= le_decode got < 2 ^ 32).
    { pose proof (le_decode_range got) as Hr. rewrite Hl in Hr. exact Hr. }
    assert (Hu : uint64 (le_decode got) = le_decode got)
      by (unfold uint64; apply Z.mod_small; lia).
    rewrite Hu in E.
    destruct (le_decode got =? TAG_ITEM); [discriminate |].
    apply bind_done in E. destruct E as ([rest fp2] & E2 & E).
    injection E as <- _.
    apply IH in E2.
    + rewrite E2, to_signed_64_small, remaining_advance by lia. reflexivity.
    + unfold bytes_left. rewrite remaining_advance, length_skipn by lia. lia.
Qed.

Section TableRead.
Context {C : Collaborators}.

(** X20.  A table that [dcm_file_read_bot] returns belongs to an
    encapsulated transfer syntax and to a handle whose Pixel Data offset
    is set; it has as many offsets as the Number of Frames says, which is
    not 0, each a 32-bit value that is not the tag of an Item, also when
    the file ends inside the table.  When the file holds four bytes for
    every frame after the header of the Pixel Data Element (8 or 12
    bytes) and the header of the first Item (8 bytes), the offsets are
    the 32-bit values of these bytes. *)
Theorem bot_read_is_the_first_item
    (file : DcmFile) (metadata : DcmDataSet) (bot : DcmBOT) :
  dcm_file_read_bot file metadata = Done bot ->
  let num_frames := dcm_bot_get_num_frames bot in
  let pixel_data := fseek (f_fp file) (f_pixel_data_offset file) SEEK_SET in
  dcm_is_encapsulated_transfer_syntax (f_transfer_syntax_uid file) = true /\
  f_pixel_data_offset file <> 0 /\
  get_num_frames metadata = Done num_frames /\
  0 < num_frames < 2 ^ 32 /\
  Z.of_nat (List.length (dcm_bot_offsets bot)) = num_frames /\
  forallb bot_entry (dcm_bot_offsets bot) = true /\
  exists header_size : Z,
    (header_size = 8 \/ header_size = 12) /\
    (4 * num_frames <= bytes_left (advance pixel_data (header_size + 8)) ->
     dcm_bot_offsets bot =
       decode_values 4 (fun v => v) (Z.to_nat num_frames)
         (remaining (advance pixel_data (header_size + 8)))).
Proof.
  unfold dcm_file_read_bot. intros E.
  destruct (dcm_is_encapsulated_transfer_syntax _) eqn:Henc;
    cbn [negb] in E; [| discriminate].
  apply bind_done in E. destruct E as (num_frames & Enum & E).
  pose proof (get_num_frames_range _ _ Enum) as Hrange.
  destruct (Z.eqb_spec num_frames 0) as [| Hnz]; [discriminate |].
  destruct (Z.eqb_spec (f_pixel_data_offset file) 0) as [| Hpdo];
    [discriminate |].
  apply bind_done in E. destruct E as ([[eheader fp1] n1] & E1 & E).
  assert (E1' : read_element_header
                  (fseek (f_fp file) (f_pixel_data_offset file) SEEK_SET)
                  0 false = Done (eheader, fp1, n1)).
  { destruct (read_element_header _ 0 false); simpl in E1;
      try discriminate; exact E1. }
  apply read_element_header_done in E1'.
  destruct (negb _); [discriminate |].
  apply bind_done in E. destruct E as ([[iheader fp2] n2] & E2 & E).
  apply read_item_header_done in E2.
  destruct (negb _); [discriminate |].
  destruct (0 <? uint32 (iheader_get_length iheader)).
  - apply bind_done in E. destruct E as ([offsets fp3] & E3 & E).
    injection E as <-. cbn [dcm_bot_create dcm_bot_get_num_frames
                            dcm_bot_offsets].
    destruct (read_bot_values_entries _ _ _ None _ I E3) as [Hlen Hall].
    split; [reflexivity |]. split; [exact Hpdo |]. split; [exact Enum |].
    split; [lia |]. split; [lia |]. split; [exact Hall |].
    destruct E1' as [-> | ->]; [exists 8 | exists 12];
      (split; [tauto |]); intros Hav;
      rewrite E2, advance_advance in E3 by lia;
      (eapply read_bot_values_whole; [| exact E3]);
      rewrite Z2Nat.id by lia; exact Hav.
  - destruct (dcm_dataset_get metadata 0x7FE00001); [| discriminate].
    destruct (dcm_element_get_value_OV e); try discriminate.
    simpl in E. destruct (read_extended_offsets _ _ _); discriminate.
Qed.

End TableRead.

Lemma bot_read_is_the_first_item_witness :
  @dcm_is_encapsulated_transfer_syntax example_collaborators
    (f_transfer_syntax_uid cut_bot_handle) = true /\
  f_pixel_data_offset cut_bot_handle <> 0 /\
  get_num_frames encapsulated_metadata = Done 3 /\
  0 < 3 < 2 ^ 32 /\
  Z.of_nat (List.length [0; 1024; 1024]) = 3 /\
  forallb bot_entry [0; 1024; 1024] = true /\
  exists header_size : Z,
    (header_size = 8 \/ header_size = 12) /\
    (4 * 3 <=
     bytes_left
       (advance (fseek (f_fp cut_bot_handle)
                   (f_pixel_data_offset cut_bot_handle) SEEK_SET)
          (header_size + 8)) ->
     [0; 1024; 1024] =
       decode_values 4 (fun v => v) (Z.to_nat 3)
         (remaining
            (advance (fseek (f_fp cut_bot_handle)
                        (f_pixel_data_offset cut_bot_handle) SEEK_SET)
               (header_size + 8)))).
Proof.
  apply (bot_read_is_the_first_item (C := example_collaborators)
           cut_bot_handle encapsulated_metadata
           (dcm_bot_create [0; 1024; 1024] 3)).
  vm_compute. reflexivity.
Defined.

(** ** The table that is built *)

Lemma read_item_header_count (fp fp' : FILE) (n n' : Z) (header : IHeader) :
  read_item_header fp n = Done (header, fp', n') -> n' = size_t (n + 8).
Proof.
  unfold read_item_header, read_tag. intros E.
  apply bind_done in E. destruct E as ([[tag fp1] n1] & E1 & E).
  apply bind_done in E1. destruct E1 as ([g fp01] & _ & E1).
  apply bind_done in E1. destruct E1 as ([e fp02] & _ & E1).
  injection E1 as _ _ <-.
  apply bind_done in E. destruct E as ([len fp2] & _ & E).
  apply bind_done in E. destruct E as (h & _ & E).
  injection E as _ _ <-.
  now rewrite !size_t_add.
Qed.

Lemma asserted_done {A : Type} (m : outcome A) (a : A) :
  asserted m = Done a -> m = Done a.
Proof. destruct m; simpl; intros E; try discriminate; exact E. Qed.

Lemma counted_offsets_succ (current_offset : Z) (count : nat) :
  counted_offsets current_offset (S count) =
  to_signed 64 (size_t (current_offset + 8))
  :: counted_offsets (size_t (current_offset + 8)) count.
Proof.
  unfold counted_offsets. cbn [seq map]. f_equal.
  rewrite <- seq_shift, map_map. apply map_ext. intros k.
  rewrite size_t_add. do 2 f_equal. lia.
Qed.

(** The loop over the Frame Items records, for every Item, the count of
    the bytes of the Item headers read so far: the lengths of the Items
    and the position of the stream do not come into it. *)
Lemma scan_frame_items_done (loop : nat) :
  forall (fp : FILE) (current_offset num_frames i : Z)
         (offsets offsets' : list Z) (i' : Z),
    0 <= i -> num_frames < 2 ^ 64 ->
    scan_frame_items loop fp current_offset num_frames i offsets =
      Done (offsets', i') ->
    exists count : nat,
      i' = i + Z.of_nat count /\
      offsets' = offsets ++ counted_offsets current_offset count.
Proof.
  induction loop as [| loop IH];
    intros fp c num_frames i offsets offsets' i' Hi Hn E; [discriminate |].
  cbn [scan_frame_items] in E.
  apply bind_done in E. destruct E as ([[ih fp1] c1] & E1 & E).
  apply asserted_done, read_item_header_count in E1. subst c1.
  assert (Hstop : Done (offsets, i) = Done (offsets', i') ->
                  exists count : nat,
                    i' = i + Z.of_nat count /\
                    offsets' = offsets ++ counted_offsets c count).
  { intros [= <- <-]. exists 0%nat. split; [lia |].
    unfold counted_offsets. simpl. now rewrite app_nil_r. }
  destruct (_ =? TAG_SQ_DELIM); [now apply Hstop |].
  destruct (negb _); [discriminate |].
  destruct (feof fp1); [now apply Hstop |].
  destruct (Z.leb_spec num_frames i) as [| Hlt]; [discriminate |].
  assert (Hu : uint64 (i + 1) = i + 1)
    by (unfold uint64; apply Z.mod_small; lia).
  rewrite Hu in E.
  apply IH in E; [| lia | exact Hn].
  destruct E as (count & -> & ->).
  exists (S count). split; [lia |].
  rewrite counted_offsets_succ, <- app_assoc. reflexivity.
Qed.

Section TableBuilt.
Context {C : Collaborators}.

(** X21.  For an encapsulated transfer syntax, the table that
    [dcm_file_build_bot] returns holds, for the Number of Frames [N] of
    the metadata, the [N] offsets [c + 8], [c + 16], ..., [c + 8 * N]
    modulo 2^64, where [c] is what the counter [current_offset] held when
    the function started: the lengths of the Frame Items are skipped in
    the stream and never added to the counter. *)
Theorem table_built_counts_item_headers
    (current_offset : Z) (file : DcmFile) (metadata : DcmDataSet)
    (bot : DcmBOT) :
  dcm_is_encapsulated_transfer_syntax (f_transfer_syntax_uid file) = true ->
  dcm_file_build_bot current_offset file metadata = Done bot ->
  let num_frames := dcm_bot_get_num_frames bot in
  get_num_frames metadata = Done num_frames /\
  0 < num_frames < 2 ^ 32 /\
  dcm_bot_offsets bot =
    counted_offsets current_offset (Z.to_nat num_frames).
Proof.
  intros Henc E. unfold dcm_file_build_bot in E.
  apply bind_done in E. destruct E as (num_frames & Enum & E).
  pose proof (get_num_frames_range _ _ Enum) as Hrange.
  destruct (Z.eqb_spec num_frames 0) as [| Hnz]; [discriminate |].
  destruct (f_pixel_data_offset file =? 0); [discriminate |].
  apply bind_done in E. destruct E as ([[eheader fp1] n1] & _ & E).
  destruct (negb _); [discriminate |].
  rewrite Henc in E.
  apply bind_done in E. destruct E as ([[iheader fp2] n2] & _ & E).
  destruct (negb _); [discriminate |].
  apply bind_done in E. destruct E as ([offsets i] & Escan & E).
  destruct (Z.eqb_spec i num_frames) as [-> | _]; cbn [negb] in E;
    [| discriminate].
  injection E as <-. cbn [dcm_bot_create dcm_bot_get_num_frames dcm_bot_offsets].
  apply scan_frame_items_done in Escan; [| lia | lia].
  destruct Escan as (count & Hcount & ->).
  split; [exact Enum |]. split; [lia |].
  replace (Z.to_nat num_frames) with count by lia. reflexivity.
Qed.

(** X22.  For a transfer syntax that is not encapsulated, the table that
    [dcm_file_build_bot] returns has one offset for each of the frames
    that the Number of Frames counts; the offset of the frame with index
    [k] from 0 is [k * rows * columns * samples per pixel], reduced to 64
    bits, from the pixel description of the metadata, and the first one is
    0. *)
Theorem native_table_is_computed
    (current_offset : Z) (file : DcmFile) (metadata : DcmDataSet)
    (bot : DcmBOT) :
  dcm_is_encapsulated_transfer_syntax (f_transfer_syntax_uid file) = false ->
  dcm_file_build_bot current_offset file metadata = Done bot ->
  let num_frames := dcm_bot_get_num_frames bot in
  get_num_frames metadata = Done num_frames /\
  0 < num_frames < 2 ^ 32 /\
  Z.of_nat (List.length (dcm_bot_offsets bot)) = num_frames /\
  nth 0 (dcm_bot_offsets bot) 0 = 0 /\
  exists desc : PixelDescription,
    create_pixel_description metadata = Done desc /\
    forall k : nat,
      Z.of_nat k < num_frames ->
      nth k (dcm_bot_offsets bot) 0 =
      to_signed 64
        (uint64 (Z.of_nat k * rows desc * columns desc *
                 samples_per_pixel desc)).
Proof.
  intros Henc E. unfold dcm_file_build_bot in E.
  apply bind_done in E. destruct E as (num_frames & Enum & E).
  pose proof (get_num_frames_range _ _ Enum) as Hrange.
  destruct (Z.eqb_spec num_frames 0) as [| Hnz]; [discriminate |].
  destruct (f_pixel_data_offset file =? 0); [discriminate |].
  apply bind_done in E. destruct E as ([[eheader fp1] n1] & _ & E).
  destruct (negb _); [discriminate |].
  rewrite Henc in E.
  destruct (create_pixel_description metadata) as [desc | | | |];
    try discriminate.
  injection E as <-. cbn [dcm_bot_create dcm_bot_get_num_frames dcm_bot_offsets].
  assert (Hlen : forall i count, List.length (native_offsets desc i count) = count).
  { intros i count. revert i. induction count as [| count IH]; intros i;
      simpl; [reflexivity | now rewrite IH]. }
  split; [exact Enum |]. split; [lia |]. split; [rewrite Hlen; lia |].
  split.
  - rewrite native_offsets_nth by lia. reflexivity.
  - exists desc. split; [reflexivity |]. intros k Hk.
    rewrite native_offsets_nth by lia. reflexivity.
Qed.

End TableBuilt.

Lemma table_built_counts_item_headers_witness :
  get_num_frames one_frame_metadata = Done 1 /\
  0 < 1 < 2 ^ 32 /\
  [13] = counted_offsets 5 (Z.to_nat 1).
Proof.
  apply (table_built_counts_item_headers (C := example_collaborators)
           5 items_in_preamble_handle one_frame_metadata
           (dcm_bot_create [13] 1)).
  - reflexivity.
  - vm_compute. reflexivity.
Defined.

Lemma native_table_is_computed_witness :
  get_num_frames native_16bit_metadata = Done 2 /\
  0 < 2 < 2 ^ 32 /\
  Z.of_nat (List.length [0; 4]) = 2 /\
  nth 0 [0; 4] 0 = 0 /\
  exists desc : PixelDescription,
    create_pixel_description native_16bit_metadata = Done desc /\
    forall k : nat,
      Z.of_nat k < 2 ->
      nth k [0; 4] 0 =
      to_signed 64
        (uint64 (Z.of_nat k * rows desc * columns desc *
                 samples_per_pixel desc)).
Proof.
  apply (native_table_is_computed (C := example_collaborators)
           0 native_16bit_handle native_16bit_metadata
           (dcm_bot_create [0; 4] 2)).
  - reflexivity.
  - vm_compute. reflexivity.
Defined.

(** ** The pixel description and the frames *)

Lemma get_US_done (metadata : DcmDataSet) (tag v : Z) :
  get_US metadata tag = Done v ->
  is_uint16 v /\ dcm_dataset_get metadata tag <> None.
Proof.
  unfold get_US, is_uint16.
  destruct (dcm_dataset_get metadata tag) as [element |]; [| discriminate].
  intros E. apply bind_done in E. destruct E as (w & _ & E).
  injection E as <-. split; [| discriminate].
  unfold uint16. apply Z.mod_pos_bound. lia.
Qed.

Lemma get_US_failed (metadata : DcmDataSet) (tag : Z) (e : error) :
  get_US metadata tag = Failed e ->
  e = MissingPixelDescription /\ dcm_dataset_get metadata tag = None.
Proof.
  unfold get_US.
  destruct (dcm_dataset_get metadata tag) as [element |].
  - intros E. exfalso.
    pose proof (get_value_number_fails_within [] "US" element 0) as F.
    destruct (dcm_element_get_value_number "US" element 0);
      cbn [bind] in E; try discriminate.
    exact (F e0 eq_refl).
  - intros [= <-]. split; reflexivity.
Qed.

Lemma pixel_description_fields (metadata : DcmDataSet) (desc : PixelDescription) :
  create_pixel_description metadata = Done desc ->
  is_uint16 (rows desc) /\ is_uint16 (columns desc) /\
  is_uint16 (samples_per_pixel desc).
Proof.
  unfold create_pixel_description. intros E.
  apply bind_done in E. destruct E as (r & Er & E).
  apply bind_done in E. destruct E as (c & Ec & E).
  apply bind_done in E. destruct E as (s & Es & E).
  apply bind_done in E. destruct E as (ba & _ & E).
  apply bind_done in E. destruct E as (bs & _ & E).
  apply bind_done in E. destruct E as (pr & _ & E).
  apply bind_done in E. destruct E as (pc & _ & E).
  destruct (dcm_dataset_get metadata 0x00280004); [| discriminate].
  apply bind_done in E. destruct E as (pi & _ & E).
  injection E as <-. cbn.
  repeat split; eapply get_US_done; eassumption.
Qed.

(** X23.  A pixel description that [create_pixel_description] returns
    holds, for Rows, Columns, Samples per Pixel, Bits Allocated, Bits
    Stored, Pixel Representation and Planar Configuration, the first value
    of the element of the metadata as a 16-bit number, and the first value
    of Photometric Interpretation; its High Bit is never set.  When it
    fails, one of these eight elements is missing from the metadata. *)
Theorem pixel_description_takes_eight_elements (metadata : DcmDataSet) :
  (forall desc : PixelDescription,
     create_pixel_description metadata = Done desc ->
     get_US metadata 0x00280010 = Done (rows desc) /\
     get_US metadata 0x00280011 = Done (columns desc) /\
     get_US metadata 0x00280002 = Done (samples_per_pixel desc) /\
     get_US metadata 0x00280100 = Done (bits_allocated desc) /\
     get_US metadata 0x00280101 = Done (bits_stored desc) /\
     get_US metadata 0x00280103 = Done (pixel_representation desc) /\
     get_US metadata 0x00280006 = Done (planar_configuration desc) /\
     (exists element : Element,
        dcm_dataset_get metadata 0x00280004 = Some element /\
        dcm_element_get_value_string "CS" element 0 =
          Done (photometric_interpretation desc)) /\
     high_bit desc = None /\
     Forall is_uint16
       [rows desc; columns desc; samples_per_pixel desc; bits_allocated desc;
        bits_stored desc; pixel_representation desc;
        planar_configuration desc]) /\
  (forall e : error,
     create_pixel_description metadata = Failed e ->
     e = MissingPixelDescription /\
     exists tag : Z,
       In tag pixel_description_tags /\ dcm_dataset_get metadata tag = None).
Proof.
  unfold create_pixel_description. split.
  - intros desc E.
    apply bind_done in E. destruct E as (r & Er & E).
    apply bind_done in E. destruct E as (c & Ec & E).
    apply bind_done in E. destruct E as (s & Es & E).
    apply bind_done in E. destruct E as (ba & Eba & E).
    apply bind_done in E. destruct E as (bs & Ebs & E).
    apply bind_done in E. destruct E as (pr & Epr & E).
    apply bind_done in E. destruct E as (pc & Epc & E).
    destruct (dcm_dataset_get metadata 0x00280004) as [element |];
      [| discriminate].
    apply bind_done in E. destruct E as (pi & Epi & E).
    injection E as <-. cbn.
    repeat (split; [assumption |]).
    split; [exists element; split; [reflexivity | exact Epi] |].
    split; [reflexivity |].
    repeat (apply Forall_cons; [eapply get_US_done; eassumption |]).
    apply Forall_nil.
  - intros e E.
    repeat match type of E with
           | bind (get_US metadata ?tag) _ = Failed _ =>
               let v := fresh "v" in
               let G := fresh "G" in
               destruct (get_US metadata tag) as [v | ? | | |] eqn:G;
               cbn [bind] in E; try discriminate;
               [| injection E as ->; apply get_US_failed in G;
                  destruct G as [-> G]; split; [reflexivity |];
                  exists tag; split; [simpl; tauto | exact G]]
           end.
    destruct (dcm_dataset_get metadata 0x00280004) as [element |] eqn:Gpi.
    + exfalso.
      pose proof (get_value_string_fails_within [] "CS" element 0) as F.
      destruct (dcm_element_get_value_string "CS" element 0);
        cbn [bind] in E; try discriminate.
      exact (F e0 eq_refl).
    + injection E as <-. split; [reflexivity |].
      exists 0x00280004. split; [simpl; tauto | exact Gpi].
Qed.

Lemma int_mul_done (a b v : Z) :
  int_mul a b = Done v -> v = a * b /\ a * b <= INT_MAX.
Proof.
  unfold int_mul. destruct (Z.ltb_spec INT_MAX (a * b)); [discriminate |].
  intros [= <-]. split; [reflexivity | assumption].
Qed.

Section FramesRead.
Context {C : Collaborators}.

(** X24.  A frame that [dcm_file_read_frame] returns has a number from 1
    to the number of frames of the table and the Transfer Syntax UID of
    the handle.  Its value is a run of bytes of the file, as many as its
    length says.  The run is looked for at the Pixel Data offset plus the
    offset of the table for that frame plus, for an encapsulated transfer
    syntax, 20 bytes and 4 bytes for each frame of the table, where the
    header of an Item is read, whose length is the length of the frame;
    for any other transfer syntax plus 10 bytes, and the length is rows
    times columns times samples per pixel. *)
Theorem frame_read_is_a_run_of_the_file
    (file : DcmFile) (metadata : DcmDataSet) (bot : DcmBOT) (number : Z)
    (frame : DcmFrame) :
  dcm_file_read_frame file metadata bot number = Done frame ->
  let encapsulated :=
    dcm_is_encapsulated_transfer_syntax (f_transfer_syntax_uid file) in
  let num_frames := dcm_bot_get_num_frames bot in
  let first_frame_offset :=
    if encapsulated then uint32 (12 + 8 + 4 * num_frames) else 10 in
  exists (frame_offset : Z) (desc : PixelDescription),
    1 <= number <= num_frames /\
    nth_error (dcm_bot_offsets bot) (Z.to_nat (number - 1)) =
      Some frame_offset /\
    create_pixel_description metadata = Done desc /\
    frame_number frame = number /\
    f_transfer_syntax_uid file = Some (frame_transfer_syntax_uid frame) /\
    let start :=
      fseek (f_fp file)
        (to_signed 64
           (uint64 (f_pixel_data_offset file + first_frame_offset +
                    frame_offset)))
        SEEK_SET in
    let data := if encapsulated then advance start 8 else start in
    frame_value frame =
      firstn (Z.to_nat (frame_length frame)) (remaining data) /\
    Z.of_nat (List.length (frame_value frame)) = frame_length frame /\
    (if encapsulated
     then exists (iheader : IHeader) (n : Z),
            read_item_header start 0 = Done (iheader, data, n) /\
            iheader_get_tag iheader = TAG_ITEM /\
            frame_length frame = uint32 (iheader_get_length iheader)
     else frame_length frame =
            rows desc * columns desc * samples_per_pixel desc).
Proof.
  unfold dcm_file_read_frame. intros E.
  destruct (number =? 0); [discriminate |].
  apply bind_done in E. destruct E as (frame_offset & Eoff & E).
  unfold dcm_bot_get_frame_offset in Eoff.
  destruct ((1 <=? number) && (number <=? dcm_bot_get_num_frames bot))
    eqn:Hnum; [| discriminate].
  apply andb_prop in Hnum. destruct Hnum as [H1 H2].
  apply Z.leb_le in H1, H2.
  destruct (nth_error (dcm_bot_offsets bot) (Z.to_nat (number - 1)))
    as [offset |] eqn:Hnth; [| discriminate].
  injection Eoff as ->.
  apply bind_done in E. destruct E as (desc & Edesc & E).
  apply bind_done in E. destruct E as ([length fp1] & Elen & E).
  apply bind_done in E. destruct E as ([value fp2] & Eval & E).
  destruct (f_transfer_syntax_uid file) as [uid |] eqn:Huid;
    [| discriminate].
  injection E as <-. cbn [frame_number frame_value frame_length
                          frame_transfer_syntax_uid].
  apply fread_object_done in Eval. destruct Eval as (Hlen0 & Hav & -> & _).
  exists frame_offset, desc.
  split; [lia |]. split; [reflexivity |]. split; [exact Edesc |].
  split; [reflexivity |]. split; [reflexivity |].
  destruct (dcm_is_encapsulated_transfer_syntax (Some uid)).
  - apply bind_done in Elen. destruct Elen as ([[ih fp0] n0] & Eih & Elen).
    destruct (Z.eqb_spec (iheader_get_tag ih) TAG_ITEM) as [Htag | _];
      cbn [negb] in Elen; [| discriminate].
    injection Elen as <- <-.
    pose proof (read_item_header_done _ _ _ _ _ Eih) as Hfp0. subst fp0.
    split; [reflexivity |].
    split; [rewrite firstn_length_le; lia |].
    exists ih, n0. repeat split; assumption.
  - apply bind_done in Elen. destruct Elen as (rc & Erc & Elen).
    apply bind_done in Elen. destruct Elen as (rcs & Ercs & Elen).
    injection Elen as <- <-.
    split; [reflexivity |].
    split; [rewrite firstn_length_le; lia |].
    apply int_mul_done in Erc, Ercs.
    destruct Erc as [-> Hrc]. destruct Ercs as [-> Hrcs].
    destruct (pixel_description_fields _ _ Edesc) as (Hr & Hc & Hs).
    unfold is_uint16 in *. unfold uint32, INT_MAX in *.
    apply Z.mod_small. split; [nia | lia].
Qed.

End FramesRead.

Lemma frame_read_is_a_run_of_the_file_witness :
  exists (frame_offset : Z) (desc : PixelDescription),
    1 <= 2 <= 2 /\
    nth_error [0; 4] (Z.to_nat (2 - 1)) = Some frame_offset /\
    create_pixel_description native_16bit_metadata = Done desc /\
    2 = 2 /\
    f_transfer_syntax_uid native_16bit_handle = Some "1.2.840.10008.1.2.1" /\
    [2; 0; 3; 0] =
      firstn (Z.to_nat 4)
        (remaining
           (fseek (f_fp native_16bit_handle)
              (to_signed 64
                 (uint64 (f_pixel_data_offset native_16bit_handle + 10 +
                          frame_offset)))
              SEEK_SET)) /\
    Z.of_nat (List.length [2; 0; 3; 0]) = 4 /\
    4 = rows desc * columns desc * samples_per_pixel desc.
Proof.
  apply (frame_read_is_a_run_of_the_file (C := example_collaborators)
           native_16bit_handle native_16bit_metadata
           (dcm_bot_create [0; 4] 2) 2
           (mkDcmFrame 2 [2; 0; 3; 0] 4 2 2 1 16 16 0 0 "MONOCHROME2"
              "1.2.840.10008.1.2.1")).
  vm_compute. reflexivity.
Defined.

(** ** The strings of an element *)

Lemma cstring_no_nul (bs : list Z) : no_nul (cstring bs) = true.
Proof.
  induction bs as [| b bs IH]; simpl; [reflexivity |].
  destruct (Z.eqb_spec (b mod 256) 0) as [| Hnz]; [reflexivity |].
  simpl. rewrite IH, andb_true_r.
  apply negb_true_iff, Z.eqb_neq.
  unfold byte_of_char, char_of_byte.
  pose proof (Z.mod_pos_bound b 256 ltac:(lia)).
  rewrite nat_ascii_embedding by lia. lia.
Qed.

Lemma split_on_backslash_one_value (s : string) :
  no_nul s = true -> forallb one_value (split_on_backslash s) = true.
Proof.
  induction s as [| c s IH]; intros Hs; [reflexivity |].
  simpl in Hs. apply andb_prop in Hs. destruct Hs as [Hc Hs].
  specialize (IH Hs). cbn [split_on_backslash].
  destruct (is_backslash c) eqn:Hb.
  - cbn [forallb]. rewrite IH. reflexivity.
  - destruct (split_on_backslash s) as [| part parts].
    + cbn. unfold one_value. cbn. rewrite Hb, Hc. reflexivity.
    + cbn [forallb] in *. apply andb_prop in IH. destruct IH as [Hp Hps].
      rewrite Hps, andb_true_r.
      unfold one_value in *. cbn. rewrite Hb, Hc. exact Hp.
Qed.

Lemma forallb_filter (A : Type) (f g : A -> bool) (l : list A) :
  forallb f l = true -> forallb f (filter g l) = true.
Proof.
  induction l as [| a l IH]; simpl; [reflexivity |].
  intros H. apply andb_prop in H. destruct H as [Ha Hl].
  destruct (g a); simpl; [rewrite Ha |]; auto.
Qed.

Lemma forallb_filter_same (A : Type) (g : A -> bool) (l : list A) :
  forallb g (filter g l) = true.
Proof.
  induction l as [| a l IH]; simpl; [reflexivity |].
  destruct (g a) eqn:Ha; simpl; [rewrite Ha |]; auto.
Qed.

(** The parts of a text without a NUL: none holds a backslash; none is
    empty, unless the text is. *)
Lemma parse_character_string_parts (text : string) :
  Z.of_nat (String.length text) < 2 ^ 32 ->
  no_nul text = true ->
  let parts := fst (parse_character_string text) in
  forallb one_value parts = true /\
  (if nonempty text then forallb nonempty parts = true
   else parts = [EmptyString]).
Proof.
  intros Hlen Hnul. rewrite parse_character_string_split by exact Hlen.
  cbn [fst]. destruct (nonempty text).
  - split.
    + apply forallb_filter. now apply split_on_backslash_one_value.
    + apply forallb_filter_same.
  - split; reflexivity.
Qed.

Section StringsRead.
Context {C : Collaborators}.

(** X25.  No string of an element that [read_element] returns holds a
    backslash or a NUL character: a backslash in the bytes of the value
    always separates two strings, also for ST, LT, UR and UT, and the text
    ends at the first NUL.  No string is empty, except the one string of
    an empty text. *)
Theorem strings_read_hold_no_separator
    (fuel : nat) (fp fp' : FILE) (header : EHeader) (n n' : Z)
    (implicit : bool) (element : Element) :
  read_element fuel fp header n implicit = Done (element, fp', n') ->
  match element_value element with
  | Strings strings _ =>
      forallb one_value strings = true /\
      (strings = [EmptyString] \/ forallb nonempty strings = true)
  | Text str => one_value str = true
  | _ => True
  end.
Proof.
  intros E. destruct fuel as [| fuel]; [discriminate |].
  cbn [read_element] in E.
  pose proof (uint32_range (eheader_get_length header)) as Hlen.
  set (length := uint32 (eheader_get_length header)) in *.
  destruct (vr_in (eheader_vr header) character_string_vrs).
  - destruct (uint32 (length + 1) =? 0) eqn:Hwrap; [discriminate |].
    apply Z.eqb_neq in Hwrap.
    assert (Hmax : length + 1 < 2 ^ 32).
    { destruct (Z.eq_dec (length + 1) (2 ^ 32)) as [Heq | Hne]; [| lia].
      rewrite Heq in Hwrap. now vm_compute in Hwrap. }
    apply bind_done in E. destruct E as ([value fp1] & E1 & E).
    apply fread_object_done in E1. destruct E1 as (_ & Hav & Hvalue & _).
    assert (Hvlen : Z.of_nat (List.length value) = length).
    { subst value. rewrite firstn_length_le; lia. }
    pose proof (terminate_value_length header length value Hvlen) as Hterm.
    pose proof (cstring_length (terminate_value header length value)) as Htext.
    set (text := cstring (terminate_value header length value)) in *.
    destruct (parse_character_string_parts text ltac:(lia)
                (cstring_no_nul _)) as [Hone Hparts].
    destruct (parse_character_string text) as [strings vm].
    cbn [fst] in Hone, Hparts.
    destruct (vr_in _ single_string_vrs).
    + destruct (1 <? vm); [discriminate |].
      destruct strings as [| str strings]; [discriminate |].
      apply bind_done in E. destruct E as (el & Eel & E).
      injection E as <- _ _.
      apply dcm_element_create_done in Eel. destruct Eel as [-> _].
      cbn [element_value]. cbn [forallb] in Hone.
      now apply andb_prop in Hone.
    + apply bind_done in E. destruct E as (el & Eel & E).
      injection E as <- _ _.
      apply dcm_element_create_done in Eel. destruct Eel as [-> _].
      cbn [element_value]. split; [exact Hone |].
      destruct (nonempty text); [right | left]; exact Hparts.
  - destruct (eheader_check_vr header "SQ").
    + destruct (length =? 0).
      * apply bind_done in E. destruct E as (el & Eel & E).
        injection E as <- _ _.
        apply dcm_element_create_done in Eel. destruct Eel as [-> _].
        exact I.
      * apply bind_done in E. destruct E as ([[value fp1] n1] & _ & E).
        apply bind_done in E. destruct E as (el & Eel & E).
        injection E as <- _ _.
        apply dcm_element_create_done in Eel. destruct Eel as [-> _].
        exact I.
    + destruct (numeric_vr header) as [[size convert] |].
      * apply bind_done in E. destruct E as ([[values fp1] n1] & _ & E).
        apply bind_done in E. destruct E as (el & Eel & E).
        injection E as <- _ _.
        apply dcm_element_create_done in Eel. destruct Eel as [-> _].
        exact I.
      * destruct (vr_in _ opaque_vrs);
          [| destruct (fread _ fp); discriminate].
        apply bind_done in E. destruct E as ([value fp1] & _ & E).
        apply bind_done in E. destruct E as (el & Eel & E).
        injection E as <- _ _.
        apply dcm_element_create_done in Eel. destruct Eel as [-> _].
        exact I.
Qed.

End StringsRead.

Lemma strings_read_hold_no_separator_witness :
  forallb one_value ["a"; "b"] = true /\
  (["a"; "b"] = [EmptyString] \/ forallb nonempty ["a"; "b"] = true).
Proof.
  apply (strings_read_hold_no_separator (C := example_collaborators)
           1 adjacent_separators (advance adjacent_separators 4)
           lo_length_4 0 4 false
           (mkElement 0x00100020 "LO" (Strings ["a"; "b"] 2))).
  vm_compute. reflexivity.
Defined.

(** ** The end of a Sequence *)

Section SequenceEnds.
Context {C : Collaborators}.

(** X26.  For an SQ element whose declared length is not 0, where the
    stream goes on with an Item header: when its tag is the Sequence
    Delimitation tag, [read_element] returns the empty Sequence 8 bytes
    further on, whatever the length field of the delimiter holds; when it
    is the Item Delimitation tag, it fails with the message of an
    unexpected Item; for a tag that is neither of these nor the Item tag,
    it fails with the message of an invalid Item tag. *)
Theorem sequence_ends_at_its_delimiter
    (fuel : nat) (fp : FILE) (header : EHeader) (n : Z) (implicit : bool)
    (item_tag item_length : Z) (rest : list Z) :
  eheader_check_vr header "SQ" = true ->
  uint32 (eheader_get_length header) <> 0 ->
  0 <= item_tag < 2 ^ 32 -> 0 <= item_length < 2 ^ 32 ->
  remaining fp = item_bytes item_tag item_length rest ->
  dcm_element_accepts
    (mkElement (eheader_get_tag header) "SQ" (Sequence [])) = true ->
  item_tag <> TAG_ITEM ->
  read_element (S (S fuel)) fp header n implicit =
    (if item_tag =? TAG_SQ_DELIM
     then Done (mkElement (eheader_get_tag header) "SQ" (Sequence []),
                advance fp 8, size_t (n + 8))
     else if item_tag =? TAG_ITEM_DELIM then Failed ExpectedItem
     else Failed InvalidItemTag).
Proof.
  intros Hsq Hlen Htag Hilen E Hacc Hitem.
  assert (Hvr : eheader_vr header = "SQ") by (now apply String.eqb_eq).
  unfold item_bytes in E.
  destruct (read_tag_prefix _ _ _ 0 Htag E) as [R1 E1].
  destruct (fread_object_prefix _ _ _ E1) as [R2 _].
  rewrite u32le_length in R2. change (Z.of_nat 4) with 4 in R2.
  rewrite advance_advance in R2 by lia. change (4 + 4) with 8 in R2.
  pose proof (uint32_range (eheader_get_length header)) as Hrange.
  assert (Hhead :
    read_element (S (S fuel)) fp header n implicit =
    '(value, fp1, n_seq) <-
       (header' <- iheader_create item_tag item_length ;;
        let '(ih, fp1, n1) := (header', advance fp 8, 8) in
        if iheader_get_tag ih =? TAG_SQ_DELIM then Done ([], fp1, n1)
        else if negb (iheader_get_tag ih =? TAG_ITEM) then Failed ExpectedItem
        else
          '(item_dataset, fp2, n_item) <-
             read_item_elements fuel fp1 (eheader_get_tag header)
               (uint32 (iheader_get_length ih)) implicit 0 [] ;;
          read_items fuel fp2 (eheader_get_tag header)
            (uint32 (eheader_get_length header)) implicit
            (size_t (n1 + n_item)) ([] ++ [item_dataset])) ;;
     element <- dcm_element_create (eheader_get_tag header) "SQ"
                  (Sequence value) ;;
     Done (element, fp1, size_t (n + n_seq))).
  { cbn [read_element]. rewrite Hsq, Hvr.
    change (vr_in "SQ" character_string_vrs) with false. cbv iota.
    destruct (Z.eqb_spec (uint32 (eheader_get_length header)) 0) as [| _];
      [contradiction |].
    cbn [read_items].
    destruct (Z.ltb_spec 0 (uint32 (eheader_get_length header))) as [_ |];
      [| lia].
    unfold read_item_header. rewrite R1. cbn [bind]. rewrite R2. cbn [bind].
    rewrite le_decode_u32le by lia.
    destruct (iheader_create item_tag item_length); reflexivity. }
  rewrite Hhead. unfold iheader_create.
  destruct (Z.eqb_spec item_tag TAG_ITEM) as [| _]; [contradiction |].
  destruct (Z.eqb_spec item_tag TAG_SQ_DELIM) as [-> | Hsd].
  - change (TAG_SQ_DELIM =? TAG_ITEM_DELIM) with false.
    cbn [orb negb bind iheader_get_tag].
    change (TAG_SQ_DELIM =? TAG_SQ_DELIM) with true.
    cbn [bind]. unfold dcm_element_create.
    match goal with
    | |- context [if ?c then _ else _] =>
        replace c with true by (symmetry; exact Hacc)
    end.
    reflexivity.
  - destruct (Z.eqb_spec item_tag TAG_ITEM_DELIM) as [-> | Hid].
    + reflexivity.
    + reflexivity.
Qed.

End SequenceEnds.

(** ** File Meta Information first *)

Section FileMetaFirst.
Context {C : Collaborators}.

(** X27.  On a handle whose File Meta Information has not been read,
    [dcm_file_read_metadata] does what a call of
    [dcm_file_read_file_meta] followed by [dcm_file_read_metadata] on the
    handle it leaves does: the same Data Set and handle, or the same
    failure. *)
Theorem metadata_reads_file_meta_first (fuel : nat) (file : DcmFile) :
  f_offset file = 0 ->
  dcm_file_read_metadata fuel file =
  ('(_, file1) <- dcm_file_read_file_meta fuel file ;;
   dcm_file_read_metadata fuel file1).
Proof.
  intros Hoff.
  unfold dcm_file_read_metadata at 1, read_metadata_trace, ensure_file_meta.
  rewrite Hoff. cbn [Z.eqb].
  destruct (dcm_file_read_file_meta fuel file) as [[fm file1] | | | |] eqn:E;
    cbn [bind]; try reflexivity.
  apply read_file_meta_done in E. destruct E as (_ & _ & H132 & _).
  unfold dcm_file_read_metadata, read_metadata_trace, ensure_file_meta.
  destruct (Z.eqb_spec (f_offset file1) 0) as [H0 | _]; [lia |].
  reflexivity.
Qed.

End FileMetaFirst.

Lemma sequence_ends_at_its_delimiter_witness :
  read_element (C := example_collaborators) 2 delimiter_only
    sq_undefined_length 0 false =
    Done (mkElement (eheader_get_tag sq_undefined_length) "SQ" (Sequence []),
          advance delimiter_only 8, size_t (0 + 8)).
Proof.
  apply (sequence_ends_at_its_delimiter (C := example_collaborators)
           0 delimiter_only sq_undefined_length 0 false TAG_SQ_DELIM 7 []).
  - reflexivity.
  - vm_compute. discriminate.
  - unfold TAG_SQ_DELIM. lia.
  - lia.
  - reflexivity.
  - reflexivity.
  - vm_compute. discriminate.
Defined.

Lemma metadata_reads_file_meta_first_witness :
  dcm_file_read_metadata (C := example_collaborators) 50
    (dcm_file_create implicit_file) =
  ('(_, file1) <- dcm_file_read_file_meta (C := example_collaborators) 50
                    (dcm_file_create implicit_file) ;;
   dcm_file_read_metadata (C := example_collaborators) 50 file1).
Proof.
  apply (metadata_reads_file_meta_first (C := example_collaborators)
           50 (dcm_file_create implicit_file)).
  reflexivity.
Defined.

(** ** The mode of the Data Set, element by element *)

Section ModeOfTheDataSet.
Context {C : Collaborators}.







End ModeOfTheDataSet.


(** * The arguments of [dcm-dump] *)

Lemma is_flag_v (arg : string) :
  is_flag "v" arg = true ->
  dashed arg = true /\
  Ascii.eqb (char_at arg 1) "h" = false /\
  Ascii.eqb (char_at arg 1) "V" = false /\
  Ascii.eqb (char_at arg 1) "v" = true.
Proof.
  unfold is_flag. intros H. apply andb_prop in H. destruct H as [Hd Hv].
  split; [exact Hd |].
  pose proof Hv as Hc. apply Ascii.eqb_eq in Hc. rewrite Hc.
  repeat split.
Qed.

(** X28.  [main] of [dcm-dump] goes on to read a file exactly when its
    arguments are any number of arguments that start with [-v], followed
    by one argument that does not start with a dash, which is the path;
    the log level is raised when there is at least one [-v].  Of a flag
    only the first two characters are looked at. *)
Theorem dump_reads_the_one_path
    (args : list string) (log_info : bool) (path : string) (log_info' : bool) :
  main_arguments args log_info = Reads path log_info' <->
  exists flags : list string,
    args = flags ++ [path] /\
    forallb (is_flag "v") flags = true /\
    dashed path = false /\
    log_info' = log_info || some flags.
Proof.
  split.
  - revert log_info. induction args as [| arg rest IH]; intros log_info E;
      [discriminate |].
    cbn [main_arguments] in E. fold (dashed arg) in E.
    destruct (dashed arg) eqn:Hd.
    + destruct (Ascii.eqb (char_at arg 1) "h"); [discriminate |].
      destruct (Ascii.eqb (char_at arg 1) "V"); [discriminate |].
      destruct (Ascii.eqb (char_at arg 1) "v") eqn:Hv; [| discriminate].
      apply IH in E. destruct E as (flags & -> & Hall & Hp & ->).
      exists (arg :: flags). cbn [forallb some app].
      unfold is_flag at 1. rewrite Hd, Hv, Hall, orb_true_r.
      repeat split. exact Hp.
    + destruct rest as [| more rest]; [| discriminate].
      injection E as <- <-. exists []. cbn [some app forallb].
      rewrite orb_false_r. repeat split. exact Hd.
  - intros (flags & -> & Hall & Hp & ->). revert log_info.
    induction flags as [| flag flags IH]; intros log_info.
    + cbn [app main_arguments some]. fold (dashed path).
      rewrite Hp, orb_false_r. reflexivity.
    + cbn [forallb] in Hall. apply andb_prop in Hall.
      destruct Hall as [Hflag Hall].
      apply is_flag_v in Hflag. destruct Hflag as (Hd & Hh & HV & Hv).
      cbn [app main_arguments some]. fold (dashed flag).
      rewrite Hd, Hh, HV, Hv, (IH Hall), orb_true_r. reflexivity.
Qed.

(** X29.  [main] of [dcm-dump] returns [EXIT_SUCCESS] without reading a
    file exactly when the first argument that does not start with [-v]
    starts with [-h] or [-V]; what follows that argument, a path or none,
    is not looked at. *)
Theorem dump_help_and_version_exit_first
    (args : list string) (log_info : bool) :
  main_arguments args log_info = Exits EXIT_SUCCESS <->
  exists (flags : list string) (flag : string) (rest : list string),
    args = flags ++ flag :: rest /\
    forallb (is_flag "v") flags = true /\
    is_flag "h" flag || is_flag "V" flag = true.
Proof.
  split.
  - revert log_info. induction args as [| arg rest IH]; intros log_info E;
      [discriminate |].
    cbn [main_arguments] in E. fold (dashed arg) in E.
    destruct (dashed arg) eqn:Hd.
    + destruct (Ascii.eqb (char_at arg 1) "h") eqn:Hh.
      { exists [], arg, rest. unfold is_flag. rewrite Hd, Hh.
        repeat split. }
      destruct (Ascii.eqb (char_at arg 1) "V") eqn:HV.
      { exists [], arg, rest. unfold is_flag. rewrite Hd, Hh, HV.
        repeat split. }
      destruct (Ascii.eqb (char_at arg 1) "v") eqn:Hv; [| discriminate].
      apply IH in E. destruct E as (flags & flag & rest' & -> & Hall & Hf).
      exists (arg :: flags), flag, rest'. cbn [forallb app].
      unfold is_flag at 1. rewrite Hd, Hv, Hall. repeat split. exact Hf.
    + destruct rest; discriminate.
  - intros (flags & flag & rest & -> & Hall & Hf). revert log_info.
    induction flags as [| f flags IH]; intros log_info.
    + cbn [app main_arguments]. fold (dashed flag). unfold is_flag in Hf.
      destruct (dashed flag); [| discriminate]. cbn [andb] in Hf.
      destruct (Ascii.eqb (char_at flag 1) "h"); [reflexivity |].
      cbn [orb] in Hf. rewrite Hf. reflexivity.
    + cbn [forallb] in Hall. apply andb_prop in Hall.
      destruct Hall as [Hflag Hall].
      apply is_flag_v in Hflag. destruct Hflag as (Hd & Hh & HV & Hv).
      cbn [app main_arguments]. fold (dashed f).
      rewrite Hd, Hh, HV, Hv. apply (IH Hall).
Qed.
